(** * Homigo: geocoding client, address autocomplete and map pin placement

    A shallow embedding of the JavaScript sources

    - [GeocodingService] (utils/geocoding.js): [geocodeAddress],
      [reverseGeocode], [getAutocompleteSuggestions];
    - the listing controllers (controllers/listings.js): [createListing],
      [updateListing], [getAddressSuggestions];
    - the browser class [ListingMap]: [onMapClick], [onMarkerDragEnd],
      [reverseGeocode] with its retry loop, [setLocation],
      [searchAndSetLocation];
    - the browser class [AddressAutocomplete]: [onInput],
      [fetchSuggestions], [displaySuggestions], [selectSuggestion],
      [updateRelatedFields], [updateMapLocation];

    followed by the properties of the specification that were checked
    against them.

    Conventions.  An asynchronous function of the server is run to the
    value its promise settles with, next to the requests it sent; the
    provider is a function from the request to what axios gives back.
    The browser classes are driven by events: an asynchronous method is
    cut at its [await]s, and the calls that are suspended there are kept
    in the state until the event that resumes them.  Styling, logging,
    and DOM events without a listener in the sources are left out. *)

From Equations Require Import Equations.
From Equations.Prop Require Import Logic.
From Stdlib Require Import ZArith List Ascii String Lia Bool.
From stdpp Require Import base strings gmap list pretty.
Import ListNotations.

Local Open Scope string_scope.
Local Open Scope Z_scope.

(** ** JavaScript values *)

Module Js.

(** A JavaScript number.  [Dec m k] is the number whose shortest decimal
    literal is [m / 10^k]; [NaN] and the two infinities are kept apart. *)
Inductive JsNum : Type :=
| NaN
| Inf (negative : bool)
| Dec (mant : Z) (scale : nat).

#[warnings="-register-all"] Inductive JsVal : Type :=
| VUndefined
| VNull
| VBool (b : bool)
| VNum (n : JsNum)
| VStr (s : string)
| VArr (elems : list JsVal)
| VObj (fields : list (string * JsVal)).

Definition num (m : Z) (k : nat) : JsVal := VNum (Dec m k).
Definition int (m : Z) : JsVal := VNum (Dec m 0).

Definition pow10 (k : nat) : Z := 10 ^ Z.of_nat k.

(** [a <= b] on numbers; any comparison with [NaN] is false. *)
Definition num_le (a b : JsNum) : bool :=
  match a, b with
  | NaN, _ | _, NaN => false
  | Inf true, _ => true
  | _, Inf false => true
  | Inf false, _ => false
  | _, Inf true => false
  | Dec m1 k1, Dec m2 k2 => m1 * pow10 k2 <=? m2 * pow10 k1
  end.

Definition num_eq (a b : JsNum) : bool :=
  match a, b with
  | NaN, _ | _, NaN => false
  | Inf s1, Inf s2 => Bool.eqb s1 s2
  | Dec m1 k1, Dec m2 k2 => m1 * pow10 k2 =? m2 * pow10 k1
  | _, _ => false
  end.

(** ToBoolean. *)
Definition truthy (v : JsVal) : bool :=
  match v with
  | VUndefined | VNull => false
  | VBool b => b
  | VNum NaN => false
  | VNum (Inf _) => true
  | VNum (Dec m _) => negb (m =? 0)
  | VStr s => negb (String.eqb s "")
  | VArr _ | VObj _ => true
  end.

Definition falsy (v : JsVal) : bool := negb (truthy v).

Definition typeof (v : JsVal) : string :=
  match v with
  | VUndefined => "undefined"
  | VNull => "object"
  | VBool _ => "boolean"
  | VNum _ => "number"
  | VStr _ => "string"
  | VArr _ | VObj _ => "object"
  end.

Definition is_number (v : JsVal) : bool :=
  match v with VNum _ => true | _ => false end.
Definition is_array (v : JsVal) : bool :=
  match v with VArr _ => true | _ => false end.

(** [a || b] *)
Definition or_else (a b : JsVal) : JsVal := if truthy a then a else b.

(** Own-property read on an object literal; a missing key reads as
    [undefined]. *)
Fixpoint lookup_field (k : string) (fs : list (string * JsVal)) : JsVal :=
  match fs with
  | [] => VUndefined
  | (k', v) :: rest => if String.eqb k k' then v else lookup_field k rest
  end.

(** [v.k] for a value that is known not to be [null] or [undefined]. *)
Definition prop (v : JsVal) (k : string) : JsVal :=
  match v with
  | VObj fs => lookup_field k fs
  | VArr l => if String.eqb k "length" then int (Z.of_nat (List.length l)) else VUndefined
  | VStr s => if String.eqb k "length" then int (Z.of_nat (String.length s)) else VUndefined
  | _ => VUndefined
  end.

(** *** Strings *)

(** A string is a sequence of one-byte characters, one per code unit,
    so [String.length] is [.length].  The white space recognised is the
    ASCII one (9 to 13 and 32): U+00A0 and the other Unicode spaces,
    which [String.prototype.trim] also strips, are kept; likewise
    [toLowerCase] maps the letters A to Z only. *)
Definition is_space (c : ascii) : bool :=
  let n := nat_of_ascii c in
  (Nat.eqb n 32 || (Nat.leb 9 n && Nat.leb n 13))%bool.

Fixpoint trim_start (s : string) : string :=
  match s with
  | String c t => if is_space c then trim_start t else s
  | EmptyString => EmptyString
  end.

Fixpoint trim_end (s : string) : string :=
  match s with
  | String c t =>
      match trim_end t with
      | EmptyString => if is_space c then EmptyString else String c EmptyString
      | t' => String c t'
      end
  | EmptyString => EmptyString
  end.

(** [String.prototype.trim] on the ASCII white space characters. *)
Definition trim (s : string) : string := trim_end (trim_start s).

(** [hay.includes(needle)]. *)
Fixpoint includes (hay needle : string) : bool :=
  (String.prefix needle hay ||
   match hay with
   | String _ t => includes t needle
   | EmptyString => false
   end)%bool.

Definition lower_char (c : ascii) : ascii :=
  let n := nat_of_ascii c in
  if (Nat.leb 65 n && Nat.leb n 90)%bool then ascii_of_nat (n + 32) else c.

Fixpoint toLowerCase (s : string) : string :=
  match s with
  | String c t => String (lower_char c) (toLowerCase t)
  | EmptyString => EmptyString
  end.

Fixpoint repeat_char (c : ascii) (n : nat) : string :=
  match n with
  | O => EmptyString
  | S n' => String c (repeat_char c n')
  end.

Definition str_take (n : nat) (s : string) : string := String.substring 0 n s.
Definition str_drop (n : nat) (s : string) : string :=
  String.substring n (String.length s - n) s.

(** *** Number to string *)

(** Strip the trailing decimal zeros of a positive integer: returns the
    stripped integer and how many zeros were removed. *)
Fixpoint strip_zeros (fuel : nat) (m : Z) (removed : Z) : Z * Z :=
  match fuel with
  | O => (m, removed)
  | S fuel' =>
      if (m mod 10 =? 0) && negb (m =? 0)
      then strip_zeros fuel' (m / 10) (removed + 1)
      else (m, removed)
  end.

Definition digits (m : Z) : string := pretty (Z.to_N m).

(** Number::toString of a positive finite number [m / 10^k] *)
Definition pos_to_string (m : Z) (k : nat) : string :=
  let '(s, t) := strip_zeros (Z.to_nat (Z.log2 m) + 1) m 0 in
  let d := digits s in
  let len := Z.of_nat (String.length d) in
  let n := len + t - Z.of_nat k in
  if (len <=? n) && (n <=? 21) then
    d +:+ repeat_char "0" (Z.to_nat (n - len))
  else if (0 <? n) && (n <=? 21) then
    str_take (Z.to_nat n) d +:+ "." +:+ str_drop (Z.to_nat n) d
  else if (-6 <? n) && (n <=? 0) then
    "0." +:+ repeat_char "0" (Z.to_nat (- n)) +:+ d
  else
    let e := n - 1 in
    let es := (if 0 <=? e then "+" else "-") +:+ digits (Z.abs e) in
    if len =? 1 then d +:+ "e" +:+ es
    else str_take 1 d +:+ "." +:+ str_drop 1 d +:+ "e" +:+ es.

(** Number::toString, as used by template literals and [String(x)]. *)
Definition num_to_string (x : JsNum) : string :=
  match x with
  | NaN => "NaN"
  | Inf true => "-Infinity"
  | Inf false => "Infinity"
  | Dec m k =>
      if m =? 0 then "0"
      else if m <? 0 then "-" +:+ pos_to_string (- m) k
      else pos_to_string m k
  end.

(** [x.toFixed(f)]: the integer [n] nearest to [x * 10^f], the larger
    one at a tie, taken on the decimal value of [x], printed with [f]
    decimals.  [Number.prototype.toFixed] rounds the stored double, so
    at a decimal tie (12.34565 to 4 decimals) the two can differ in the
    last digit. *)
Definition toFixed (x : JsNum) (f : nat) : string :=
  match x with
  | Dec m k =>
      let a := Z.abs m in
      if pow10 (21 + k) <=? a then num_to_string x
      else
        let n := (2 * a * pow10 f + pow10 k) / (2 * pow10 k) in
        let d := digits n in
        let d := repeat_char "0" (S f - String.length d) +:+ d in
        let cut := (String.length d - f)%nat in
        let body :=
          if Nat.eqb f 0 then d
          else str_take cut d +:+ "." +:+ str_drop cut d in
        if m <? 0 then "-" +:+ body else body
  | _ => num_to_string x
  end.

(** ToString, for property keys and template literals. *)
Fixpoint to_string (v : JsVal) : string :=
  match v with
  | VUndefined => "undefined"
  | VNull => "null"
  | VBool true => "true"
  | VBool false => "false"
  | VNum n => num_to_string n
  | VStr s => s
  | VArr l =>
      String.concat ","
        (List.map (fun x => match x with
                            | VUndefined | VNull => ""
                            | _ => to_string x
                            end) l)
  | VObj _ => "[object Object]"
  end.

(** [a === b].  Arrays and objects are compared by reference in
    JavaScript; two values built at different places are never the same
    reference, so they compare unequal here. *)
Definition strict_eq (a b : JsVal) : bool :=
  match a, b with
  | VUndefined, VUndefined => true
  | VNull, VNull => true
  | VBool x, VBool y => Bool.eqb x y
  | VNum x, VNum y => num_eq x y
  | VStr x, VStr y => String.eqb x y
  | _, _ => false
  end.

(** *** Exceptions *)

Record JsError : Type := mkError {
  err_name : string;
  err_message : string;
  err_status : option Z   (* [error.response.status] of an axios error *)
}.

Definition TypeError (msg : string) : JsError := mkError "TypeError" msg None.
Definition Error (msg : string) : JsError := mkError "Error" msg None.

Inductive Completion (A : Type) : Type :=
| Normal (a : A)
| Throw (e : JsError).
Arguments Normal {A} a.
Arguments Throw {A} e.

Definition bind {A B} (c : Completion A) (k : A -> Completion B) : Completion B :=
  match c with
  | Normal a => k a
  | Throw e => Throw e
  end.

(** [try { body } catch (error) { handler }] *)
Definition try_catch {A} (body : Completion A) (handler : JsError -> Completion A)
  : Completion A :=
  match body with
  | Normal a => Normal a
  | Throw e => handler e
  end.

(** [v.k] in general: reading a property of [null] or [undefined]
    throws. *)
Definition get (v : JsVal) (k : string) : Completion JsVal :=
  match v with
  | VUndefined =>
      Throw (TypeError ("Cannot read properties of undefined (reading '" +:+ k +:+ "')"))
  | VNull =>
      Throw (TypeError ("Cannot read properties of null (reading '" +:+ k +:+ "')"))
  | _ => Normal (prop v k)
  end.

(** [a < b] on numbers; any comparison with [NaN] is false. *)
Definition num_lt (a b : JsNum) : bool :=
  match a, b with
  | NaN, _ | _, NaN => false
  | _, _ => negb (num_le b a)
  end.

Definition isNaN (a : JsNum) : bool :=
  match a with NaN => true | _ => false end.

End Js.

Import Js.

Declare Scope js_scope.
Delimit Scope js_scope with js.
Notation "x <- c ;; k" := (Js.bind c (fun x => k))
  (at level 100, c at next level, right associativity) : js_scope.

Local Open Scope js_scope.

(** ** The geocoding service (utils/geocoding.js) *)

Module Geocoding.

(** One [axios.get(url, { params, timeout })]. *)
Record Request : Type := mkRequest {
  req_url : string;
  req_params : list (string * JsVal);
  req_timeout : Z
}.

(** What the code observes of [data.results] in a response body.
    [RExotic] stands for any truthy value that is not an array (a string,
    a number, an object): it records what [results.length > 0] and
    [results[0]] evaluate to on that value; it has no [map] method. *)
Inductive Results : Type :=
| RFalsy
| RArray (items : list JsVal)
| RExotic (length_positive : bool) (item0 : JsVal).

(** The response body: [null], another falsy value, or a truthy value
    with its [results] property. *)
Inductive ResponseData : Type :=
| DNull
| DFalsy
| DValue (results : Results).

(** axios resolves on a 2xx status and rejects otherwise (an HTTP error
    status carries [err_status]; a timeout or a network failure does
    not). *)
Inductive AxiosOutcome : Type :=
| AxResolved (data : ResponseData)
| AxRejected (e : JsError).

Definition Network : Type := Request -> AxiosOutcome.

(** The requests sent upstream and the value the returned promise
    settles with. *)
Record Run (A : Type) : Type := mkRun {
  sent : list Request;
  result : Completion A
}.
Arguments mkRun {A} sent result.
Arguments sent {A} r.
Arguments result {A} r.

Record GeocodingService : Type := mkService {
  apiKey : JsVal;
  baseUrl : string
}.

Definition createGeocodingService (key : JsVal) : GeocodingService :=
  mkService key "https://api.geoapify.com/v1/geocode".

(** [DEFAULT_COORDINATES] (Bhubaneswar): lat 20.2960, lng 85.8246. *)
Definition DEFAULT_COORDINATES_lat : JsNum := Dec 20296 3.
Definition DEFAULT_COORDINATES_lng : JsNum := Dec 858246 4.

(** [s.trim()] as a method call: not a function on a non-string. *)
Definition call_trim (v : JsVal) : Completion JsVal :=
  match v with
  | VStr s => Normal (VStr (trim s))
  | VUndefined | VNull => Throw (TypeError "Cannot read properties of undefined (reading 'trim')")
  | _ => Throw (TypeError "trim is not a function")
  end.

(** [data && data.results && data.results.length > 0], then
    [data.results[0]]. *)
Definition first_result (d : ResponseData) : option JsVal :=
  match d with
  | DValue (RArray (x :: _)) => Some x
  | DValue (RExotic true x) => Some x
  | _ => None
  end.

(** [data && data.results] *)
Definition truthy_results (d : ResponseData) : option Results :=
  match d with
  | DValue RFalsy => None
  | DValue r => Some r
  | _ => None
  end.

(** [result.city || result.county || ''] *)
Definition city_of (r : JsVal) : JsVal :=
  or_else (or_else (prop r "city") (prop r "county")) (VStr "").

Definition geocode_success (address result : JsVal) : Completion JsVal :=
  lon <- get result "lon" ;;
  Normal (VObj [ ("success", VBool true);
                 ("coordinates", VArr [lon; prop result "lat"]);
                 ("address", or_else (prop result "formatted") address);
                 ("country", or_else (prop result "country") (VStr ""));
                 ("city", city_of result);
                 ("state", or_else (prop result "state") (VStr ""));
                 ("error", VNull) ]).

Definition geocode_failure (msg : string) (address : JsVal) : JsVal :=
  VObj [ ("success", VBool false);
         ("error", VStr msg);
         ("coordinates", VNull);
         ("address", address) ].

(** The [catch] block of [geocodeAddress]. *)
Definition geocode_catch (address : JsVal) (error : JsError) : Completion JsVal :=
  let generic := geocode_failure ("Geocoding failed: " +:+ err_message error) address in
  match err_status error with
  | Some statusCode =>
      if statusCode =? 401 then
        Normal (geocode_failure "Invalid API key for geocoding service" address)
      else if statusCode =? 429 then
        Normal (geocode_failure "Rate limit exceeded for geocoding service" address)
      else Normal generic
  | None => Normal generic
  end.

Definition geocodeAddress (svc : GeocodingService) (address : JsVal) (net : Network)
  : Run JsVal :=
  if falsy address || negb (String.eqb (typeof address) "string") then
    mkRun [] (Normal (geocode_failure "Invalid address provided" VNull))
  else
    match call_trim address with
    | Throw e => mkRun [] (geocode_catch address e)
    | Normal text =>
        let req := mkRequest (baseUrl svc +:+ "/search")
                     [ ("text", text); ("apiKey", apiKey svc);
                       ("limit", int 1); ("format", VStr "json") ] 10000 in
        mkRun [req]
          (try_catch
             (match net req with
              | AxRejected e => Throw e
              | AxResolved data =>
                  match first_result data with
                  | Some r => geocode_success address r
                  | None =>
                      Normal (geocode_failure
                                "No results found for the provided address" address)
                  end
              end)
             (geocode_catch address))
    end.

(** The template literal [`${lat}, ${lng}`]. *)
Definition coords_label (lat lng : JsVal) : string :=
  to_string lat +:+ ", " +:+ to_string lng.

Definition reverse_success (lat lng result : JsVal) : Completion JsVal :=
  formatted <- get result "formatted" ;;
  Normal (VObj [ ("success", VBool true);
                 ("address", or_else formatted (VStr (coords_label lat lng)));
                 ("country", or_else (prop result "country") (VStr ""));
                 ("city", city_of result);
                 ("state", or_else (prop result "state") (VStr ""));
                 ("error", VNull) ]).

Definition reverse_failure (msg : string) (address : JsVal) : JsVal :=
  VObj [ ("success", VBool false);
         ("error", VStr msg);
         ("address", address) ].

Definition reverse_catch (lat lng : JsVal) (error : JsError) : Completion JsVal :=
  Normal (reverse_failure ("Reverse geocoding failed: " +:+ err_message error)
            (VStr (coords_label lat lng))).

Definition reverseGeocode (svc : GeocodingService) (lat lng : JsVal) (net : Network)
  : Run JsVal :=
  if falsy lat || falsy lng
     || negb (String.eqb (typeof lat) "number")
     || negb (String.eqb (typeof lng) "number") then
    mkRun [] (Normal (reverse_failure "Invalid coordinates provided" VNull))
  else
    let req := mkRequest (baseUrl svc +:+ "/reverse")
                 [ ("lat", lat); ("lon", lng); ("apiKey", apiKey svc);
                   ("limit", int 1); ("format", VStr "json") ] 10000 in
    mkRun [req]
      (try_catch
         (match net req with
          | AxRejected e => Throw e
          | AxResolved data =>
              match first_result data with
              | Some r => reverse_success lat lng r
              | None =>
                  Normal (reverse_failure
                            "No address found for the provided coordinates"
                            (VStr (coords_label lat lng)))
              end
          end)
         (reverse_catch lat lng)).

Definition suggestion_of (result : JsVal) : Completion JsVal :=
  formatted <- get result "formatted" ;;
  Normal (VObj [ ("address", formatted);
                 ("coordinates", VArr [prop result "lon"; prop result "lat"]);
                 ("country", or_else (prop result "country") (VStr ""));
                 ("city", city_of result);
                 ("state", or_else (prop result "state") (VStr "")) ]).

(** [items.map(f)] where [f] may throw. *)
Fixpoint map_completion (f : JsVal -> Completion JsVal) (l : list JsVal)
  : Completion (list JsVal) :=
  match l with
  | [] => Normal []
  | x :: rest =>
      y <- f x ;;
      ys <- map_completion f rest ;;
      Normal (y :: ys)
  end.

Definition autocomplete_result (success : bool) (suggestions : list JsVal) (error : JsVal)
  : JsVal :=
  VObj [ ("success", VBool success);
         ("suggestions", VArr suggestions);
         ("error", error) ].

Definition autocomplete_catch (error : JsError) : Completion JsVal :=
  Normal (autocomplete_result false []
            (VStr ("Autocomplete failed: " +:+ err_message error))).

(** [query.length < 3] for a value already known to be a string. *)
Definition shorter_than (v : JsVal) (n : nat) : bool :=
  match v with
  | VStr s => Nat.ltb (String.length s) n
  | _ => false
  end.

Definition longer_than (v : JsVal) (n : nat) : bool :=
  match v with
  | VStr s => Nat.ltb n (String.length s)
  | _ => false
  end.

(** The request parameters of the autocomplete call; [options] defaults
    to [{}] when it is [undefined]. *)
Definition autocomplete_params (svc : GeocodingService) (query options : JsVal)
  : Completion (list (string * JsVal)) :=
  let options := match options with VUndefined => VObj [] | _ => options end in
  text <- call_trim query ;;
  limit <- get options "limit" ;;
  let params := [ ("text", text); ("apiKey", apiKey svc);
                  ("limit", or_else limit (int 5)); ("format", VStr "json") ] in
  let country := prop options "country" in
  if truthy country
  then Normal (List.app params [("bias", VStr ("countrycode:" +:+ to_string country))])
  else Normal params.

Definition getAutocompleteSuggestions (svc : GeocodingService) (query options : JsVal)
    (net : Network) : Run JsVal :=
  if falsy query || negb (String.eqb (typeof query) "string") || shorter_than query 3 then
    mkRun [] (Normal (autocomplete_result false []
                        (VStr "Query must be at least 3 characters long")))
  else
    match autocomplete_params svc query options with
    | Throw e => mkRun [] (autocomplete_catch e)
    | Normal params =>
        let req := mkRequest (baseUrl svc +:+ "/autocomplete") params 5000 in
        mkRun [req]
          (try_catch
             (match net req with
              | AxRejected e => Throw e
              | AxResolved data =>
                  match truthy_results data with
                  | Some (RArray items) =>
                      suggestions <- map_completion suggestion_of items ;;
                      Normal (autocomplete_result true suggestions VNull)
                  | Some _ =>
                      Throw (TypeError "response.data.results.map is not a function")
                  | None => Normal (autocomplete_result false [] (VStr "No suggestions found"))
                  end
              end)
             autocomplete_catch)
    end.

End Geocoding.

(** ** The listing controllers (controllers/listings.js) *)

Module Controllers.
Import Geocoding.

Record Geometry : Type := mkGeometry {
  geo_type : string;
  geo_coordinates : JsVal
}.

(** The fields of a listing document that the geocoding integration
    reads or writes. *)
Record Listing : Type := mkListing {
  location : JsVal;
  country : JsVal;
  geometry : option Geometry;
  image : JsVal;
  owner : JsVal
}.

Definition set_location (v : JsVal) (l : Listing) : Listing :=
  mkListing v (country l) (geometry l) (image l) (owner l).
Definition set_country (v : JsVal) (l : Listing) : Listing :=
  mkListing (location l) v (geometry l) (image l) (owner l).
Definition set_geometry (g : Geometry) (l : Listing) : Listing :=
  mkListing (location l) (country l) (Some g) (image l) (owner l).
Definition set_image (v : JsVal) (l : Listing) : Listing :=
  mkListing (location l) (country l) (geometry l) v (owner l).
Definition set_owner (v : JsVal) (l : Listing) : Listing :=
  mkListing (location l) (country l) (geometry l) (image l) v.

Definition Point (coordinates : JsVal) : Geometry := mkGeometry "Point" coordinates.

(** [[DEFAULT_COORDINATES.lng, DEFAULT_COORDINATES.lat]] *)
Definition default_point : Geometry :=
  Point (VArr [VNum DEFAULT_COORDINATES_lng; VNum DEFAULT_COORDINATES_lat]).

(** The collaborators of a request handler: the environment, the
    provider, and the storage (whether a query or a save rejects, and the
    id given to a new document). *)
Record Env : Type := mkEnv {
  MAP_TOKEN : JsVal;
  net : Network;
  find_fails : bool;
  save_fails : bool;
  new_id : string
}.

(** What a handler leaves behind: the flash messages, the redirect, the
    stored documents and the upstream requests. *)
Record HState : Type := mkHState {
  flashes : list (string * string);
  redirected : option string;
  db : gmap string Listing;
  upstream : list Request
}.

Definition Handler (A : Type) : Type := HState -> HState * Completion A.

Definition hret {A} (a : A) : Handler A := fun st => (st, Normal a).
Definition hbind {A B} (c : Handler A) (k : A -> Handler B) : Handler B :=
  fun st => match c st with
            | (st', Normal a) => k a st'
            | (st', Throw e) => (st', Throw e)
            end.
Definition hlift {A} (c : Completion A) : Handler A := fun st => (st, c).
Definition htry {A} (body : Handler A) (handler : JsError -> Handler A) : Handler A :=
  fun st => match body st with
            | (st', Normal a) => (st', Normal a)
            | (st', Throw e) => handler e st'
            end.

(** [req.flash(kind, msg)] *)
Definition flash (kind msg : string) : Handler unit :=
  fun st => (mkHState (List.app (flashes st) [(kind, msg)]) (redirected st) (db st) (upstream st),
             Normal tt).

(** [res.redirect(url)] *)
Definition redirect (url : string) : Handler unit :=
  fun st => (mkHState (flashes st) (Some url) (db st) (upstream st), Normal tt).

(** [await doc.save()] under the id [id]. *)
Definition save (env : Env) (id : string) (l : Listing) : Handler unit :=
  fun st =>
    if save_fails env then (st, Throw (Error "save failed"))
    else (mkHState (flashes st) (redirected st) (<[id := l]> (db st)) (upstream st),
          Normal tt).

(** [await geocodingService.geocodeAddress(address)] *)
Definition geocode (env : Env) (address : JsVal) : Handler JsVal :=
  fun st =>
    let r := geocodeAddress (createGeocodingService (MAP_TOKEN env)) address (net env) in
    (mkHState (flashes st) (redirected st) (db st) (List.app (upstream st) (sent r)),
     result r).

Declare Scope handler_scope.
Delimit Scope handler_scope with handler.
Notation "x <- c ;; k" := (hbind c (fun x => k))
  (at level 100, c at next level, right associativity) : handler_scope.
Notation "c ;;; k" := (hbind c (fun _ => k))
  (at level 100, right associativity) : handler_scope.

Record CreateReq : Type := mkCreateReq {
  c_file : JsVal;      (* [req.file] *)
  c_listing : JsVal;   (* [req.body.listing] *)
  c_user : JsVal       (* [req.user] *)
}.

(** The success branch shared by both handlers: geometry from the
    result, the formatted address when it differs from [entered], the
    country when [current_country] is empty. *)
Definition apply_geocode (g entered current_country : JsVal) (l : Listing) : Listing :=
  let l := set_geometry (Point (prop g "coordinates")) l in
  let l := if truthy (prop g "address") && negb (strict_eq (prop g "address") entered)
           then set_location (prop g "address") l else l in
  if falsy current_country && truthy (prop g "country")
  then set_country (prop g "country") l else l.

Definition createListing (env : Env) (req : CreateReq) : Handler unit :=
  (htry
     (url <- hlift (get (c_file req) "path") ;;
      let filename := prop (c_file req) "filename" in
      loc <- hlift (get (c_listing req) "location") ;;
      let ctry := prop (c_listing req) "country" in
      let newListing := mkListing loc ctry None VUndefined VUndefined in
      uid <- hlift (get (c_user req) "_id") ;;
      let newListing := set_owner uid newListing in
      let newListing := set_image (VObj [("url", url); ("filename", filename)]) newListing in
      geocodeResult <- geocode env loc ;;
      ok <- hlift (get geocodeResult "success") ;;
      newListing <-
        (if truthy ok then
           flash "success" "New Listing Created with location mapped successfully!" ;;;
           hret (apply_geocode geocodeResult loc ctry newListing)
         else
           flash "warning"
             ("Listing created but location mapping failed: "
              +:+ to_string (prop geocodeResult "error")
              +:+ ". Please update the address for accurate location display.") ;;;
           hret (set_geometry default_point newListing)) ;;
      save env (new_id env) newListing ;;;
      redirect "/listings")
     (fun error =>
        flash "error" "Failed to create listing. Please try again." ;;;
        redirect "/listings/new"))%handler.

Record UpdateReq : Type := mkUpdateReq {
  u_id : string;       (* [req.params.id] *)
  u_listing : JsVal;   (* [req.body.listing] *)
  u_file : JsVal       (* [req.file] *)
}.

(** [{ ...req.body.listing }] written over the stored document (the
    [location] and [country] keys). *)
Definition patch (body : JsVal) (l : Listing) : Listing :=
  let fields := match body with VObj fs => fs | _ => [] end in
  let l := match lookup_field "location" fields with
           | VUndefined => l
           | v => set_location v l
           end in
  match lookup_field "country" fields with
  | VUndefined => l
  | v => set_country v l
  end.

(** [await Listing.findByIdAndUpdate(id, {...body}, { new: true })] *)
Definition findByIdAndUpdate (env : Env) (id : string) (body : JsVal)
  : Handler (option Listing) :=
  fun st =>
    if find_fails env then (st, Throw (Error "query failed"))
    else match db st !! id with
         | None => (st, Normal None)
         | Some l =>
             let l' := patch body l in
             (mkHState (flashes st) (redirected st) (<[id := l']> (db st)) (upstream st),
              Normal (Some l'))
         end.

Definition missing_geometry (l : Listing) : bool :=
  match geometry l with
  | None => true
  | Some g => falsy (geo_coordinates g)
  end.

Definition updateListing (env : Env) (req : UpdateReq) : Handler unit :=
  let id := u_id req in
  (htry
     (found <- findByIdAndUpdate env id (u_listing req) ;;
      match found with
      | None =>
          flash "error" "Listing not found" ;;;
          redirect "/listings"
      | Some listing =>
          loc <- hlift (get (u_listing req) "location") ;;
          listing <-
            (if truthy loc then
               geocodeResult <- geocode env loc ;;
               ok <- hlift (get geocodeResult "success") ;;
               if truthy ok then
                 hret (apply_geocode geocodeResult loc (country listing) listing)
               else
                 flash "warning"
                   ("Listing updated but location mapping failed: "
                    +:+ to_string (prop geocodeResult "error")) ;;;
                 hret (if missing_geometry listing
                       then set_geometry default_point listing
                       else listing)
             else hret listing) ;;
          listing <-
            (if String.eqb (typeof (u_file req)) "undefined" then hret listing
             else
               url <- hlift (get (u_file req) "path") ;;
               hret (set_image (VObj [("url", url);
                                      ("filename", prop (u_file req) "filename")])
                       listing)) ;;
          save env id listing ;;;
          flash "success" "Listing Updated Successfully!" ;;;
          redirect ("/listings/" +:+ id)
      end)
     (fun error =>
        flash "error" "Failed to update listing. Please try again." ;;;
        redirect ("/listings/" +:+ id +:+ "/edit")))%handler.

(** *** The address-suggestions endpoint *)

Record HttpResponse : Type := mkResponse {
  status : Z;
  body : JsVal
}.

Definition suggestions_json (success suggestions error : JsVal) : JsVal :=
  VObj [ ("success", success); ("suggestions", suggestions); ("error", error) ].

Definition bad_request (msg : string) : HttpResponse :=
  mkResponse 400 (suggestions_json (VBool false) (VArr []) (VStr msg)).

Definition server_error (msg : string) : HttpResponse :=
  mkResponse 500 (suggestions_json (VBool false) (VArr []) (VStr msg)).

(** The end of the [try] block and the [catch] block: what is sent for a
    value (or an exception) coming back from the geocoding service. *)
Definition respond (outcome : Completion JsVal) : HttpResponse :=
  match
    try_catch
      (result <- outcome ;;
       if truthy result && String.eqb (typeof result) "object" then
         Normal (mkResponse 200
                   (suggestions_json
                      (or_else (prop result "success") (VBool false))
                      (if is_array (prop result "suggestions")
                       then prop result "suggestions" else VArr [])
                      (or_else (prop result "error") VNull)))
       else Throw (Error "Invalid response from geocoding service"))%js
      (fun error => Normal (server_error "Failed to get address suggestions"))
  with
  | Normal r => r
  | Throw _ => server_error "Failed to get address suggestions"
  end.

(** The [options] object passed to the service. *)
Definition suggestion_options (country : JsVal) : JsVal :=
  match country with
  | VStr c =>
      if truthy country && Nat.ltb 0 (String.length c)
      then VObj [("limit", int 5); ("country", VStr (toLowerCase c))]
      else VObj [("limit", int 5)]
  | _ => VObj [("limit", int 5)]
  end.

Definition getAddressSuggestions (env : Env) (query country : JsVal) : HttpResponse :=
  if falsy query || negb (String.eqb (typeof query) "string") then
    bad_request "Query parameter is required and must be a string"
  else if shorter_than query 2 then
    bad_request "Query must be at least 2 characters long"
  else if longer_than query 200 then
    bad_request "Query is too long"
  else if falsy (MAP_TOKEN env) then
    server_error "Geocoding service not available"
  else
    respond
      (text <- call_trim query ;;
       result (getAutocompleteSuggestions
                 (createGeocodingService (MAP_TOKEN env)) text
                 (suggestion_options country) (net env)))%js.

(** *** Deleting a listing *)

(** [await Listing.findByIdAndDelete(id)]: the removed document, or
    [null] when there is none. *)
Definition findByIdAndDelete (env : Env) (id : string) : Handler (option Listing) :=
  fun st =>
    if find_fails env then (st, Throw (Error "query failed"))
    else (mkHState (flashes st) (redirected st) (delete id (db st)) (upstream st),
          Normal (db st !! id)).

(** [deleteListing]: there is no [try] here, a rejection of the query
    leaves the handler. *)
Definition deleteListing (env : Env) (id : string) : Handler unit :=
  (deletedListing <- findByIdAndDelete env id ;;
   flash "success" "Listing Deleted Successfully..!" ;;;
   redirect "/listings")%handler.

End Controllers.

(** ** The browser side: what [fetch] gives back *)

Module Browser.

(** [await response.json()]: the parsed body, or a rejection. *)
Inductive JsonOutcome (D : Type) : Type :=
| JBody (data : D)
| JFail (e : JsError).
Arguments JBody {D} data.
Arguments JFail {D} e.

(** [await fetch(url, { signal })]: a response with its status line and
    body, or a rejection (an [AbortError] when the timeout aborts the
    request, a [TypeError] on a network failure). *)
Inductive FetchOutcome (D : Type) : Type :=
| FResponse (status : Z) (statusText : string) (json : JsonOutcome D)
| FFail (e : JsError).
Arguments FResponse {D} status statusText json.
Arguments FFail {D} e.

Definition AbortError : JsError := mkError "AbortError" "The operation was aborted." None.

(** [response.ok] *)
Definition response_ok (status : Z) : bool := (200 <=? status) && (status <=? 299).

(** [new Error(`HTTP ${response.status}: ${response.statusText}`)] *)
Definition http_error (status : Z) (statusText : string) : JsError :=
  Error ("HTTP " +:+ num_to_string (Dec status 0) +:+ ": " +:+ statusText).

(** The form of the page: the value of each [input] by its [name].
    [if (field) field.value = value]: an input that is not on the page
    is left out. *)
Definition set_field (name value : string) (form : gmap string string)
  : gmap string string :=
  alter (fun _ => value) name form.

End Browser.

(** ** The map of a listing (the [ListingMap] class) *)

Module Map.
Import Geocoding Browser.

Record Options : Type := mkOptions {
  defaultZoom : Z;
  retryAttempts : Z;
  retryDelay : Z;
  enableClickGeocoding : bool
}.

Inductive Popup : Type :=
| MarkerPopup (lat lng : JsNum)
    (* "Listing Location", bound to the marker *)
| LoadingPopup (lat lng : JsNum)
    (* "Getting location details..." *)
| CandidatePopup (lat lng : JsNum) (label : string) (confirm_address : string)
    (* "New Location" with "Use This Location" and "Cancel" *)
| CoordinatesPopup (lat lng : JsNum).
    (* "Could not get address, but you can still use coordinates" *)

Record ListingMap : Type := mkMap {
  apiKey : string;
  options : Options;
  marker : option (JsNum * JsNum);
  tempMarkers : list (nat * (JsNum * JsNum));
  next_layer : nat;
  popup : option Popup;
  center : option (JsNum * JsNum)
}.

Inductive NetEvent : Type :=
| Fetch (url : string)
| Sleep (ms : Z).

(** The provider's answer to the fetch issued at a given attempt. *)
Definition ReverseNetwork : Type := Z -> FetchOutcome ResponseData.

Definition reverse_url (key : string) (lat lng : JsNum) : string :=
  "https://api.geoapify.com/v1/geocode/reverse?lat=" +:+ num_to_string lat
  +:+ "&lon=" +:+ num_to_string lng +:+ "&apiKey=" +:+ key +:+ "&format=json".

(** [`Location: ${lat.toFixed(4)}, ${lng.toFixed(4)}`] *)
Definition location_label (lat lng : JsNum) : string :=
  "Location: " +:+ toFixed lat 4 +:+ ", " +:+ toFixed lng 4.

Inductive Attempt : Type :=
| Done (address : JsVal)
| Retry.

(** The body of the [try] block after the response is in. *)
Definition reverse_try (o : Options) (lat lng : JsNum) (attempt : Z)
    (outcome : FetchOutcome ResponseData) : Completion Attempt :=
  match outcome with
  | FFail e => Throw e
  | FResponse status statusText json =>
      if negb (response_ok status) then
        if (status =? 429) && (attempt <=? retryAttempts o) then Normal Retry
        else Throw (http_error status statusText)
      else
        match json with
        | JFail e => Throw e
        | JBody DNull => Throw (TypeError "Cannot read properties of null (reading 'results')")
        | JBody data =>
            match first_result data with
            | Some item =>
                formatted <- get item "formatted" ;;
                Normal (Done formatted)
            | None => Normal (Done (VStr (location_label lat lng)))
            end
        end
  end.

(** The [catch] block. *)
Definition reverse_catch (o : Options) (attempt : Z) (error : JsError) : Attempt :=
  if String.eqb (err_name error) "AbortError" then Done VNull
  else if (attempt <=? retryAttempts o) && negb (includes (err_message error) "429")
       then Retry
       else Done VNull.

Definition reverse_attempt (o : Options) (lat lng : JsNum) (attempt : Z)
    (outcome : FetchOutcome ResponseData) : Attempt :=
  match reverse_try o lat lng attempt outcome with
  | Normal a => a
  | Throw e => reverse_catch o attempt e
  end.

(** [async reverseGeocode(lat, lng, attempt = 1)] of the map: the
    address (or [null]) together with the fetches and the waits, in
    order.  The recursion is the source's: a retry calls the function
    again with [attempt + 1]. *)
Equations? reverseGeocode (key : string) (o : Options) (net : ReverseNetwork)
    (lat lng : JsNum) (attempt : Z) : list NetEvent * JsVal
  by wf (Z.to_nat (retryAttempts o + 1 - attempt)) lt :=
reverseGeocode key o net lat lng attempt with String.eqb key "" := {
  | true => ([], VNull)
  | false with inspect (reverse_attempt o lat lng attempt (net attempt)) := {
      | exist _ (Done address) _ => ([Fetch (reverse_url key lat lng)], address)
      | exist _ Retry H =>
          let '(trace, address) := reverseGeocode key o net lat lng (attempt + 1) in
          (Fetch (reverse_url key lat lng) :: Sleep (retryDelay o * attempt) :: trace,
           address)
    }
  }.
Proof.
  (* a retry is only ever asked for under [attempt <= retryAttempts] *)
  destruct (attempt <=? retryAttempts o) eqn:Hle; [lia|].
  exfalso. revert H.
  unfold reverse_attempt, reverse_try, reverse_catch.
  rewrite Hle, ?andb_false_r. simpl.
  destruct (net attempt) as [status text json|e]; simpl.
  2: { destruct (String.eqb (err_name e) "AbortError"); discriminate. }
  destruct (response_ok status); simpl; rewrite ?andb_false_r; simpl;
    [|discriminate].
  destruct json as [d|e]; simpl.
  2: { destruct (String.eqb (err_name e) "AbortError"); discriminate. }
  destruct d as [| |r]; simpl; try discriminate.
  destruct r as [|[|item items]|[] item]; simpl; try discriminate;
    destruct item; simpl; discriminate.
Qed.

Definition with_popup (p : option Popup) (m : ListingMap) : ListingMap :=
  mkMap (apiKey m) (options m) (marker m) (tempMarkers m) (next_layer m) p (center m).

(** [L.marker([lat, lng], { opacity: 0.7, ... }).addTo(this.map)] followed
    by the loading popup: the state while the address is being
    resolved. *)
Definition place_temp_marker (lat lng : JsNum) (m : ListingMap) : ListingMap :=
  mkMap (apiKey m) (options m) (marker m)
        ((next_layer m, (lat, lng)) :: tempMarkers m) (S (next_layer m))
        (Some (LoadingPopup lat lng)) (center m).

(** [this.map.removeLayer(tempMarker)] *)
Definition removeLayer (id : nat) (m : ListingMap) : ListingMap :=
  mkMap (apiKey m) (options m) (marker m)
        (List.filter (fun t => negb (Nat.eqb (fst t) id)) (tempMarkers m))
        (next_layer m) (popup m) (center m).

(** [`${lat.toFixed(4)}, ${lng.toFixed(4)}`] *)
Definition fixed_label (lat lng : JsNum) : string :=
  toFixed lat 4 +:+ ", " +:+ toFixed lng 4.

(** The "New Location" popup: it shows [address || fixed_label] and its
    button confirms [(address || '').replace(...)], which is not a
    function when the address is a truthy non-string. *)
Definition candidate_popup (lat lng : JsNum) (address : JsVal) : Completion Popup :=
  if truthy address then
    match address with
    | VStr a => Normal (CandidatePopup lat lng a a)
    | _ => Throw (TypeError "(address || '').replace is not a function")
    end
  else Normal (CandidatePopup lat lng (fixed_label lat lng) "").

(** The map while [onMapClick] awaits the address. *)
Definition onMapClick_placing (m : ListingMap) (lat lng : JsNum) : ListingMap :=
  if negb (enableClickGeocoding (options m)) then m
  else place_temp_marker lat lng m.

(** [async onMapClick(e)], run to its end. *)
Definition onMapClick (m : ListingMap) (net : ReverseNetwork) (lat lng : JsNum)
  : list NetEvent * ListingMap :=
  if negb (enableClickGeocoding (options m)) then ([], m)
  else
    let id := next_layer m in
    let m1 := place_temp_marker lat lng m in
    let '(trace, address) := reverseGeocode (apiKey m) (options m) net lat lng 1 in
    let m2 := removeLayer id m1 in
    match candidate_popup lat lng address with
    | Normal p => (trace, with_popup (Some p) m2)
    | Throw _ => (trace, with_popup (Some (CoordinatesPopup lat lng)) (removeLayer id m2))
    end.

(** [updateLocationFields(lat, lng, address)] *)
Definition updateLocationFields (lat lng : JsNum) (address : JsVal)
    (form : gmap string string) : gmap string string :=
  let form := if truthy address
              then set_field "listing[location]" (to_string address) form
              else form in
  let form := set_field "listing[latitude]" (num_to_string lat) form in
  set_field "listing[longitude]" (num_to_string lng) form.

(** [async onMarkerDragEnd(lat, lng)] *)
Definition onMarkerDragEnd (m : ListingMap) (net : ReverseNetwork) (lat lng : JsNum)
    (form : gmap string string) : list NetEvent * gmap string string :=
  let '(trace, address) := reverseGeocode (apiKey m) (options m) net lat lng 1 in
  (trace, updateLocationFields lat lng address form).

(** [setLocation(lat, lng, address)]: the marker is replaced, its popup
    opened, the map centred and the form fields updated. *)
Definition setLocation (lat lng : JsNum) (address : JsVal)
    (m : ListingMap) (form : gmap string string) : ListingMap * gmap string string :=
  (mkMap (apiKey m) (options m) (Some (lat, lng)) (tempMarkers m) (next_layer m)
         (Some (MarkerPopup lat lng)) (Some (lat, lng)),
   updateLocationFields lat lng address form).

(** [searchAndSetLocation(address)] sends a request only for a non-empty
    address and a configured key. *)
Definition search_sends (m : ListingMap) (address : string) : bool :=
  negb (String.eqb address "") && negb (String.eqb (apiKey m) "").

(** The rest of [searchAndSetLocation] once the fetch has settled. *)
Definition search_complete (m : ListingMap) (form : gmap string string)
    (outcome : FetchOutcome ResponseData) : bool * ListingMap * gmap string string :=
  match outcome with
  | FResponse status _ (JBody (DValue r)) =>
      if response_ok status then
        match first_result (DValue r) with
        | Some item =>
            match prop item "lat", prop item "lon", item with
            | _, _, VUndefined | _, _, VNull => (false, m, form)
            | VNum lat, VNum lng, _ =>
                let '(m', form') := setLocation lat lng (prop item "formatted") m form in
                (true, m', form')
            | _, _, _ => (false, m, form)
            end
        | None => (false, m, form)
        end
      else (false, m, form)
  | _ => (false, m, form)
  end.

(** *** Start-up *)

(** [validateCoordinate(value, defaultValue, min, max)], from the number
    [numValue = Number(value)] on. *)
Definition validateCoordinate (numValue defaultValue min max : JsNum) : JsNum :=
  if isNaN numValue || num_lt numValue min || num_lt max numValue
  then defaultValue
  else numValue.

(** How [init()] ends. *)
Inductive InitOutcome : Type :=
| LibraryFailed     (* "Map library failed to load. Please refresh the page." *)
| NoContainer       (* "Map container not found" *)
| Ready (m : ListingMap).

(** The map [init()] builds at [(lat, lon)]: centred there, with the
    marker and its open popup. *)
Definition initial_map (key : string) (o : Options) (lat lon : JsNum) : ListingMap :=
  mkMap key o (Some (lat, lon)) [] 0 (Some (MarkerPopup lat lon)) (Some (lat, lon)).

(** [init()], with the retries it schedules while Leaflet is missing.
    [attempts] is [this.initializationAttempts] on entry, [leaflet n]
    tells whether [L] is defined at the attempt numbered [n], [container]
    holds the [data-lat] and [data-lon] of the container as [Number]
    reads them.  The result comes with the delays waited.  Leaflet's own
    calls in the [try] block are taken to return. *)
Equations? init (key : string) (o : Options) (leaflet : nat -> bool)
    (container : option (JsNum * JsNum)) (attempts : nat) : list Z * InitOutcome
  by wf (3 - attempts)%nat lt :=
init key o leaflet container attempts with inspect (leaflet (S attempts)) := {
  | exist _ false _ with inspect (Nat.ltb (S attempts) 3) := {
      | exist _ true H =>
          let '(waits, outcome) := init key o leaflet container (S attempts) in
          (500 :: waits, outcome)
      | exist _ false _ => ([], LibraryFailed)
    }
  | exist _ true _ with container := {
      | None => ([], NoContainer)
      | Some (data_lat, data_lon) =>
          let lat := validateCoordinate data_lat (Dec 20296 3) (Dec (-90) 0) (Dec 90 0) in
          let lon := validateCoordinate data_lon (Dec 858246 4) (Dec (-180) 0) (Dec 180 0) in
          ([], Ready (initial_map key o lat lon))
    }
  }.
Proof.
  apply Nat.ltb_lt in H. lia.
Qed.

(** The fetches of a trace, and its waits. *)
Definition fetch_count (trace : list NetEvent) : nat :=
  List.length (List.filter (fun e => match e with Fetch _ => true | Sleep _ => false end) trace).

Fixpoint sleeps (trace : list NetEvent) : list Z :=
  match trace with
  | [] => []
  | Sleep ms :: rest => ms :: sleeps rest
  | Fetch _ :: rest => sleeps rest
  end.

(** The provider answers every attempt with the same rejection. *)
Definition always (outcome : FetchOutcome ResponseData) : ReverseNetwork := fun _ => outcome.

(** The delays [retryDelay * attempt], [retryDelay * (attempt + 1)], ...
    of [n] retries in a row. *)
Fixpoint backoff (retryDelay attempt : Z) (n : nat) : list Z :=
  match n with
  | O => []
  | S n' => retryDelay * attempt :: backoff retryDelay (attempt + 1) n'
  end.

End Map.

(** ** Address autocomplete (the [AddressAutocomplete] class) *)

Module Autocomplete.
Import Geocoding Browser Map.

Record Suggestion : Type := mkSuggestion {
  address : string;
  coordinates : option (JsNum * JsNum);   (* [[lng, lat]] *)
  country : string;
  city : string;
  state : string
}.

(** The content of the suggestions list element. *)
Inductive ListContent : Type :=
| Empty
| Loading                        (* "Loading suggestions..." *)
| NoResults                      (* "No addresses found" *)
| ErrorItem (message : string)
| Items (items : list Suggestion).

Record Session : Type := mkSession {
  input_name : string;           (* the [name] of [this.input] *)
  minLength : nat;
  delay : Z;
  apiEndpoint : string;
  currentIndex : Z;
  suggestions : list Suggestion;
  debounceTimer : option string; (* the query the pending timeout will fetch *)
  isLoading : bool;
  listContent : ListContent;
  listVisible : bool
}.

(** [new AddressAutocomplete(selector)] with the default options. *)
Definition new_session (name : string) : Session :=
  mkSession name 2 300 "/listings/api/address-suggestions" (-1) [] None false Empty false.

Definition set_currentIndex (i : Z) (s : Session) : Session :=
  mkSession (input_name s) (minLength s) (delay s) (apiEndpoint s) i (suggestions s)
            (debounceTimer s) (isLoading s) (listContent s) (listVisible s).
Definition set_suggestions (l : list Suggestion) (s : Session) : Session :=
  mkSession (input_name s) (minLength s) (delay s) (apiEndpoint s) (currentIndex s) l
            (debounceTimer s) (isLoading s) (listContent s) (listVisible s).
Definition set_debounceTimer (t : option string) (s : Session) : Session :=
  mkSession (input_name s) (minLength s) (delay s) (apiEndpoint s) (currentIndex s)
            (suggestions s) t (isLoading s) (listContent s) (listVisible s).
Definition set_isLoading (b : bool) (s : Session) : Session :=
  mkSession (input_name s) (minLength s) (delay s) (apiEndpoint s) (currentIndex s)
            (suggestions s) (debounceTimer s) b (listContent s) (listVisible s).
Definition set_listContent (c : ListContent) (s : Session) : Session :=
  mkSession (input_name s) (minLength s) (delay s) (apiEndpoint s) (currentIndex s)
            (suggestions s) (debounceTimer s) (isLoading s) c (listVisible s).
Definition set_listVisible (b : bool) (s : Session) : Session :=
  mkSession (input_name s) (minLength s) (delay s) (apiEndpoint s) (currentIndex s)
            (suggestions s) (debounceTimer s) (isLoading s) (listContent s) b.

Definition showSuggestions (s : Session) : Session := set_listVisible true s.
Definition hideSuggestions (s : Session) : Session :=
  set_currentIndex (-1) (set_listVisible false s).
Definition showLoading (s : Session) : Session :=
  showSuggestions (set_listContent Loading s).
Definition showNoResults (s : Session) : Session :=
  showSuggestions (set_listContent NoResults s).
Definition showError (message : string) (s : Session) : Session :=
  showSuggestions (set_listContent (ErrorItem message) s).

Definition displaySuggestions (s : Session) : Session :=
  match suggestions s with
  | [] => showNoResults (set_listContent Empty s)
  | items => showSuggestions (set_currentIndex (-1) (set_listContent (Items items) s))
  end.

(** One [fetch] of the suggestions endpoint. *)
Record SuggestRequest : Type := mkSuggestRequest {
  r_endpoint : string;
  r_query : string;
  r_country : option string
}.

(** The JSON body of the endpoint: [success], [suggestions] (an array,
    or [None] when the key is missing or [null]) and [error]. *)
Record SuggestData : Type := mkSuggestData {
  d_success : bool;
  d_suggestions : option (list Suggestion);
  d_error : option string
}.

(** The asynchronous calls that are suspended at an [await]. *)
Inductive Task : Type :=
| AwaitSuggestions (query : string) (attempt : Z)
    (* [fetchSuggestions] at [await fetch(...)] *)
| AwaitRetry (query : string) (attempt : Z)
    (* [fetchSuggestions] at [await new Promise(... setTimeout ...)] *)
| AwaitSearch (address : string).
    (* [searchAndSetLocation] at [await fetch(...)] *)

Record World : Type := mkWorld {
  session : Session;
  form : gmap string string;
  listingMap : option ListingMap;       (* [window.listingMap] *)
  tasks : gmap nat Task;
  next_task : nat;
  requests : list SuggestRequest;       (* suggestion requests sent, oldest first *)
  searches : list string;               (* address searches sent *)
  waits : list Z                        (* retry delays started *)
}.

Definition set_session (s : Session) (w : World) : World :=
  mkWorld s (form w) (listingMap w) (tasks w) (next_task w) (requests w) (searches w)
          (waits w).
Definition set_form (f : gmap string string) (w : World) : World :=
  mkWorld (session w) f (listingMap w) (tasks w) (next_task w) (requests w) (searches w)
          (waits w).
Definition set_listingMap (m : option ListingMap) (w : World) : World :=
  mkWorld (session w) (form w) m (tasks w) (next_task w) (requests w) (searches w)
          (waits w).
Definition spawn (t : Task) (w : World) : World :=
  mkWorld (session w) (form w) (listingMap w) (<[next_task w := t]> (tasks w))
          (S (next_task w)) (requests w) (searches w) (waits w).
Definition settle (id : nat) (w : World) : World :=
  mkWorld (session w) (form w) (listingMap w) (delete id (tasks w)) (next_task w)
          (requests w) (searches w) (waits w).
Definition resuspend (id : nat) (t : Task) (w : World) : World :=
  mkWorld (session w) (form w) (listingMap w) (<[id := t]> (tasks w)) (next_task w)
          (requests w) (searches w) (waits w).
Definition log_request (r : SuggestRequest) (w : World) : World :=
  mkWorld (session w) (form w) (listingMap w) (tasks w) (next_task w)
          (List.app (requests w) [r]) (searches w) (waits w).
Definition log_search (a : string) (w : World) : World :=
  mkWorld (session w) (form w) (listingMap w) (tasks w) (next_task w) (requests w)
          (List.app (searches w) [a]) (waits w).
Definition log_wait (ms : Z) (w : World) : World :=
  mkWorld (session w) (form w) (listingMap w) (tasks w) (next_task w) (requests w)
          (searches w) (List.app (waits w) [ms]).

Definition on_session (f : Session -> Session) (w : World) : World :=
  set_session (f (session w)) w.

(** [onInput(e)]: the debounce. *)
Definition onInput (value : string) (w : World) : World :=
  let query := trim value in
  if Nat.ltb (String.length query) (minLength (session w)) then
    on_session hideSuggestions w
  else on_session (set_debounceTimer (Some query)) w.

(** [fetchSuggestions(query, attempt)] up to its first [await]. *)
Definition fetchSuggestions (query : string) (attempt : Z) (w : World) : World :=
  if isLoading (session w) then w
  else
    let w := on_session (fun s => showLoading (set_isLoading true s)) w in
    let country := default "" (form w !! "listing[country]") in
    let req := mkSuggestRequest (apiEndpoint (session w)) query
                 (if String.eqb country "" then None else Some country) in
    spawn (AwaitSuggestions query attempt) (log_request req w).

(** The [finally] block. *)
Definition finish (w : World) : World := on_session (set_isLoading false) w.

(** The retry of either branch: wait [1000 * attempt], the call being
    suspended meanwhile. *)
Definition schedule_retry (id : nat) (query : string) (attempt : Z) (w : World) : World :=
  resuspend id (AwaitRetry query attempt) (log_wait (1000 * attempt) w).

(** The [catch] block. *)
Definition fetch_catch (id : nat) (query : string) (attempt : Z) (error : JsError)
    (w : World) : World :=
  if String.eqb (err_name error) "AbortError" then
    finish (on_session (showError "Request timed out. Please try again.") w)
  else if (attempt <=? 2) && negb (includes (err_message error) "429") then
    schedule_retry id query attempt w
  else
    finish (on_session
              (showError "Unable to load suggestions. Please check your connection.") w).

(** [fetchSuggestions] from the point where [await fetch(...)] settles. *)
Definition fetch_settled (id : nat) (query : string) (attempt : Z)
    (outcome : FetchOutcome (option SuggestData)) (w : World) : World :=
  let w := settle id w in
  match outcome with
  | FFail e => fetch_catch id query attempt e w
  | FResponse status statusText json =>
      if negb (response_ok status) then
        if (status =? 429) && (attempt <=? 2) then schedule_retry id query attempt w
        else fetch_catch id query attempt (http_error status statusText) w
      else
        match json with
        | JFail e => fetch_catch id query attempt e w
        | JBody None =>
            fetch_catch id query attempt
              (TypeError "Cannot read properties of null (reading 'success')") w
        | JBody (Some data) =>
            match d_success data, d_suggestions data with
            | true, Some items =>
                finish (on_session (fun s => displaySuggestions (set_suggestions items s)) w)
            | _, _ =>
                let message := match d_error data with
                               | Some e => if String.eqb e "" then "No suggestions found" else e
                               | None => "No suggestions found"
                               end in
                finish (on_session (showError message) w)
            end
        end
  end.

(** The retry itself: [return this.fetchSuggestions(query, attempt + 1)]
    runs the callee up to its first [await], then the caller's [finally]
    block. *)
Definition retry_elapsed (id : nat) (query : string) (attempt : Z) (w : World) : World :=
  finish (fetchSuggestions query (attempt + 1) (settle id w)).

(** [updateRelatedFields(suggestion)] *)
Definition updateRelatedFields (sg : Suggestion) (form : gmap string string)
  : gmap string string :=
  let form :=
    match form !! "listing[country]" with
    | Some current =>
        if negb (String.eqb (country sg) "") && String.eqb current ""
        then <["listing[country]" := country sg]> form
        else form
    | None => form
    end in
  match coordinates sg with
  | Some (lng, lat) =>
      set_field "listing[longitude]" (num_to_string lng)
        (set_field "listing[latitude]" (num_to_string lat) form)
  | None => form
  end.

(** What [updateRelatedFields] leaves in the country input, given its
    current value: the suggestion's country when the input is empty and
    the suggestion has one. *)
Definition country_rule (sg : Suggestion) (current : string) : string :=
  if negb (String.eqb (country sg) "") && String.eqb current "" then country sg else current.

Definition valid_coordinates (lat lng : JsNum) : bool :=
  num_le (Dec (-90) 0) lat && num_le lat (Dec 90 0)
  && num_le (Dec (-180) 0) lng && num_le lng (Dec 180 0).

(** [updateMapLocation(suggestion)], with [geocodeAndUpdateMap] up to
    the fetch of [searchAndSetLocation]. *)
Definition updateMapLocation (sg : Suggestion) (w : World) : World :=
  match listingMap w, coordinates sg with
  | Some m, Some (lng, lat) =>
      if valid_coordinates lat lng then
        let '(m', form') := setLocation lat lng (VStr (address sg)) m (form w) in
        set_form form' (set_listingMap (Some m') w)
      else w
  | Some m, None =>
      if search_sends m (address sg)
      then spawn (AwaitSearch (address sg)) (log_search (address sg) w)
      else w
  | None, _ => w
  end.

(** [this.suggestions[index]] *)
Definition suggestion_at (index : Z) (s : Session) : option Suggestion :=
  if index <? 0 then None else suggestions s !! Z.to_nat index.

(** [selectSuggestion(index)]: the input takes the address, the related
    fields are updated, the list is hidden and the map is moved. *)
Definition selectSuggestion (index : Z) (w : World) : World :=
  match suggestion_at index (session w) with
  | None => w
  | Some sg =>
      let w := set_form (<[input_name (session w) := address sg]> (form w)) w in
      let w := set_form (updateRelatedFields sg (form w)) w in
      let w := on_session hideSuggestions w in
      updateMapLocation sg w
  end.

(** What can happen to a page with one autocomplete instance. *)
Inductive Event : Type :=
| Typed (value : string)
    (* the user edits the input: its value becomes [value], [onInput] runs *)
| TimerFired
    (* the debounce timeout set by [onInput] fires *)
| FetchSettled (id : nat) (outcome : FetchOutcome (option SuggestData))
| DelayElapsed (id : nat)
| Clicked (index : Z)
    (* click on the item [index] of the list *)
| SearchSettled (id : nat) (outcome : FetchOutcome ResponseData).

Definition step (e : Event) (w : World) : World :=
  match e with
  | Typed value =>
      onInput value (set_form (<[input_name (session w) := value]> (form w)) w)
  | TimerFired =>
      match debounceTimer (session w) with
      | Some query => fetchSuggestions query 1 (on_session (set_debounceTimer None) w)
      | None => w
      end
  | FetchSettled id outcome =>
      match tasks w !! id with
      | Some (AwaitSuggestions query attempt) => fetch_settled id query attempt outcome w
      | _ => w
      end
  | DelayElapsed id =>
      match tasks w !! id with
      | Some (AwaitRetry query attempt) => retry_elapsed id query attempt w
      | _ => w
      end
  | Clicked index => selectSuggestion index w
  | SearchSettled id outcome =>
      match tasks w !! id, listingMap w with
      | Some (AwaitSearch _), Some m =>
          let '(_, m', form') := search_complete m (form w) outcome in
          set_form form' (set_listingMap (Some m') (settle id w))
      | _, _ => w
      end
  end.

(** The events of a run, in the order they happen. *)
Definition run (events : list Event) (w : World) : World :=
  List.fold_left (fun w e => step e w) events w.

(** The suspended calls that belong to [fetchSuggestions]. *)
Definition is_fetch (t : Task) : bool :=
  match t with
  | AwaitSuggestions _ _ | AwaitRetry _ _ => true
  | AwaitSearch _ => false
  end.

(** At most one call of [fetchSuggestions] is suspended, and [isLoading]
    is set while it is. *)
Definition single_flight (w : World) : Prop :=
  forall id t,
    tasks w !! id = Some t -> is_fetch t = true ->
    isLoading (session w) = true
    /\ forall id' t', tasks w !! id' = Some t' -> is_fetch t' = true -> id' = id.

(** A page with a fresh autocomplete instance on the input [name]. *)
Definition new_world (name : string) (form : gmap string string)
    (m : option ListingMap) : World :=
  mkWorld (new_session name) form m ∅ 0 [] [] [].

(** *** Keyboard and focus *)

(** The number of [.address-suggestion-item] elements in the list. *)
Definition item_count (s : Session) : nat :=
  match listContent s with
  | Items items => List.length items
  | _ => O
  end.

(** [moveSelection(direction)] *)
Definition moveSelection (direction : Z) (s : Session) : Session :=
  let n := Z.of_nat (item_count s) in
  if n =? 0 then s
  else
    let i := currentIndex s + direction in
    set_currentIndex (if i <? 0 then n - 1 else if n <=? i then 0 else i) s.

(** [setActiveIndex(index)], on [mouseenter] of an item. *)
Definition setActiveIndex (index : Z) (s : Session) : Session := set_currentIndex index s.

(** [selectCurrent()] *)
Definition selectCurrent (w : World) : World :=
  let i := currentIndex (session w) in
  if (0 <=? i) && (i <? Z.of_nat (List.length (suggestions (session w))))
  then selectSuggestion i w
  else w.

Inductive Key : Type := ArrowDown | ArrowUp | Enter | Escape | OtherKey.

(** [onKeyDown(e)] *)
Definition onKeyDown (key : Key) (w : World) : World :=
  if negb (listVisible (session w)) then w
  else match key with
       | ArrowDown => on_session (moveSelection 1) w
       | ArrowUp => on_session (moveSelection (-1)) w
       | Enter => selectCurrent w
       | Escape => on_session hideSuggestions w
       | OtherKey => w
       end.

(** [onFocus(e)] *)
Definition onFocus (w : World) : World :=
  let query := trim (default "" (form w !! input_name (session w))) in
  if Nat.leb (minLength (session w)) (String.length query)
     && Nat.ltb 0 (List.length (suggestions (session w)))
  then on_session showSuggestions w
  else w.

(** *** Confirming a pin *)

(** [listingMap.confirmLocation(lat, lng, address)], the button of the
    popups: the open popup is closed, the location is set, and
    [triggerFormValidation] dispatches an [input] event on the location
    input, which the autocomplete attached to that input handles. *)
Definition confirmLocation (lat lng : JsNum) (address : string) (w : World) : World :=
  match listingMap w with
  | None => w
  | Some m =>
      let '(m', form') := setLocation lat lng (VStr address) (with_popup None m) (form w) in
      let w := set_form form' (set_listingMap (Some m') w) in
      match form' !! "listing[location]" with
      | Some value =>
          if String.eqb (input_name (session w)) "listing[location]"
          then onInput value w
          else w
      | None => w
      end
  end.

(** *** What holds along every run *)

(** Task ids are handed out in order. *)
Definition fresh_tasks (w : World) : Prop :=
  forall id t, tasks w !! id = Some t -> (id < next_task w)%nat.

(** [isLoading] is set only while a call of [fetchSuggestions] is
    suspended. *)
Definition loading_has_call (w : World) : Prop :=
  isLoading (session w) = true ->
  exists id t, tasks w !! id = Some t /\ is_fetch t = true.

(** Every suspended call of [fetchSuggestions] is a first attempt. *)
Definition first_attempts (w : World) : Prop :=
  forall id t, tasks w !! id = Some t ->
    match t with
    | AwaitSuggestions _ attempt | AwaitRetry _ attempt => attempt = 1
    | AwaitSearch _ => True
    end.

(** The debounce timeouts that fire in a run. *)
Definition timer_count (events : list Event) : nat :=
  List.length (List.filter (fun e => match e with TimerFired => true | _ => false end) events).

End Autocomplete.

(** ** Concrete inputs used in the examples below *)

Module Scenarios.
Import Geocoding Browser.

Definition service : GeocodingService := createGeocodingService (VStr "key").

(** The provider answers every request with an empty result set. *)
Definition no_results : Network := fun _ => AxResolved (DValue (RArray [])).

(** The same for the map's own [fetch]. *)
Definition map_no_results : Map.ReverseNetwork :=
  fun _ => FResponse 200 "OK" (JBody (DValue (RArray []))).

(** A map on an edit page of the owner, nothing placed yet. *)
Definition edit_map : Map.ListingMap :=
  Map.mkMap "key" (Map.mkOptions 13 3 1000 true) None [] 0 None None.

(** Storage and provider for the record scenarios: every save goes
    through, every address has no result. *)
Definition env_no_results : Controllers.Env :=
  Controllers.mkEnv (VStr "key") no_results false false "new-id".

(** A stored listing that already has a geometry. *)
Definition stored_listing : Controllers.Listing :=
  Controllers.mkListing (VStr "Old Town") (VStr "India")
    (Some (Controllers.Point (VArr [num 772 1; num 286 1]))) VUndefined (VStr "u1").

Definition update_req : Controllers.UpdateReq :=
  Controllers.mkUpdateReq "id1" (VObj [("location", VStr "Nowhere")]) VUndefined.

Definition create_req : Controllers.CreateReq :=
  Controllers.mkCreateReq (VObj [("path", VStr "/img/1.png"); ("filename", VStr "1.png")])
    (VObj [("location", VStr "Nowhere"); ("country", VStr "")])
    (VObj [("_id", VStr "u1")]).

Definition state_with (docs : gmap string Controllers.Listing) : Controllers.HState :=
  Controllers.mkHState [] None docs [].

(** A suggestion and the endpoint's answer carrying it. *)
Definition paris : Autocomplete.Suggestion :=
  Autocomplete.mkSuggestion "Paris, France" (Some (Dec 23522 4, Dec 488566 4))
    "France" "Paris" "Ile-de-France".

Definition paris_response : FetchOutcome (option Autocomplete.SuggestData) :=
  FResponse 200 "OK"
    (JBody (Some (Autocomplete.mkSuggestData true (Some [paris]) None))).

Definition rate_limited : FetchOutcome (option Autocomplete.SuggestData) :=
  FResponse 429 "Too Many Requests"
    (JBody (Some (Autocomplete.mkSuggestData false (Some []) (Some "Too many requests")))).

(** The new-listing form with the autocomplete on the location input;
    the user has already entered a latitude. *)
Definition page : Autocomplete.World :=
  Autocomplete.new_world "listing[location]"
    {[ "listing[location]" := ""; "listing[country]" := "";
       "listing[latitude]" := "1.5"; "listing[longitude]" := "" ]}
    None.

(** The page once the suggestions for "Paris" are displayed. *)
Definition page_with_suggestions : Autocomplete.World :=
  Autocomplete.run
    [ Autocomplete.Typed "Paris"; Autocomplete.TimerFired;
      Autocomplete.FetchSettled 0 paris_response ]
    page.

(** A provider that knows one place, and the storage around it. *)
Definition berlin : JsVal :=
  VObj [ ("lon", num 134050 4); ("lat", num 5252 2);
         ("formatted", VStr "Berlin, Germany"); ("country", VStr "Germany") ].

Definition one_result : Network := fun _ => AxResolved (DValue (RArray [berlin])).

Definition env_one_result : Controllers.Env :=
  Controllers.mkEnv (VStr "key") one_result false false "new-id".

(** The storage rejects every save. *)
Definition env_save_fails : Controllers.Env :=
  Controllers.mkEnv (VStr "key") no_results false true "new-id".

(** The same update as [update_req], with an uploaded image. *)
Definition update_with_image : Controllers.UpdateReq :=
  Controllers.mkUpdateReq "id1" (VObj [("location", VStr "Nowhere")])
    (VObj [("path", VStr "/img/2.png"); ("filename", VStr "2.png")]).

(** An update that changes the country only. *)
Definition country_update : Controllers.UpdateReq :=
  Controllers.mkUpdateReq "id1" (VObj [("country", VStr "Nepal")]) VUndefined.

(** A settled operation returned an object whose [success] is a
    boolean. *)
Definition structured (c : Completion JsVal) : Prop :=
  exists fields b, c = Normal (VObj fields) /\ lookup_field "success" fields = VBool b.

End Scenarios.

(** * Properties *)

(** ** The geocoding service *)

Section GeocodingProperties.
Import Geocoding.

Variable svc : GeocodingService.
Variable net : Network.

(** The guard of [reverseGeocode], read off as a predicate. *)
Lemma reverseGeocode_guard (lat lng : JsVal) :
  (falsy lat || falsy lng
   || negb (String.eqb (typeof lat) "number")
   || negb (String.eqb (typeof lng) "number")) = false ->
  exists x y, lat = VNum x /\ lng = VNum y /\ truthy lat = true /\ truthy lng = true.
Proof.
  unfold falsy. intros H.
  repeat (apply orb_false_elim in H; destruct H as [H ?]).
  destruct lat; try discriminate. destruct lng; try discriminate.
  apply negb_false_iff in H. apply negb_false_iff in H2.
  eauto 10.
Qed.

Lemma reverseGeocode_rejected (lat lng : JsVal) :
  (falsy lat || falsy lng
   || negb (String.eqb (typeof lat) "number")
   || negb (String.eqb (typeof lng) "number")) = true ->
  reverseGeocode svc lat lng net =
    mkRun [] (Normal (reverse_failure "Invalid coordinates provided" VNull)).
Proof. intros H. unfold reverseGeocode. now rewrite H. Qed.

(** Every settled reverse geocode is one of the four result shapes of
    the source. *)
Lemma reverseGeocode_shapes (lat lng : JsVal) :
  (sent (reverseGeocode svc lat lng net) = [] /\
   result (reverseGeocode svc lat lng net) =
     Normal (reverse_failure "Invalid coordinates provided" VNull))
  \/ (exists req, sent (reverseGeocode svc lat lng net) = [req] /\
      ((exists msg,
          result (reverseGeocode svc lat lng net) =
            Normal (reverse_failure msg (VStr (coords_label lat lng))))
       \/ (exists item formatted,
             get item "formatted" = Normal formatted /\
             result (reverseGeocode svc lat lng net) =
               Normal (VObj [ ("success", VBool true);
                              ("address", or_else formatted (VStr (coords_label lat lng)));
                              ("country", or_else (prop item "country") (VStr ""));
                              ("city", city_of item);
                              ("state", or_else (prop item "state") (VStr ""));
                              ("error", VNull) ])))).
Proof.
  unfold reverseGeocode.
  destruct (falsy lat || falsy lng || _ || _) eqn:G; [left; split; reflexivity|].
  right. eexists; split; [reflexivity|]. cbn [result].
  destruct (net _) as [data|e]; cbn.
  2: { left. eexists. reflexivity. }
  destruct (first_result data) as [item|]; cbn.
  2: { left. eexists. reflexivity. }
  unfold reverse_success.
  destruct (get item "formatted") as [formatted|e] eqn:Hget; cbn.
  - right. exists item, formatted. split; [assumption|reflexivity].
  - left. eexists. reflexivity.
Qed.

(** Every settled forward geocode is a failure object with [coordinates:
    null] or the success object with a coordinate pair. *)
Lemma geocodeAddress_shapes (address : JsVal) :
  (exists msg a,
     result (geocodeAddress svc address net) = Normal (geocode_failure msg a))
  \/ (exists item lon,
        result (geocodeAddress svc address net) =
          Normal (VObj [ ("success", VBool true);
                         ("coordinates", VArr [lon; prop item "lat"]);
                         ("address", or_else (prop item "formatted") address);
                         ("country", or_else (prop item "country") (VStr ""));
                         ("city", city_of item);
                         ("state", or_else (prop item "state") (VStr ""));
                         ("error", VNull) ])).
Proof.
  unfold geocodeAddress.
  destruct (falsy address || _); [left; eauto|].
  assert (Hc : forall e, exists msg a, geocode_catch address e = Normal (geocode_failure msg a)).
  { intros e. unfold geocode_catch.
    destruct (err_status e) as [z|]; [|eauto].
    destruct (z =? 401); [eauto|]. destruct (z =? 429); eauto. }
  destruct (call_trim address) as [text|e]; cbn [result]; [|left; apply Hc].
  destruct (net _) as [data|e]; cbn; [|left; apply Hc].
  destruct (first_result data) as [item|]; cbn; [|left; eauto].
  unfold geocode_success.
  destruct (get item "lon") as [lon|e]; cbn; [right; eauto|left; apply Hc].
Qed.

Lemma getAutocompleteSuggestions_shapes (query options : JsVal) :
  exists b items error,
    result (getAutocompleteSuggestions svc query options net) =
      Normal (autocomplete_result b items error)
    /\ (b = false -> items = [])
    /\ ((b = true /\ error = VNull) \/ (b = false /\ exists msg, error = VStr msg /\ msg <> "")).
Proof.
  unfold getAutocompleteSuggestions.
  assert (Hc : forall e, exists b items error,
             autocomplete_catch e = Normal (autocomplete_result b items error)
             /\ (b = false -> items = [])
             /\ ((b = true /\ error = VNull)
                 \/ (b = false /\ exists msg, error = VStr msg /\ msg <> ""))).
  { intros e. exists false, [], (VStr ("Autocomplete failed: " +:+ err_message e)).
    repeat split. right. split; [reflexivity|]. eexists; split; [reflexivity|discriminate]. }
  destruct (falsy query || _ || _).
  { exists false, [], (VStr "Query must be at least 3 characters long").
    repeat split. right. split; [reflexivity|]. eexists; split; [reflexivity|discriminate]. }
  destruct (autocomplete_params svc query options) as [params|e]; cbn [result];
    [|apply Hc].
  destruct (net _) as [data|e]; cbn; [|apply Hc].
  destruct (truthy_results data) as [[|items|lp item0]|]; cbn; try apply Hc.
  - destruct (map_completion suggestion_of items) as [suggestions|e]; cbn; [|apply Hc].
    exists true, suggestions, VNull. repeat split; [discriminate|]. left. split; reflexivity.
  - exists false, [], (VStr "No suggestions found").
    repeat split. right. split; [reflexivity|]. eexists; split; [reflexivity|discriminate].
Qed.

End GeocodingProperties.

(** C9.  [reverseGeocode(lat, lng)] with a falsy [lat] or [lng] (0, NaN,
    [undefined], ...) returns the failure "Invalid coordinates provided"
    with a [null] address and sends no upstream request. *)
Theorem reverseGeocode_falsy_coordinate_is_invalid
    (svc : Geocoding.GeocodingService) (net : Geocoding.Network) (lat lng : JsVal) :
  truthy lat = false \/ truthy lng = false ->
  Geocoding.reverseGeocode svc lat lng net =
    Geocoding.mkRun []
      (Normal (VObj [ ("success", VBool false);
                      ("error", VStr "Invalid coordinates provided");
                      ("address", VNull) ])).
Proof.
  intros H. apply reverseGeocode_rejected. unfold falsy.
  destruct H as [-> | ->]; cbn; [reflexivity|].
  now rewrite orb_true_r.
Qed.

(** The equator: latitude 0 is inside the valid range and is rejected
    all the same. *)
Lemma reverseGeocode_equator_rejected :
  Autocomplete.valid_coordinates (Dec 0 0) (Dec 775 1) = true
  /\ Geocoding.reverseGeocode Scenarios.service (num 0 0) (num 775 1) Scenarios.no_results =
       Geocoding.mkRun []
         (Normal (VObj [ ("success", VBool false);
                         ("error", VStr "Invalid coordinates provided");
                         ("address", VNull) ])).
Proof.
  split; [reflexivity|].
  apply (reverseGeocode_falsy_coordinate_is_invalid
           Scenarios.service Scenarios.no_results (num 0 0) (num 775 1)).
  left. reflexivity.
Defined.

(** C3, as stated, fails for reverse geocoding: with an empty result set
    the result has [success == false] and a non-null [address]. *)
Lemma reverse_failure_carries_address :
  exists r,
    Geocoding.result
      (Geocoding.reverseGeocode Scenarios.service (num 1234 2) (num 5678 2)
         Scenarios.no_results) = Normal r
    /\ prop r "success" = VBool false
    /\ prop r "address" = VStr "12.34, 56.78"
    /\ ~ (prop r "success" = VBool true <-> prop r "address" <> VNull).
Proof.
  eexists. split; [vm_compute; reflexivity|].
  cbn. repeat split. intros [_ H]. discriminate H. discriminate.
Qed.

(** C3, amended.  Forward geocoding: [success == true] iff [coordinates
    != null], and [error == null] iff [success == true].  Reverse
    geocoding: [error == null] iff [success == true], and [success ==
    true] implies [address != null]; the address is [null] only when the
    input was rejected without a request. *)
Theorem geocode_result_invariants
    (svc : Geocoding.GeocodingService) (net : Geocoding.Network)
    (address lat lng : JsVal) :
  (exists r,
      Geocoding.result (Geocoding.geocodeAddress svc address net) = Normal r
      /\ (prop r "success" = VBool true <-> prop r "coordinates" <> VNull)
      /\ (prop r "error" = VNull <-> prop r "success" = VBool true))
  /\ (exists r,
        Geocoding.result (Geocoding.reverseGeocode svc lat lng net) = Normal r
        /\ (prop r "success" = VBool true -> prop r "address" <> VNull)
        /\ (prop r "error" = VNull <-> prop r "success" = VBool true)
        /\ (prop r "address" = VNull <->
            Geocoding.sent (Geocoding.reverseGeocode svc lat lng net) = [])).
Proof.
  split.
  - destruct (geocodeAddress_shapes svc net address) as [(msg & a & ->)|(item & lon & ->)];
      eexists; (split; [reflexivity|]); cbn; split; split;
      intros H; try discriminate; try reflexivity; congruence.
  - destruct (reverseGeocode_shapes svc net lat lng)
      as [[Hs ->]|(req & Hs & [(msg & ->)|(item & formatted & Hget & ->)])];
      eexists; (split; [reflexivity|]); rewrite Hs; cbn.
    + repeat split; intros; try discriminate; reflexivity.
    + repeat split; intros; try discriminate.
    + assert (Ha : or_else formatted (VStr (Geocoding.coords_label lat lng)) <> VNull).
      { unfold or_else. destruct (truthy formatted) eqn:Ht; [|discriminate].
        intros ->. discriminate. }
      repeat split; intros; try discriminate; try reflexivity; try assumption.
      contradiction.
Qed.

(** C8.  Whatever the input and whatever the provider does (an HTTP
    error status, a timeout, a network failure, a malformed body), each
    of the three operations settles with an object whose [success] is a
    boolean: none of them throws. *)
Theorem geocoding_client_never_throws
    (svc : Geocoding.GeocodingService) (net : Geocoding.Network)
    (address lat lng query options : JsVal) :
  Scenarios.structured (Geocoding.result (Geocoding.geocodeAddress svc address net))
  /\ Scenarios.structured (Geocoding.result (Geocoding.reverseGeocode svc lat lng net))
  /\ Scenarios.structured
       (Geocoding.result (Geocoding.getAutocompleteSuggestions svc query options net)).
Proof.
  unfold Scenarios.structured. repeat split.
  - destruct (geocodeAddress_shapes svc net address) as [(msg & a & ->)|(item & lon & ->)];
      eexists _, _; split; reflexivity.
  - destruct (reverseGeocode_shapes svc net lat lng)
      as [[_ ->]|(req & _ & [(msg & ->)|(item & formatted & _ & ->)])];
      eexists _, _; split; reflexivity.
  - destruct (getAutocompleteSuggestions_shapes svc net query options)
      as (b & items & error & -> & _).
    eexists _, _; split; reflexivity.
Qed.

(** ** The map: pin placement and its reverse geocoding *)

Section MapProperties.
Import Geocoding Browser Map.

(** One attempt that ends the retry loop. *)
Lemma map_reverseGeocode_done key o net lat lng attempt address :
  key <> "" ->
  reverse_attempt o lat lng attempt (net attempt) = Done address ->
  Map.reverseGeocode key o net lat lng attempt = ([Fetch (reverse_url key lat lng)], address).
Proof.
  intros Hkey Hdone. simp reverseGeocode.
  destruct (String.eqb key "") eqn:E; [apply String.eqb_eq in E; contradiction|].
  simp reverseGeocode.
  destruct (inspect (reverse_attempt o lat lng attempt (net attempt))) as [a Ha].
  destruct a as [address'|]; [|congruence].
  simp reverseGeocode. congruence.
Qed.

End MapProperties.

(** C6, as stated, fails: for an empty result set the service's label
    is the plain string conversion of the two numbers, not their
    rounding to 4 decimals, and the map's rounded label starts with
    "Location: " and comes without a [success] flag. *)
Lemma no_results_label_is_not_rounded :
  Geocoding.result
    (Geocoding.reverseGeocode Scenarios.service (num 12345678 6) (num 5678 2)
       Scenarios.no_results)
  = Normal (VObj [ ("success", VBool false);
                   ("error", VStr "No address found for the provided coordinates");
                   ("address", VStr "12.345678, 56.78") ])
  /\ Map.fixed_label (Dec 12345678 6) (Dec 5678 2) = "12.3457, 56.7800"
  /\ "12.345678, 56.78" <> Map.fixed_label (Dec 12345678 6) (Dec 5678 2)
  /\ Map.reverseGeocode "key" (Map.options Scenarios.edit_map) Scenarios.map_no_results
       (Dec 12345678 6) (Dec 5678 2) 1
     = ([Map.Fetch "https://api.geoapify.com/v1/geocode/reverse?lat=12.345678&lon=56.78&apiKey=key&format=json"],
        VStr "Location: 12.3457, 56.7800").
Proof.
  split; [vm_compute; reflexivity|].
  split; [vm_compute; reflexivity|].
  split; [vm_compute; discriminate|].
  apply map_reverseGeocode_done; [discriminate|]. vm_compute. reflexivity.
Qed.

(** C6, amended.  For non-zero numbers [lat], [lng] and an empty result
    set, the service returns [success == false] with the address
    [`${lat}, ${lng}`], the two numbers converted to strings without
    rounding; the 4-decimal rounding is the map's, whose [reverseGeocode]
    returns the bare string ["Location: " + lat.toFixed(4) + ", " +
    lng.toFixed(4)]. *)
Theorem no_results_labels
    (svc : Geocoding.GeocodingService) (net : Geocoding.Network)
    (key : string) (o : Map.Options) (mnet : Map.ReverseNetwork) (attempt : Z)
    (lat lng : JsNum) (data : Geocoding.ResponseData) (status : Z) (statusText : string) :
  truthy (VNum lat) = true ->
  truthy (VNum lng) = true ->
  Geocoding.first_result data = None ->
  (forall req, net req = Geocoding.AxResolved data) ->
  key <> "" ->
  Browser.response_ok status = true ->
  data <> Geocoding.DNull ->
  mnet attempt = Browser.FResponse status statusText (Browser.JBody data) ->
  Geocoding.result (Geocoding.reverseGeocode svc (VNum lat) (VNum lng) net)
  = Normal (VObj [ ("success", VBool false);
                   ("error", VStr "No address found for the provided coordinates");
                   ("address", VStr (num_to_string lat +:+ ", " +:+ num_to_string lng)) ])
  /\ Map.reverseGeocode key o mnet lat lng attempt
     = ([Map.Fetch (Map.reverse_url key lat lng)],
        VStr ("Location: " +:+ toFixed lat 4 +:+ ", " +:+ toFixed lng 4)).
Proof.
  intros Hlat Hlng Hnone Hnet Hkey Hok Hdata Hmnet. split.
  - unfold Geocoding.reverseGeocode, falsy. rewrite Hlat, Hlng. cbn [negb orb typeof].
    cbn [String.eqb Ascii.eqb Bool.eqb negb orb Geocoding.result].
    rewrite Hnet. cbn. rewrite Hnone. reflexivity.
  - apply map_reverseGeocode_done; [assumption|].
    unfold Map.reverse_attempt, Map.reverse_try. rewrite Hmnet, Hok. cbn.
    destruct data; [contradiction| |]; cbn in *; rewrite ?Hnone; reflexivity.
Qed.

Lemma no_results_labels_witness :
  Geocoding.result
    (Geocoding.reverseGeocode Scenarios.service (num 1234 2) (num 5678 2) Scenarios.no_results)
  = Normal (VObj [ ("success", VBool false);
                   ("error", VStr "No address found for the provided coordinates");
                   ("address", VStr (num_to_string (Dec 1234 2) +:+ ", "
                                     +:+ num_to_string (Dec 5678 2))) ])
  /\ Map.reverseGeocode "key" (Map.options Scenarios.edit_map) Scenarios.map_no_results
       (Dec 1234 2) (Dec 5678 2) 1
     = ([Map.Fetch (Map.reverse_url "key" (Dec 1234 2) (Dec 5678 2))],
        VStr ("Location: " +:+ toFixed (Dec 1234 2) 4 +:+ ", " +:+ toFixed (Dec 5678 2) 4)).
Proof.
  apply (no_results_labels Scenarios.service Scenarios.no_results "key"
           (Map.options Scenarios.edit_map) Scenarios.map_no_results 1
           (Dec 1234 2) (Dec 5678 2) (Geocoding.DValue (Geocoding.RArray [])) 200 "OK");
    try reflexivity; try discriminate.
Defined.

(** C2, as stated, fails: coordinates outside the ranges are sent
    upstream by [reverseGeocode], and a click there places the temporary
    marker and starts a request. *)
Lemma out_of_range_is_not_rejected :
  Autocomplete.valid_coordinates (Dec 100 0) (Dec 200 0) = false
  /\ Geocoding.reverseGeocode Scenarios.service (num 100 0) (num 200 0) Scenarios.no_results
     = Geocoding.mkRun
         [ Geocoding.mkRequest "https://api.geoapify.com/v1/geocode/reverse"
             [ ("lat", num 100 0); ("lon", num 200 0); ("apiKey", VStr "key");
               ("limit", int 1); ("format", VStr "json") ] 10000 ]
         (Normal (VObj [ ("success", VBool false);
                         ("error", VStr "No address found for the provided coordinates");
                         ("address", VStr "100, 200") ]))
  /\ Map.tempMarkers (Map.onMapClick_placing Scenarios.edit_map (Dec 100 0) (Dec 200 0))
     = [(0%nat, (Dec 100 0, Dec 200 0))]
  /\ Map.popup (Map.onMapClick_placing Scenarios.edit_map (Dec 100 0) (Dec 200 0))
     = Some (Map.LoadingPopup (Dec 100 0) (Dec 200 0))
  /\ Map.onMapClick Scenarios.edit_map Scenarios.map_no_results (Dec 100 0) (Dec 200 0)
     = ([Map.Fetch "https://api.geoapify.com/v1/geocode/reverse?lat=100&lon=200&apiKey=key&format=json"],
        Map.mkMap "key" (Map.options Scenarios.edit_map) None [] 1
          (Some (Map.CandidatePopup (Dec 100 0) (Dec 200 0)
                   "Location: 100.0000, 200.0000" "Location: 100.0000, 200.0000"))
          None)
  /\ snd (Map.onMarkerDragEnd Scenarios.edit_map Scenarios.map_no_results
            (Dec 100 0) (Dec 200 0) (Autocomplete.form Scenarios.page))
       !! "listing[latitude]" = Some "100".
Proof.
  repeat split; vm_compute; reflexivity.
Qed.

(** C2, amended.  There is no range check.  [reverseGeocode] returns the
    "Invalid coordinates provided" failure, and sends nothing, exactly
    when [lat] or [lng] is falsy or not a number; a click is a no-op
    exactly when click geocoding is disabled, and with it enabled the
    temporary marker is placed at the clicked point at once, whatever
    the coordinates are; a marker drag writes the coordinates into the
    latitude and longitude inputs of the form, whatever they are. *)
Theorem coordinates_are_not_range_checked
    (svc : Geocoding.GeocodingService) (net : Geocoding.Network) (lat lng : JsVal)
    (m : Map.ListingMap) (mnet : Map.ReverseNetwork) (form : gmap string string)
    (x y : JsNum) :
  let rejected := truthy lat = false \/ truthy lng = false
                  \/ is_number lat = false \/ is_number lng = false in
  (Geocoding.sent (Geocoding.reverseGeocode svc lat lng net) = [] <-> rejected)
  /\ (Geocoding.result (Geocoding.reverseGeocode svc lat lng net)
      = Normal (VObj [ ("success", VBool false);
                       ("error", VStr "Invalid coordinates provided");
                       ("address", VNull) ]) <-> rejected)
  /\ (Map.onMapClick_placing m x y = m <->
      Map.enableClickGeocoding (Map.options m) = false)
  /\ (Map.tempMarkers (Map.onMapClick_placing m x y)
      = (Map.next_layer m, (x, y)) :: Map.tempMarkers m <->
      Map.enableClickGeocoding (Map.options m) = true)
  /\ snd (Map.onMarkerDragEnd m mnet x y form) !! "listing[latitude]"
     = (fun _ => num_to_string x) <$> (form !! "listing[latitude]")
  /\ snd (Map.onMarkerDragEnd m mnet x y form) !! "listing[longitude]"
     = (fun _ => num_to_string y) <$> (form !! "listing[longitude]").
Proof.
  intros rejected.
  assert (Hdrag :
            snd (Map.onMarkerDragEnd m mnet x y form) !! "listing[latitude]"
            = (fun _ => num_to_string x) <$> (form !! "listing[latitude]")
            /\ snd (Map.onMarkerDragEnd m mnet x y form) !! "listing[longitude]"
               = (fun _ => num_to_string y) <$> (form !! "listing[longitude]")).
  { unfold Map.onMarkerDragEnd.
    destruct (Map.reverseGeocode _ _ _ _ _ _) as [trace address]. cbn [snd].
    unfold Map.updateLocationFields, Browser.set_field.
    destruct (truthy address); split;
      repeat first [rewrite lookup_alter_eq | rewrite lookup_alter_ne by discriminate];
      try reflexivity; destruct (form !! _); reflexivity. }
  cut ((Geocoding.sent (Geocoding.reverseGeocode svc lat lng net) = [] <-> rejected)
       /\ (Geocoding.result (Geocoding.reverseGeocode svc lat lng net)
           = Normal (VObj [ ("success", VBool false);
                            ("error", VStr "Invalid coordinates provided");
                            ("address", VNull) ]) <-> rejected)
       /\ (Map.onMapClick_placing m x y = m <->
           Map.enableClickGeocoding (Map.options m) = false)
       /\ (Map.tempMarkers (Map.onMapClick_placing m x y)
           = (Map.next_layer m, (x, y)) :: Map.tempMarkers m <->
           Map.enableClickGeocoding (Map.options m) = true)).
  { intros (A & B & C & D). tauto. }
  clear Hdrag.
  assert (Hiff : rejected <->
                 (falsy lat || falsy lng
                  || negb (String.eqb (typeof lat) "number")
                  || negb (String.eqb (typeof lng) "number")) = true).
  { unfold rejected, falsy. split.
    - intros [H|[H|[H|H]]].
      + now rewrite H.
      + rewrite H. cbn. now rewrite orb_true_r.
      + destruct lat; try discriminate; cbn; now rewrite ?orb_true_r.
      + destruct lng; try discriminate; cbn; now rewrite ?orb_true_r.
    - intros H. destruct (truthy lat); [|now left]. destruct (truthy lng); [|now right; left].
      cbn in H. destruct lat; cbn in H; auto; destruct lng; cbn in H; auto; discriminate. }
  destruct (reverseGeocode_shapes svc net lat lng)
    as [[Hs Hr]|(req & Hs & Hr)].
  - assert (rejected).
    { apply Hiff. unfold Geocoding.reverseGeocode in Hs.
      destruct (falsy lat || falsy lng || _ || _); [reflexivity|discriminate Hs]. }
    rewrite Hs, Hr. repeat split; auto; try (intros; assumption); try apply H.
    all: unfold Map.onMapClick_placing;
      destruct (Map.enableClickGeocoding (Map.options m)); cbn; try congruence; auto.
    + intros E. apply (f_equal Map.next_layer) in E. cbn in E. lia.
    + intros E. apply (f_equal (@List.length _)) in E. cbn in E. lia.
  - assert (~ rejected).
    { intros H. apply Hiff in H.
      rewrite (reverseGeocode_rejected svc net lat lng H) in Hs. discriminate Hs. }
    rewrite Hs. repeat split; try (intros; contradiction); try discriminate.
    + intros E. exfalso. destruct Hr as [(msg & Hr)|(item & formatted & _ & Hr)];
        rewrite Hr in E; discriminate E.
    + unfold Map.onMapClick_placing.
      destruct (Map.enableClickGeocoding (Map.options m)); cbn; auto.
      intros E. apply (f_equal Map.next_layer) in E. cbn in E. lia.
    + unfold Map.onMapClick_placing. intros ->. reflexivity.
    + unfold Map.onMapClick_placing.
      destruct (Map.enableClickGeocoding (Map.options m)); cbn; auto.
      intros E. apply (f_equal (@List.length _)) in E. cbn in E. lia.
    + unfold Map.onMapClick_placing. intros ->. reflexivity.
Qed.

(** ** The controllers *)

Section ControllerProperties.
Import Geocoding Controllers.

(** Whatever comes back from the service, a value of any shape or an
    exception, the body sent has an array under [suggestions], and it is
    the empty array unless the status is 200. *)
Lemma respond_suggestions_array (outcome : Completion JsVal) :
  exists items,
    prop (body (respond outcome)) "suggestions" = VArr items
    /\ ((status (respond outcome) = 200)
        \/ (status (respond outcome) = 500 /\ items = [])).
Proof.
  unfold respond. destruct outcome as [r|e]; cbn.
  2: { exists []. split; [reflexivity|right; split; reflexivity]. }
  destruct (truthy r && String.eqb (typeof r) "object"); cbn.
  2: { exists []. split; [reflexivity|right; split; reflexivity]. }
  destruct (prop r "suggestions") as [| | | | |items|]; cbn;
    try (exists []; split; [reflexivity|left; reflexivity]).
  exists items. split; [reflexivity|left; reflexivity].
Qed.

Lemma respond_autocomplete_result (b : bool) (items : list JsVal) (error : JsVal) :
  (b = true /\ error = VNull) \/ (b = false /\ exists msg, error = VStr msg /\ msg <> "") ->
  respond (Normal (autocomplete_result b items error))
  = mkResponse 200 (suggestions_json (VBool b) (VArr items) error).
Proof.
  intros [[-> ->]|[-> (msg & -> & Hmsg)]]; unfold respond; cbn; [reflexivity|].
  unfold or_else. cbn. destruct (String.eqb msg "") eqn:E; [|reflexivity].
  apply String.eqb_eq in E. contradiction.
Qed.

(** The endpoint answers with one of three bodies. *)
Lemma getAddressSuggestions_shapes (env : Env) (query country : JsVal) :
  (exists msg, getAddressSuggestions env query country = bad_request msg)
  \/ (exists msg, getAddressSuggestions env query country = server_error msg)
  \/ (exists b items error,
        getAddressSuggestions env query country
        = mkResponse 200 (suggestions_json (VBool b) (VArr items) error)
        /\ (b = false -> items = [])
        /\ (error = VNull \/ exists msg, error = VStr msg)).
Proof.
  unfold getAddressSuggestions.
  destruct (falsy query || negb (String.eqb (typeof query) "string")) eqn:G; [eauto|].
  destruct (shorter_than query 2); [eauto|].
  destruct (longer_than query 200); [eauto|].
  destruct (falsy (MAP_TOKEN env)); [eauto|].
  destruct query as [| | | |q| |]; cbn in G; rewrite ?orb_true_r in G; try discriminate G.
  cbn [call_trim Js.bind].
  destruct (getAutocompleteSuggestions_shapes
              (createGeocodingService (MAP_TOKEN env)) (net env) (VStr (trim q))
              (suggestion_options country))
    as (b & items & error & -> & Hitems & Herr).
  rewrite (respond_autocomplete_result b items error Herr).
  right; right. exists b, items, error. repeat split; [assumption|].
  destruct Herr as [[_ ->]|[_ (msg & -> & _)]]; eauto.
Qed.

End ControllerProperties.

(** C10.  Every response of the address-suggestions endpoint has status
    200, 400 or 500 and a body in which [success] is a boolean,
    [suggestions] is an array and [error] is a string or [null]; the
    array is empty on every failure (status 400 or 500, or [success ==
    false]).  The array shape does not depend on the service: for any
    value or exception coming back from it, [suggestions] is still an
    array, empty unless the status is 200. *)
Theorem address_suggestions_body_shape
    (env : Controllers.Env) (query country : JsVal) (outcome : Completion JsVal) :
  let r := Controllers.getAddressSuggestions env query country in
  let r' := Controllers.respond outcome in
  (Controllers.status r = 200 \/ Controllers.status r = 400 \/ Controllers.status r = 500)
  /\ (exists b items,
         prop (Controllers.body r) "success" = VBool b
         /\ prop (Controllers.body r) "suggestions" = VArr items
         /\ ((Controllers.status r = 200 /\ b = true) \/ items = []))
  /\ (prop (Controllers.body r) "error" = VNull
      \/ exists msg, prop (Controllers.body r) "error" = VStr msg)
  /\ (exists items,
         prop (Controllers.body r') "suggestions" = VArr items
         /\ (Controllers.status r' = 200
             \/ (Controllers.status r' = 500 /\ items = []))).
Proof.
  intros r r'. subst r r'.
  split; [|split; [|split]]; [| | |apply respond_suggestions_array].
  all: destruct (getAddressSuggestions_shapes env query country)
         as [(msg & ->)|[(msg & ->)|(b & items & error & -> & Hitems & Herr)]]; cbn;
    eauto 10.
  exists b, items. repeat split. destruct b; [left; auto|right; auto].
Qed.

(** C4, as stated, fails for updates: when the stored listing already
    has a geometry, a failed geocoding leaves that geometry in place
    instead of storing the default point. *)
Lemma update_keeps_existing_geometry :
  let st := fst (Controllers.updateListing Scenarios.env_no_results Scenarios.update_req
                   (Scenarios.state_with {[ "id1" := Scenarios.stored_listing ]})) in
  Controllers.geometry <$> (Controllers.db st !! "id1")
    = Some (Some (Controllers.Point (VArr [num 772 1; num 286 1])))
  /\ Controllers.geometry <$> (Controllers.db st !! "id1")
     <> Some (Some Controllers.default_point)
  /\ Controllers.flashes st
     = [ ("warning", "Listing updated but location mapping failed: No results found for the provided address");
         ("success", "Listing Updated Successfully!") ]
  /\ Controllers.redirected st = Some "/listings/id1".
Proof.
  vm_compute. repeat split. discriminate.
Qed.

Section RecordGeocoding.
Import Geocoding Controllers.

Variable env : Env.
Hypothesis save_works : save_fails env = false.
Hypothesis find_works : find_fails env = false.

(** [createListing] when the geocoding of the entered address fails. *)
Lemma createListing_geocoding_failed (req : CreateReq) (st : HState)
    (url loc uid g : JsVal) :
  get (c_file req) "path" = Normal url ->
  get (c_listing req) "location" = Normal loc ->
  get (c_user req) "_id" = Normal uid ->
  result (geocodeAddress (createGeocodingService (MAP_TOKEN env)) loc (net env)) = Normal g ->
  prop g "success" = VBool false ->
  createListing env req st
  = (mkHState
       (List.app (flashes st)
          [("warning",
            "Listing created but location mapping failed: "
            +:+ to_string (prop g "error")
            +:+ ". Please update the address for accurate location display.")])
       (Some "/listings")
       (<[new_id env :=
            mkListing loc (prop (c_listing req) "country") (Some default_point)
              (VObj [("url", url); ("filename", prop (c_file req) "filename")]) uid]>
          (db st))
       (List.app (upstream st)
          (sent (geocodeAddress (createGeocodingService (MAP_TOKEN env)) loc (net env)))),
     Normal tt).
Proof.
  intros Hfile Hloc Huser Hgeo Hfail.
  unfold createListing, htry, hbind, hlift, geocode.
  rewrite Hfile, Hloc, Huser. cbn. rewrite Hgeo.
  assert (Hg : get g "success" = Normal (VBool false)).
  { destruct g; cbn in Hfail; try discriminate; cbn; now rewrite Hfail. }
  rewrite Hg. cbn. unfold save. rewrite save_works. cbn. reflexivity.
Qed.

(** [updateListing] when the geocoding of the new address fails. *)
Lemma updateListing_geocoding_failed (req : UpdateReq) (st : HState)
    (stored : Listing) (loc g : JsVal) :
  db st !! u_id req = Some stored ->
  get (u_listing req) "location" = Normal loc ->
  truthy loc = true ->
  u_file req = VUndefined ->
  result (geocodeAddress (createGeocodingService (MAP_TOKEN env)) loc (net env)) = Normal g ->
  prop g "success" = VBool false ->
  let patched := patch (u_listing req) stored in
  updateListing env req st
  = (mkHState
       (List.app
          (List.app (flashes st)
             [("warning",
               "Listing updated but location mapping failed: "
               +:+ to_string (prop g "error"))])
          [("success", "Listing Updated Successfully!")])
       (Some ("/listings/" +:+ u_id req))
       (<[u_id req :=
            if missing_geometry patched then set_geometry default_point patched
            else patched]>
          (<[u_id req := patched]> (db st)))
       (List.app (upstream st)
          (sent (geocodeAddress (createGeocodingService (MAP_TOKEN env)) loc (net env)))),
     Normal tt).
Proof.
  intros Hfound Hloc Htruthy Hfile Hgeo Hfail patched.
  unfold updateListing, htry, hbind, hlift, findByIdAndUpdate, geocode.
  rewrite find_works, Hfound. cbn. rewrite Hloc, Htruthy. cbn. rewrite Hgeo.
  assert (Hg : get g "success" = Normal (VBool false)).
  { destruct g; cbn in Hfail; try discriminate; cbn; now rewrite Hfail. }
  rewrite Hg, Hfile. cbn. unfold save. rewrite save_works. cbn. reflexivity.
Qed.

Lemma patch_geometry (body : JsVal) (l : Listing) : geometry (patch body l) = geometry l.
Proof.
  unfold patch.
  destruct (lookup_field "location" _), (lookup_field "country" _); reflexivity.
Qed.

End RecordGeocoding.

(** C4, amended.  When the forward geocoding of the address fails and
    the storage accepts the record, the record is saved and a warning is
    flashed.  On creation, whatever the store holds, the stored geometry
    is the Point at the default coordinates.  On update, with or without
    an uploaded image, the stored geometry is the one the listing
    already had; the default Point is stored only when the listing had
    no geometry (or no coordinates in it). *)
Theorem geocoding_failure_still_saves (env : Controllers.Env) :
  Controllers.save_fails env = false ->
  (forall (st : Controllers.HState) (creq : Controllers.CreateReq) (url loc uid g : JsVal),
      get (Controllers.c_file creq) "path" = Normal url ->
      get (Controllers.c_listing creq) "location" = Normal loc ->
      get (Controllers.c_user creq) "_id" = Normal uid ->
      Geocoding.result
        (Geocoding.geocodeAddress
           (Geocoding.createGeocodingService (Controllers.MAP_TOKEN env)) loc
           (Controllers.net env)) = Normal g ->
      prop g "success" = VBool false ->
      let created := fst (Controllers.createListing env creq st) in
      Controllers.geometry <$> (Controllers.db created !! Controllers.new_id env)
      = Some (Some Controllers.default_point)
      /\ Controllers.redirected created = Some "/listings"
      /\ Controllers.flashes created
         = List.app (Controllers.flashes st)
             [("warning",
               "Listing created but location mapping failed: "
               +:+ to_string (prop g "error")
               +:+ ". Please update the address for accurate location display.")])
  /\ (forall (st : Controllers.HState) (ureq : Controllers.UpdateReq)
             (stored : Controllers.Listing) (uloc ug : JsVal),
      Controllers.find_fails env = false ->
      Controllers.db st !! Controllers.u_id ureq = Some stored ->
      get (Controllers.u_listing ureq) "location" = Normal uloc ->
      truthy uloc = true ->
      Controllers.u_file ureq <> VNull ->
      Geocoding.result
        (Geocoding.geocodeAddress
           (Geocoding.createGeocodingService (Controllers.MAP_TOKEN env)) uloc
           (Controllers.net env)) = Normal ug ->
      prop ug "success" = VBool false ->
      let updated := fst (Controllers.updateListing env ureq st) in
      Controllers.geometry <$> (Controllers.db updated !! Controllers.u_id ureq)
      = Some (if Controllers.missing_geometry stored
              then Some Controllers.default_point
              else Controllers.geometry stored)
      /\ Controllers.redirected updated = Some ("/listings/" +:+ Controllers.u_id ureq)
      /\ Controllers.flashes updated
         = List.app
             (List.app (Controllers.flashes st)
                [("warning",
                  "Listing updated but location mapping failed: "
                  +:+ to_string (prop ug "error"))])
             [("success", "Listing Updated Successfully!")]).
Proof.
  intros Hsave. split.
  - intros st creq url loc uid g Hfile Hloc Huser Hgeo Hfail created. subst created.
    rewrite (createListing_geocoding_failed env Hsave creq st url loc uid g) by assumption.
    cbn [fst Controllers.db Controllers.redirected Controllers.flashes].
    rewrite lookup_insert_eq. repeat split.
  - intros st ureq stored uloc ug Hfind Hfound Huloc Htruthy Hufile Hugeo Hufail updated.
    subst updated.
    assert (Hg : get ug "success" = Normal (VBool false)).
    { destruct ug; cbn in Hufail; try discriminate; cbn; now rewrite Hufail. }
    assert (Hkept : forall l : Controllers.Listing,
              Controllers.geometry l = Controllers.geometry stored ->
              Controllers.geometry
                (if Controllers.missing_geometry l
                 then Controllers.set_geometry Controllers.default_point l else l)
              = (if Controllers.missing_geometry stored
                 then Some Controllers.default_point
                 else Controllers.geometry stored)).
    { intros l Hl. unfold Controllers.missing_geometry. rewrite Hl.
      destruct (Controllers.geometry stored) as [geo|]; cbn; [|reflexivity].
      destruct (falsy (Controllers.geo_coordinates geo)); cbn; [reflexivity|exact Hl]. }
    pose proof (Hkept _ (patch_geometry (Controllers.u_listing ureq) stored)) as Hgeom.
    unfold Controllers.updateListing, Controllers.htry, Controllers.hbind,
      Controllers.hlift, Controllers.findByIdAndUpdate, Controllers.geocode,
      Controllers.save.
    rewrite Hfind, Hfound. cbn. rewrite Huloc, Htruthy. cbn. rewrite Hugeo, Hg. cbn.
    destruct (Controllers.u_file ureq) eqn:Ef; try congruence; cbn; rewrite Hsave; cbn;
      rewrite lookup_insert_eq; cbn; (split; [|split; reflexivity]);
      f_equal; exact Hgeom.
Qed.

Lemma geocoding_failure_still_saves_witness :
  let created := fst (Controllers.createListing Scenarios.env_no_results Scenarios.create_req
                        (Scenarios.state_with ∅)) in
  let updated := fst (Controllers.updateListing Scenarios.env_no_results Scenarios.update_req
                        (Scenarios.state_with {[ "id1" := Scenarios.stored_listing ]})) in
  let with_image :=
    fst (Controllers.updateListing Scenarios.env_no_results
           Scenarios.update_with_image
           (Scenarios.state_with {[ "id1" := Scenarios.stored_listing ]})) in
  Controllers.geometry <$> (Controllers.db created !! "new-id")
    = Some (Some Controllers.default_point)
  /\ Controllers.geometry <$> (Controllers.db updated !! "id1")
     = Some (Controllers.geometry Scenarios.stored_listing)
  /\ Controllers.geometry <$> (Controllers.db with_image !! "id1")
     = Some (Controllers.geometry Scenarios.stored_listing).
Proof.
  destruct (geocoding_failure_still_saves Scenarios.env_no_results eq_refl) as [Hc Hu].
  split; [|split].
  - refine (proj1 (Hc (Scenarios.state_with ∅) Scenarios.create_req
                     (VStr "/img/1.png") (VStr "Nowhere") (VStr "u1")
                     (Geocoding.geocode_failure "No results found for the provided address"
                        (VStr "Nowhere"))
                     eq_refl eq_refl eq_refl eq_refl eq_refl)).
  - refine (proj1 (Hu (Scenarios.state_with {[ "id1" := Scenarios.stored_listing ]})
                     Scenarios.update_req Scenarios.stored_listing (VStr "Nowhere")
                     (Geocoding.geocode_failure "No results found for the provided address"
                        (VStr "Nowhere"))
                     eq_refl _ eq_refl eq_refl _ eq_refl eq_refl));
      [vm_compute; reflexivity|discriminate].
  - refine (proj1 (Hu (Scenarios.state_with {[ "id1" := Scenarios.stored_listing ]})
                     Scenarios.update_with_image
                     Scenarios.stored_listing (VStr "Nowhere")
                     (Geocoding.geocode_failure "No results found for the provided address"
                        (VStr "Nowhere"))
                     eq_refl _ eq_refl eq_refl _ eq_refl eq_refl));
      [vm_compute; reflexivity|discriminate].
Defined.

(** ** Address autocomplete *)

Section AutocompleteProperties.
Import Browser Map Autocomplete.

(** A call of [fetchSuggestions] while a request is in flight does
    nothing at all. *)
Lemma fetchSuggestions_while_loading (query : string) (attempt : Z) (w : World) :
  isLoading (session w) = true -> fetchSuggestions query attempt w = w.
Proof. intros H. unfold fetchSuggestions. now rewrite H. Qed.

(** The retry of a suspended call finds [isLoading] still set by that
    very call: the callee returns at its guard, no request goes out, and
    the caller's [finally] block then clears the flag. *)
Lemma retry_is_dropped (id : nat) (query : string) (attempt : Z) (w : World) :
  isLoading (session w) = true ->
  retry_elapsed id query attempt w = finish (settle id w).
Proof.
  intros H. unfold retry_elapsed.
  now rewrite fetchSuggestions_while_loading.
Qed.

(** Typing a long enough query and letting the debounce timer fire on
    an idle session sends one request and suspends the call. *)
Lemma typed_then_fired (value : string) (w : World) :
  isLoading (session w) = false ->
  (minLength (session w) <= String.length (trim value))%nat ->
  let form' := <[input_name (session w) := value]> (form w) in
  let country := default "" (form' !! "listing[country]") in
  run [Typed value; TimerFired] w
  = mkWorld (showLoading (set_isLoading true (set_debounceTimer None (session w))))
      form' (listingMap w)
      (<[next_task w := AwaitSuggestions (trim value) 1]> (tasks w))
      (S (next_task w))
      (List.app (requests w)
         [mkSuggestRequest (apiEndpoint (session w)) (trim value)
            (if String.eqb country "" then None else Some country)])
      (searches w) (waits w).
Proof.
  intros Hidle Hlen form' country. unfold run. cbn [List.fold_left].
  unfold step at 2. unfold onInput. cbn [session set_form].
  destruct (Nat.ltb_spec (String.length (trim value)) (minLength (session w))) as [Hlt|_];
    [lia|].
  unfold step, on_session. cbn. unfold fetchSuggestions. cbn. rewrite Hidle.
  reflexivity.
Qed.

(** A request that runs into the 8 s timeout ends the call with its own
    message, whatever the attempt: it is not retried. *)
Lemma timeout_is_not_retried (id : nat) (query : string) (attempt : Z) (w : World) :
  fetch_settled id query attempt (FFail AbortError) w
  = finish (on_session (showError "Request timed out. Please try again.") (settle id w)).
Proof. reflexivity. Qed.

(** The same while a request is in flight: the input and the timer
    change, nothing is sent. *)
Lemma typed_then_fired_while_loading (value : string) (w : World) :
  isLoading (session w) = true ->
  (minLength (session w) <= String.length (trim value))%nat ->
  run [Typed value; TimerFired] w
  = mkWorld (set_debounceTimer None (session w))
      (<[input_name (session w) := value]> (form w)) (listingMap w)
      (tasks w) (next_task w) (requests w) (searches w) (waits w).
Proof.
  intros Hbusy Hlen. unfold run. cbn [List.fold_left].
  unfold step at 2. unfold onInput. cbn [session set_form].
  destruct (Nat.ltb_spec (String.length (trim value)) (minLength (session w))) as [Hlt|_];
    [lia|].
  unfold step, on_session. cbn. unfold fetchSuggestions. cbn. rewrite Hbusy.
  reflexivity.
Qed.

Lemma run_cons2 (e1 e2 : Event) (rest : list Event) (w : World) :
  run (e1 :: e2 :: rest) w = run rest (run [e1; e2] w).
Proof. reflexivity. Qed.

(** *** One request at a time *)

Lemma single_flight_new (name : string) (f : gmap string string) (m : option ListingMap) :
  single_flight (new_world name f m).
Proof. intros id t H. cbn in H. rewrite lookup_empty in H. discriminate. Qed.

(** While the session is idle no call of [fetchSuggestions] is
    suspended. *)
Lemma idle_no_fetch (w : World) :
  single_flight w -> isLoading (session w) = false ->
  forall i t, tasks w !! i = Some t -> is_fetch t = false.
Proof.
  intros Inv Hidle i t H. destruct (is_fetch t) eqn:F; [|reflexivity].
  destruct (Inv i t H F) as [Hload _]. congruence.
Qed.

(** Changing the session without touching [isLoading], or the form, or
    the map, keeps the invariant. *)
Lemma single_flight_same (w w' : World) :
  tasks w' = tasks w ->
  isLoading (session w') = isLoading (session w) ->
  single_flight w -> single_flight w'.
Proof.
  intros Ht Hl Inv id t H F. rewrite Ht in H. rewrite Hl.
  destruct (Inv id t H F) as [Hload Huniq]. split; [assumption|].
  intros id' t' H' F'. rewrite Ht in H'. eauto.
Qed.

Lemma single_flight_no_fetch (w : World) :
  (forall i t, tasks w !! i = Some t -> is_fetch t = false) -> single_flight w.
Proof. intros Hn id t H F. rewrite (Hn id t H) in F. discriminate. Qed.

(** Once the only suspended call is taken out, none is left. *)
Lemma settle_leaves_no_fetch (id : nat) (t : Task) (w : World) :
  single_flight w -> tasks w !! id = Some t -> is_fetch t = true ->
  forall i t', tasks (settle id w) !! i = Some t' -> is_fetch t' = false.
Proof.
  intros Inv H F i t' H'. cbn in H'. rewrite lookup_delete in H'.
  case_decide; [discriminate|].
  destruct (is_fetch t') eqn:F'; [|reflexivity].
  destruct (Inv id t H F) as [_ Huniq]. specialize (Huniq i t' H' F'). congruence.
Qed.

(** A suspended call that is put back under its own id is again the only
    one. *)
Lemma single_flight_resuspend (id : nat) (t t0 : Task) (w : World) :
  single_flight w -> tasks w !! id = Some t0 -> is_fetch t0 = true ->
  forall w', tasks w' = <[id := t]> (delete id (tasks w)) ->
             isLoading (session w') = isLoading (session w) ->
             single_flight w'.
Proof.
  intros Inv H0 F0 w' Ht Hl i t1 H1 F1. rewrite Hl.
  destruct (Inv id t0 H0 F0) as [Hload Huniq]. split; [assumption|].
  assert (Hid : forall j tj, tasks w' !! j = Some tj -> is_fetch tj = true -> j = id).
  { intros j tj Hj Fj. rewrite Ht, lookup_insert in Hj.
    case_decide; [congruence|]. rewrite lookup_delete in Hj.
    case_decide; [discriminate|]. eauto. }
  intros i' t' H' F'. rewrite (Hid _ _ H1 F1). eauto.
Qed.

Lemma fetchSuggestions_single_flight (query : string) (attempt : Z) (w : World) :
  single_flight w -> single_flight (fetchSuggestions query attempt w).
Proof.
  intros Inv. unfold fetchSuggestions.
  destruct (isLoading (session w)) eqn:E; [assumption|].
  pose proof (idle_no_fetch w Inv E) as Hn.
  assert (Hid : forall j tj,
             <[next_task w := AwaitSuggestions query attempt]> (tasks w) !! j = Some tj ->
             is_fetch tj = true -> j = next_task w).
  { intros j tj Hj Fj. rewrite lookup_insert in Hj. case_decide; [congruence|].
    rewrite (Hn _ _ Hj) in Fj. discriminate. }
  intros id t H F. cbn in *. split; [reflexivity|].
  intros id' t' H' F'. rewrite (Hid _ _ H F). eauto.
Qed.

Lemma finish_no_fetch (w : World) :
  (forall i t, tasks w !! i = Some t -> is_fetch t = false) -> single_flight (finish w).
Proof. intros Hn. apply single_flight_no_fetch. exact Hn. Qed.

Lemma fetch_catch_single_flight (id : nat) (query : string) (attempt : Z) (e : JsError)
    (w : World) (t0 : Task) :
  single_flight w -> tasks w !! id = Some t0 -> is_fetch t0 = true ->
  single_flight (fetch_catch id query attempt e (settle id w)).
Proof.
  intros Inv H0 F0. unfold fetch_catch.
  pose proof (settle_leaves_no_fetch id t0 w Inv H0 F0) as Hn.
  destruct (String.eqb (err_name e) "AbortError"); [apply single_flight_no_fetch; exact Hn|].
  destruct ((attempt <=? 2) && negb (includes (err_message e) "429"));
    [|apply single_flight_no_fetch; exact Hn].
  apply (single_flight_resuspend id (AwaitRetry query attempt) t0 w Inv H0 F0); reflexivity.
Qed.

Lemma step_single_flight (e : Event) (w : World) :
  single_flight w -> single_flight (step e w).
Proof.
  intros Inv. destruct e as [value| |id outcome|id|index|id outcome]; cbn [step].
  - (* Typed *)
    unfold onInput. cbn [session set_form].
    destruct (Nat.ltb _ _); (eapply single_flight_same; [| |exact Inv]; reflexivity).
  - (* TimerFired *)
    destruct (debounceTimer (session w)); [|assumption].
    apply fetchSuggestions_single_flight.
    eapply single_flight_same; [| |exact Inv]; reflexivity.
  - (* FetchSettled *)
    destruct (tasks w !! id) as [[query attempt| |]|] eqn:H; try assumption.
    unfold fetch_settled.
    pose proof (settle_leaves_no_fetch id _ w Inv H eq_refl) as Hn.
    destruct outcome as [status statusText json|e].
    2: { eapply fetch_catch_single_flight; eauto. }
    destruct (negb (response_ok status)).
    { destruct ((status =? 429) && (attempt <=? 2)).
      - apply (single_flight_resuspend id (AwaitRetry query attempt) _ w Inv H eq_refl);
          reflexivity.
      - eapply fetch_catch_single_flight; eauto. }
    destruct json as [[data|]|e]; try (eapply fetch_catch_single_flight; eauto; fail).
    destruct (d_success data), (d_suggestions data); apply single_flight_no_fetch; exact Hn.
  - (* DelayElapsed *)
    destruct (tasks w !! id) as [[| query attempt|]|] eqn:H; try assumption.
    destruct (Inv id _ H eq_refl) as [Hload _].
    rewrite retry_is_dropped by exact Hload.
    apply single_flight_no_fetch. exact (settle_leaves_no_fetch id _ w Inv H eq_refl).
  - (* Clicked *)
    unfold selectSuggestion.
    destruct (suggestion_at index (session w)) as [sg|]; [|assumption].
    unfold updateMapLocation. cbn [listingMap set_form on_session set_session].
    destruct (listingMap w) as [m|]; [destruct (coordinates sg) as [[lng lat]|]|].
    + destruct (valid_coordinates lat lng); cbn;
        (eapply single_flight_same; [| |exact Inv]; reflexivity).
    + destruct (search_sends m (address sg));
        [|eapply single_flight_same; [| |exact Inv]; reflexivity].
      intros i t Hi Fi. cbn in Hi. rewrite lookup_insert in Hi.
      case_decide; [simplify_eq; discriminate|].
      destruct (Inv i t Hi Fi) as [Hload Huniq]. split; [exact Hload|].
      intros i' t' Hi' Fi'. cbn in Hi'. rewrite lookup_insert in Hi'.
      case_decide; [simplify_eq; discriminate|]. eauto.
    + eapply single_flight_same; [| |exact Inv]; reflexivity.
  - (* SearchSettled *)
    destruct (tasks w !! id) as [[| |a]|] eqn:H; try assumption.
    destruct (listingMap w) as [m|]; [|assumption].
    destruct (search_complete m (form w) outcome) as [[ok m'] form'].
    intros i t Hi Fi. cbn in Hi. rewrite lookup_delete in Hi.
    case_decide; [discriminate|].
    destruct (Inv i t Hi Fi) as [Hload Huniq]. split; [exact Hload|].
    intros i' t' Hi' Fi'. cbn in Hi'. rewrite lookup_delete in Hi'.
    case_decide; [discriminate|]. eauto.
Qed.

Lemma run_single_flight (events : list Event) (w : World) :
  single_flight w -> single_flight (run events w).
Proof.
  revert w. induction events as [|e events IH]; intros w Inv; [exact Inv|].
  cbn. apply IH, step_single_flight, Inv.
Qed.

(** No retry ever reaches the network: wherever the invariant holds, the
    end of a retry delay sends nothing. *)
Lemma retry_never_sends (w : World) (id : nat) :
  single_flight w -> requests (step (DelayElapsed id) w) = requests w.
Proof.
  intros Inv. cbn [step].
  destruct (tasks w !! id) as [[| query attempt|]|] eqn:H; try reflexivity.
  destruct (Inv id _ H eq_refl) as [Hload _].
  rewrite retry_is_dropped by exact Hload. reflexivity.
Qed.

(** Requests are sent by the debounce timer only. *)
Lemma requests_only_on_timer (e : Event) (w : World) :
  single_flight w -> e <> TimerFired -> requests (step e w) = requests w.
Proof.
  intros Inv Hne. destruct e as [value| |id outcome|id|index|id outcome];
    [|contradiction| |apply retry_never_sends; exact Inv| |]; cbn [step].
  - unfold onInput. destruct (Nat.ltb _ _); reflexivity.
  - destruct (tasks w !! id) as [[query attempt| |]|]; try reflexivity.
    unfold fetch_settled, fetch_catch.
    destruct outcome as [status statusText [[data|]|e]|e]; cbn;
      repeat match goal with
             | |- context [if ?b then _ else _] => destruct b; cbn
             | |- context [match ?x with _ => _ end] => destruct x; cbn
             end; reflexivity.
  - unfold selectSuggestion.
    destruct (suggestion_at index (session w)) as [sg|]; [|reflexivity].
    unfold updateMapLocation. cbn [listingMap set_form on_session set_session].
    destruct (listingMap w) as [m|]; [destruct (coordinates sg) as [[lng lat]|]|];
      try reflexivity.
    + destruct (valid_coordinates lat lng); reflexivity.
    + destruct (search_sends m (address sg)); reflexivity.
  - destruct (tasks w !! id) as [[| |a]|]; try reflexivity.
    destruct (listingMap w) as [m|]; [|reflexivity].
    destruct (search_complete m (form w) outcome) as [[ok m'] form']. reflexivity.
Qed.


Lemma updateRelatedFields_alter (sg : Suggestion) (f : gmap string string) :
  updateRelatedFields sg f =
  let f := alter (country_rule sg) "listing[country]" f in
  match coordinates sg with
  | Some (lng, lat) =>
      set_field "listing[longitude]" (num_to_string lng)
        (set_field "listing[latitude]" (num_to_string lat) f)
  | None => f
  end.
Proof.
  unfold updateRelatedFields. cbv zeta.
  assert (E : match f !! "listing[country]" with
    | Some current =>
        if negb (String.eqb (country sg) "") && String.eqb current ""
        then <["listing[country]" := country sg]> f
        else f
    | None => f
    end = alter (country_rule sg) "listing[country]" f).
  { apply map_eq. intros k. rewrite lookup_alter.
    destruct (f !! "listing[country]") as [cur|] eqn:Hc.
    - unfold country_rule. cbn.
      destruct (negb (String.eqb (country sg) "") && String.eqb cur "") eqn:Hb.
      + rewrite lookup_insert. case_decide; subst; reflexivity.
      + case_decide; subst; [assumption|reflexivity].
    - case_decide; subst; cbn; [assumption|reflexivity]. }
  rewrite E. reflexivity.
Qed.

Lemma country_rule_idem (sg : Suggestion) (c : string) :
  country_rule sg (country_rule sg c) = country_rule sg c.
Proof.
  unfold country_rule.
  destruct (String.eqb (country sg) "") eqn:E1; cbn; [reflexivity|].
  destruct (String.eqb c "") eqn:E2; cbn; rewrite ?E1, ?E2; reflexivity.
Qed.

Lemma lookup_alter_pointwise (g : string -> string) (i k : string) (f : gmap string string) :
  alter g i f !! k = (if decide (i = k) then g else id) <$> f !! k.
Proof.
  rewrite lookup_alter. case_decide; subst; [reflexivity|].
  destruct (f !! k); reflexivity.
Qed.

(** What a selection does to the fields after the input itself has been
    set is a change of each field's value on its own, and applying it
    twice is the same as applying it once. *)
Lemma dependent_fields_pointwise (sg : Suggestion) (with_map : JsNum -> JsNum -> bool)
    (addr k : string) :
  exists change : string -> string,
    (forall f : gmap string string,
        match coordinates sg with
        | Some (lng, lat) =>
            if with_map lat lng
            then updateLocationFields lat lng (VStr addr) (updateRelatedFields sg f)
            else updateRelatedFields sg f
        | None => updateRelatedFields sg f
        end !! k = change <$> f !! k)
    /\ (forall x, change (change x) = change x).
Proof.
  destruct (coordinates sg) as [[lng lat]|] eqn:Hc;
    [destruct (with_map lat lng); [destruct (negb (String.eqb addr "")) eqn:Ha|]|].
  all: eexists; split;
    [ intros f; rewrite updateRelatedFields_alter, Hc; cbv zeta;
      unfold updateLocationFields, set_field; cbn [truthy to_string]; rewrite ?Ha;
      rewrite !lookup_alter_pointwise, <- ?option_fmap_compose; reflexivity
    | intros x; unfold compose;
      repeat (case_decide; try subst; try discriminate);
      unfold id; rewrite ?country_rule_idem; reflexivity ].
Qed.

(** The form after one and after two selections of the same item, as a
    function of the form before. *)
Lemma selectSuggestion_form (index : Z) (w : World) (sg : Suggestion) :
  suggestion_at index (session w) = Some sg ->
  exists with_map : JsNum -> JsNum -> bool,
    let F := fun f =>
      let f2 := updateRelatedFields sg (<[input_name (session w) := address sg]> f) in
      match coordinates sg with
      | Some (lng, lat) =>
          if with_map lat lng then updateLocationFields lat lng (VStr (address sg)) f2 else f2
      | None => f2
      end in
    form (selectSuggestion index w) = F (form w)
    /\ form (selectSuggestion index (selectSuggestion index w)) = F (F (form w)).
Proof.
  intros Hsg.
  exists (fun lat lng => match listingMap w with
                         | Some _ => valid_coordinates lat lng
                         | None => false
                         end).
  cbv zeta.
  assert (H1 : forall w', suggestion_at index (session w') = Some sg ->
     form (selectSuggestion index w') =
     match coordinates sg with
     | Some (lng, lat) =>
         if match listingMap w' with Some _ => valid_coordinates lat lng | None => false end
         then updateLocationFields lat lng (VStr (address sg))
                (updateRelatedFields sg (<[input_name (session w') := address sg]> (form w')))
         else updateRelatedFields sg (<[input_name (session w') := address sg]> (form w'))
     | None => updateRelatedFields sg (<[input_name (session w') := address sg]> (form w'))
     end).
  { intros w' H. unfold selectSuggestion. rewrite H. unfold updateMapLocation. cbn.
    destruct (listingMap w') as [m|], (coordinates sg) as [[lng lat]|]; cbn; try reflexivity.
    - destruct (valid_coordinates lat lng); reflexivity.
    - destruct (search_sends m (address sg)); reflexivity. }
  assert (H2 : suggestion_at index (session (selectSuggestion index w)) = Some sg
               /\ input_name (session (selectSuggestion index w)) = input_name (session w)
               /\ (listingMap (selectSuggestion index w) = None <-> listingMap w = None)).
  { unfold selectSuggestion. rewrite Hsg. unfold updateMapLocation. cbn.
    unfold suggestion_at in *.
    destruct (listingMap w) as [m|] eqn:E, (coordinates sg) as [[lng lat]|]; cbn;
      try destruct (valid_coordinates lat lng);
      try destruct (search_sends m (address sg)); cbn; rewrite ?E;
      (split; [assumption|split; [reflexivity|split; intros [=]; reflexivity]]). }
  destruct H2 as (Hs' & Hn' & Hm').
  split; [apply H1; assumption|].
  rewrite (H1 _ Hs'), Hn', (H1 _ Hsg).
  destruct (listingMap (selectSuggestion index w)) as [m'|] eqn:E', (listingMap w) as [m|] eqn:E;
    try reflexivity.
  - destruct Hm' as [_ Hm']. specialize (Hm' eq_refl). discriminate.
  - destruct Hm' as [Hm' _]. specialize (Hm' eq_refl). discriminate.
Qed.

Lemma select_form_idem (I addr : string) (sg : Suggestion)
    (with_map : JsNum -> JsNum -> bool) (f : gmap string string) :
  let F := fun f =>
    let f2 := updateRelatedFields sg (<[I := addr]> f) in
    match coordinates sg with
    | Some (lng, lat) =>
        if with_map lat lng then updateLocationFields lat lng (VStr addr) f2 else f2
    | None => f2
    end in
  F (F f) = F f.
Proof.
  intros F. subst F. cbv beta zeta.
  apply map_eq. intros k.
  destruct (dependent_fields_pointwise sg with_map addr k) as (change & Hlookup & Hidem).
  rewrite !Hlookup, !lookup_insert.
  case_decide; [reflexivity|].
  rewrite Hlookup, lookup_insert_ne by assumption.
  destruct (f !! k); cbn; [now rewrite Hidem|reflexivity].
Qed.

(** Selecting the same item twice leaves the form as after the first
    selection. *)
Lemma selectSuggestion_idempotent (index : Z) (w : World) :
  form (selectSuggestion index (selectSuggestion index w)) = form (selectSuggestion index w).
Proof.
  destruct (suggestion_at index (session w)) as [sg|] eqn:Hsg.
  - destruct (selectSuggestion_form index w sg Hsg) as (with_map & H1 & H2).
    rewrite H2, H1. apply select_form_idem.
  - unfold selectSuggestion. rewrite Hsg. rewrite Hsg. reflexivity.
Qed.

Lemma selectSuggestion_fields (index : Z) (w : World) (sg : Suggestion)
    (c la lo : string) (lng lat : JsNum) :
  suggestion_at index (session w) = Some sg ->
  input_name (session w) <> "listing[country]" ->
  form w !! "listing[country]" = Some c ->
  form w !! "listing[latitude]" = Some la ->
  form w !! "listing[longitude]" = Some lo ->
  coordinates sg = Some (lng, lat) ->
  form (selectSuggestion index w) !! "listing[country]" = Some (country_rule sg c)
  /\ form (selectSuggestion index w) !! "listing[latitude]" = Some (num_to_string lat)
  /\ form (selectSuggestion index w) !! "listing[longitude]" = Some (num_to_string lng).
Proof.
  intros Hsg Hin Hc Hla Hlo Hco.
  destruct (selectSuggestion_form index w sg Hsg) as (with_map & -> & _).
  rewrite updateRelatedFields_alter, Hco. cbv zeta.
  unfold updateLocationFields, set_field. cbn [truthy to_string].
  destruct (with_map lat lng); [destruct (negb (String.eqb (address sg) ""))|].
  all: rewrite !lookup_alter_pointwise, !lookup_insert.
  all: repeat (case_decide; try discriminate; try congruence).
  all: rewrite ?Hc, ?Hla, ?Hlo; cbn; repeat split; reflexivity.
Qed.

Lemma country_rule_empty (sg : Suggestion) (c : string) :
  country_rule sg c = if String.eqb c "" then country sg else c.
Proof.
  unfold country_rule.
  destruct (String.eqb (country sg) "") eqn:E1, (String.eqb c "") eqn:E2; cbn;
    try reflexivity.
  apply String.eqb_eq in E1, E2. congruence.
Qed.


End AutocompleteProperties.

(** C1, as stated, fails: query "Paris" is issued, then "London" before
    the answer to "Paris" arrives; no request for "London" is sent, and
    the answer to "Paris" is stored and displayed although the input
    now reads "London". *)
Lemma stale_suggestions_are_displayed :
  let w := Autocomplete.run
             [ Autocomplete.Typed "Paris"; Autocomplete.TimerFired;
               Autocomplete.Typed "London"; Autocomplete.TimerFired;
               Autocomplete.FetchSettled 0 Scenarios.paris_response ]
             Scenarios.page in
  Autocomplete.form w !! "listing[location]" = Some "London"
  /\ Autocomplete.requests w
     = [Autocomplete.mkSuggestRequest "/listings/api/address-suggestions" "Paris" None]
  /\ Autocomplete.suggestions (Autocomplete.session w) = [Scenarios.paris]
  /\ Autocomplete.listContent (Autocomplete.session w) = Autocomplete.Items [Scenarios.paris]
  /\ Autocomplete.listVisible (Autocomplete.session w) = true.
Proof. vm_compute. repeat split. Qed.

(** C1, amended.  The session has no generation counter; it has the
    [isLoading] guard.  When query A is in flight and query B is issued,
    no request is sent for B, and when the answer to A arrives it is
    applied: its suggestions are stored and displayed, and the session
    is idle again with the single request for A sent. *)
Theorem in_flight_query_is_applied
    (w : Autocomplete.World) (a b : string) (status : Z) (statusText : string)
    (data : Autocomplete.SuggestData) (items : list Autocomplete.Suggestion) :
  Autocomplete.isLoading (Autocomplete.session w) = false ->
  (Autocomplete.minLength (Autocomplete.session w) <= String.length (trim a))%nat ->
  (Autocomplete.minLength (Autocomplete.session w) <= String.length (trim b))%nat ->
  Browser.response_ok status = true ->
  Autocomplete.d_success data = true ->
  Autocomplete.d_suggestions data = Some items ->
  let w' := Autocomplete.run
              [ Autocomplete.Typed a; Autocomplete.TimerFired;
                Autocomplete.Typed b; Autocomplete.TimerFired;
                Autocomplete.FetchSettled (Autocomplete.next_task w)
                  (Browser.FResponse status statusText (Browser.JBody (Some data))) ]
              w in
  (exists req,
      Autocomplete.requests w' = List.app (Autocomplete.requests w) [req]
      /\ Autocomplete.r_query req = trim a)
  /\ Autocomplete.suggestions (Autocomplete.session w') = items
  /\ Autocomplete.listContent (Autocomplete.session w')
     = match items with
       | [] => Autocomplete.NoResults
       | _ => Autocomplete.Items items
       end
  /\ Autocomplete.listVisible (Autocomplete.session w') = true
  /\ Autocomplete.isLoading (Autocomplete.session w') = false
  /\ Autocomplete.form w' !! Autocomplete.input_name (Autocomplete.session w) = Some b.
Proof.
  intros Hidle Ha Hb Hok Hsuccess Hitems w'. subst w'.
  rewrite run_cons2, (typed_then_fired a w Hidle Ha).
  rewrite run_cons2, typed_then_fired_while_loading; [|reflexivity|exact Hb].
  unfold Autocomplete.run. cbn [List.fold_left Autocomplete.step Autocomplete.tasks].
  rewrite lookup_insert_eq. unfold Autocomplete.fetch_settled. rewrite Hok.
  cbn [negb]. rewrite Hsuccess, Hitems. cbn.
  split; [eexists; split; reflexivity|].
  rewrite lookup_insert_eq.
  unfold Autocomplete.displaySuggestions. cbn.
  destruct items; cbn; repeat split.
Qed.

Lemma in_flight_query_is_applied_witness :
  let w' := Autocomplete.run
              [ Autocomplete.Typed "Paris"; Autocomplete.TimerFired;
                Autocomplete.Typed "London"; Autocomplete.TimerFired;
                Autocomplete.FetchSettled 0 Scenarios.paris_response ]
              Scenarios.page in
  (exists req,
      Autocomplete.requests w' = [req] /\ Autocomplete.r_query req = "Paris")
  /\ Autocomplete.suggestions (Autocomplete.session w') = [Scenarios.paris]
  /\ Autocomplete.isLoading (Autocomplete.session w') = false.
Proof.
  pose proof (in_flight_query_is_applied Scenarios.page "Paris" "London" 200 "OK"
                (Autocomplete.mkSuggestData true (Some [Scenarios.paris]) None)
                [Scenarios.paris] eq_refl) as H.
  cbv zeta in H.
  destruct H as (Hreq & Hs & _ & _ & Hl & _);
    try reflexivity; try (vm_compute; lia).
  split; [exact Hreq|]. split; [exact Hs|exact Hl].
Defined.


(** C5: the code at the failing input.  The first request of a query is
    answered with HTTP 429.  The call waits [1000 * 1] ms and calls
    [fetchSuggestions] again, but [isLoading] is still set by the waiting
    call itself, so the retry returns at the guard: no second request is
    sent, no call is left suspended, and the list keeps showing
    "Loading suggestions..." with [isLoading] cleared. *)
Theorem rate_limited_retry_is_never_sent
    (w : Autocomplete.World) (q statusText : string)
    (json : Browser.JsonOutcome (option Autocomplete.SuggestData)) :
  Autocomplete.isLoading (Autocomplete.session w) = false ->
  (Autocomplete.minLength (Autocomplete.session w) <= String.length (trim q))%nat ->
  let id := Autocomplete.next_task w in
  let w' := Autocomplete.run
              [ Autocomplete.Typed q; Autocomplete.TimerFired;
                Autocomplete.FetchSettled id (Browser.FResponse 429 statusText json);
                Autocomplete.DelayElapsed id ]
              w in
  (exists req,
      Autocomplete.requests w' = List.app (Autocomplete.requests w) [req]
      /\ Autocomplete.r_query req = trim q)
  /\ Autocomplete.waits w' = List.app (Autocomplete.waits w) [1000]
  /\ Autocomplete.tasks w' = delete id (Autocomplete.tasks w)
  /\ Autocomplete.debounceTimer (Autocomplete.session w') = None
  /\ Autocomplete.isLoading (Autocomplete.session w') = false
  /\ Autocomplete.listContent (Autocomplete.session w') = Autocomplete.Loading
  /\ Autocomplete.listVisible (Autocomplete.session w') = true
  /\ Autocomplete.suggestions (Autocomplete.session w')
     = Autocomplete.suggestions (Autocomplete.session w).
Proof.
  intros Hidle Hq id w'. subst id w'.
  rewrite run_cons2, (typed_then_fired q w Hidle Hq).
  match goal with |- context [Autocomplete.run _ ?x] => set (w1 := x) end.
  assert (H1 : Autocomplete.tasks w1 !! Autocomplete.next_task w
               = Some (Autocomplete.AwaitSuggestions (trim q) 1))
    by (subst w1; cbn; apply lookup_insert_eq).
  assert (Hs : Autocomplete.step
                 (Autocomplete.FetchSettled (Autocomplete.next_task w)
                    (Browser.FResponse 429 statusText json)) w1
               = Autocomplete.schedule_retry (Autocomplete.next_task w) (trim q) 1
                   (Autocomplete.settle (Autocomplete.next_task w) w1)).
  { unfold Autocomplete.step. rewrite H1. reflexivity. }
  assert (Hd : Autocomplete.step (Autocomplete.DelayElapsed (Autocomplete.next_task w))
                 (Autocomplete.schedule_retry (Autocomplete.next_task w) (trim q) 1
                    (Autocomplete.settle (Autocomplete.next_task w) w1))
               = Autocomplete.finish
                   (Autocomplete.settle (Autocomplete.next_task w)
                      (Autocomplete.schedule_retry (Autocomplete.next_task w) (trim q) 1
                         (Autocomplete.settle (Autocomplete.next_task w) w1)))).
  { unfold Autocomplete.step.
    cbn [Autocomplete.tasks Autocomplete.schedule_retry Autocomplete.resuspend].
    rewrite lookup_insert_eq. apply retry_is_dropped. reflexivity. }
  unfold Autocomplete.run. cbn [List.fold_left]. rewrite Hs, Hd.
  subst w1. cbn.
  split; [eexists; split; reflexivity|].
  repeat split.
  now rewrite !delete_insert_eq, delete_delete_eq.
Qed.

Lemma rate_limited_retry_is_never_sent_witness :
  let w' := Autocomplete.run
              [ Autocomplete.Typed "Paris"; Autocomplete.TimerFired;
                Autocomplete.FetchSettled 0 Scenarios.rate_limited;
                Autocomplete.DelayElapsed 0 ]
              Scenarios.page in
  (exists req, Autocomplete.requests w' = [req] /\ Autocomplete.r_query req = "Paris")
  /\ Autocomplete.tasks w' = ∅
  /\ Autocomplete.isLoading (Autocomplete.session w') = false
  /\ Autocomplete.listContent (Autocomplete.session w') = Autocomplete.Loading.
Proof.
  pose proof (rate_limited_retry_is_never_sent Scenarios.page "Paris" "Too Many Requests"
                (Browser.JBody
                   (Some (Autocomplete.mkSuggestData false (Some [])
                            (Some "Too many requests"))))
                eq_refl) as H.
  cbv zeta in H.
  destruct H as (Hreq & _ & Ht & _ & Hl & Hc & _); [vm_compute; lia|].
  split; [exact Hreq|]. split; [exact Ht|]. split; [exact Hl|exact Hc].
Defined.

(** C7, as stated, fails: the latitude input holds a value the user
    entered; selecting a suggestion with coordinates overwrites it. *)
Lemma selection_overwrites_latitude :
  let w := Autocomplete.run
             [ Autocomplete.Typed "Paris"; Autocomplete.TimerFired;
               Autocomplete.FetchSettled 0 Scenarios.paris_response ]
             Scenarios.page in
  Autocomplete.form w !! "listing[latitude]" = Some "1.5"
  /\ Autocomplete.form (Autocomplete.step (Autocomplete.Clicked 0) w) !! "listing[latitude]"
     = Some "48.8566"
  /\ Autocomplete.form (Autocomplete.step (Autocomplete.Clicked 0) w) !! "listing[country]"
     = Some "France".
Proof. vm_compute. repeat split. Qed.

Section SelectionFields.
Import Browser Map Autocomplete.

(** Every input of the page after a selection, from the form before
    it: the autocomplete's own input takes the address, and then each
    input is changed on its own: the country by the country rule, the
    coordinate inputs to the suggestion's coordinates when it has
    them, the location input to the address when the map is moved. *)
Lemma selectSuggestion_lookup (index : Z) (w : World) (sg : Suggestion) (k : string) :
  suggestion_at index (session w) = Some sg ->
  exists change : string -> string,
    form (selectSuggestion index w) !! k
    = change <$> (<[input_name (session w) := address sg]> (form w)) !! k
    /\ (k = "listing[country]" -> change = country_rule sg)
    /\ (forall lng lat, coordinates sg = Some (lng, lat) ->
          (k = "listing[latitude]" -> forall x, change x = num_to_string lat)
          /\ (k = "listing[longitude]" -> forall x, change x = num_to_string lng)).
Proof.
  intros Hsg.
  destruct (selectSuggestion_form index w sg Hsg) as (with_map & -> & _).
  rewrite updateRelatedFields_alter. cbv zeta.
  destruct (coordinates sg) as [[lng lat]|] eqn:Hc;
    [destruct (with_map lat lng); [destruct (negb (String.eqb (address sg) "")) eqn:Ha|]|].
  all: unfold updateLocationFields, set_field; cbn [truthy to_string]; rewrite ?Ha;
    rewrite !lookup_alter_pointwise, <- ?option_fmap_compose;
    eexists; (split; [reflexivity|]);
    (split; [intros ->; repeat (case_decide; try discriminate; try congruence); reflexivity|]);
    intros lng' lat' He; inversion He; subst.
  all: split; intros -> x; unfold compose;
    repeat (case_decide; try discriminate; try congruence); reflexivity.
Qed.

End SelectionFields.

(** C7, amended.  On selecting a suggestion, any suggestion on any
    page: the country input (of an autocomplete that is not attached to
    the country input itself) is filled from the suggestion only if it
    is empty, a non-empty country is kept; when the suggestion carries
    coordinates, the latitude and longitude inputs hold them afterwards,
    whatever they held before; an input that is not on the page is not
    created, the only input written regardless being the autocomplete's
    own; and selecting the same suggestion once more leaves every field
    as it is. *)
Theorem selection_fills_dependent_fields
    (w : Autocomplete.World) (index : Z) (sg : Autocomplete.Suggestion) :
  Autocomplete.suggestion_at index (Autocomplete.session w) = Some sg ->
  let w' := Autocomplete.selectSuggestion index w in
  (Autocomplete.input_name (Autocomplete.session w) <> "listing[country]" ->
   Autocomplete.form w' !! "listing[country]"
   = (fun c => if String.eqb c "" then Autocomplete.country sg else c)
       <$> (Autocomplete.form w !! "listing[country]"))
  /\ (forall lng lat, Autocomplete.coordinates sg = Some (lng, lat) ->
        (forall v, Autocomplete.form w' !! "listing[latitude]" = Some v ->
                   v = num_to_string lat)
        /\ (forall v, Autocomplete.form w' !! "listing[longitude]" = Some v ->
                      v = num_to_string lng))
  /\ (forall k, is_Some (Autocomplete.form w' !! k)
                <-> is_Some (Autocomplete.form w !! k)
                    \/ k = Autocomplete.input_name (Autocomplete.session w))
  /\ Autocomplete.form (Autocomplete.selectSuggestion index w') = Autocomplete.form w'.
Proof.
  intros Hsg w'. subst w'.
  split; [|split; [|split]].
  - intros Hin.
    destruct (selectSuggestion_lookup index w sg "listing[country]" Hsg)
      as (change & -> & Hc & _).
    rewrite (Hc eq_refl), lookup_insert_ne by exact Hin.
    destruct (Autocomplete.form w !! "listing[country]") as [c|]; cbn; [|reflexivity].
    now rewrite country_rule_empty.
  - intros lng lat Hco. split; intros v Hv.
    + destruct (selectSuggestion_lookup index w sg "listing[latitude]" Hsg)
        as (change & Hl & _ & Hk).
      rewrite Hl in Hv. destruct (Hk lng lat Hco) as [Hlat _].
      destruct (_ !! "listing[latitude]") as [x|]; cbn in Hv; [|discriminate].
      injection Hv as <-. now apply Hlat.
    + destruct (selectSuggestion_lookup index w sg "listing[longitude]" Hsg)
        as (change & Hl & _ & Hk).
      rewrite Hl in Hv. destruct (Hk lng lat Hco) as [_ Hlng].
      destruct (_ !! "listing[longitude]") as [x|]; cbn in Hv; [|discriminate].
      injection Hv as <-. now apply Hlng.
  - intros k.
    destruct (selectSuggestion_lookup index w sg k Hsg) as (change & -> & _).
    rewrite fmap_is_Some, lookup_insert_is_Some.
    split.
    + intros [-> | [_ H]]; [right; reflexivity|left; exact H].
    + intros [H | ->]; [|left; reflexivity].
      destruct (decide (Autocomplete.input_name (Autocomplete.session w) = k));
        [left; assumption|right; split; assumption].
  - apply selectSuggestion_idempotent.
Qed.

Lemma selection_fills_dependent_fields_witness :
  let w' := Autocomplete.selectSuggestion 0 Scenarios.page_with_suggestions in
  Autocomplete.form w' !! "listing[country]" = Some "France"
  /\ (forall v, Autocomplete.form w' !! "listing[latitude]" = Some v -> v = "48.8566")
  /\ (forall v, Autocomplete.form w' !! "listing[longitude]" = Some v -> v = "2.3522")
  /\ Autocomplete.form (Autocomplete.selectSuggestion 0 w') = Autocomplete.form w'.
Proof.
  pose proof (selection_fills_dependent_fields Scenarios.page_with_suggestions 0
                Scenarios.paris eq_refl) as H.
  cbv zeta in H. destruct H as (Hc & Hco & _ & Hi).
  destruct (Hco (Dec 23522 4) (Dec 488566 4) eq_refl) as [Hlat Hlng].
  split; [rewrite Hc by (vm_compute; discriminate); vm_compute; reflexivity|].
  split; [exact Hlat|]. split; [exact Hlng|exact Hi].
Defined.

(** * Further properties *)

(** ** The geocoding service: requests and results *)

Section GeocodingExtras.
Import Geocoding.

Lemma string_guard (s : string) :
  s <> "" ->
  (falsy (VStr s) || negb (String.eqb (typeof (VStr s)) "string")) = false.
Proof.
  intros Hs. unfold falsy. cbn. destruct (String.eqb s "") eqn:E; [|reflexivity].
  apply String.eqb_eq in E. contradiction.
Qed.

Lemma coords_label_not_empty (lat lng : JsVal) : String.eqb (coords_label lat lng) "" = false.
Proof. unfold coords_label. destruct (to_string lat); reflexivity. Qed.

End GeocodingExtras.

(** X1.  [geocodeAddress] sends nothing for a value that is not a
    non-empty string, and for every other address exactly one request:
    to [/search], with the trimmed address as [text], [limit] 1 and a
    timeout of 10 s, whatever the provider answers.  An address of
    white space only is sent with an empty [text]. *)
Theorem geocodeAddress_sends_one_trimmed_request
    (svc : Geocoding.GeocodingService) (net : Geocoding.Network) (address : JsVal) :
  Geocoding.sent (Geocoding.geocodeAddress svc address net)
  = match address with
    | VStr s =>
        if String.eqb s "" then []
        else [ Geocoding.mkRequest (Geocoding.baseUrl svc +:+ "/search")
                 [ ("text", VStr (trim s)); ("apiKey", Geocoding.apiKey svc);
                   ("limit", int 1); ("format", VStr "json") ] 10000 ]
    | _ => []
    end.
Proof.
  unfold Geocoding.geocodeAddress, falsy.
  destruct address as [| |b|n|s|l|fs]; cbn; try reflexivity.
  - destruct b; reflexivity.
  - destruct n as [| |m k]; cbn; try reflexivity. destruct (m =? 0); reflexivity.
  - destruct (String.eqb s ""); reflexivity.
Qed.

(** X2.  Whenever [geocodeAddress] fails on a non-empty string, the
    result echoes the address as it was given (not trimmed), has
    [coordinates: null] and a non-empty error message. *)
Theorem geocodeAddress_failure_echoes_address
    (svc : Geocoding.GeocodingService) (net : Geocoding.Network) (s : string) (r : JsVal) :
  s <> "" ->
  Geocoding.result (Geocoding.geocodeAddress svc (VStr s) net) = Normal r ->
  prop r "success" = VBool false ->
  prop r "address" = VStr s
  /\ prop r "coordinates" = VNull
  /\ exists msg, prop r "error" = VStr msg /\ msg <> "".
Proof.
  intros Hs Hr Hfail. unfold Geocoding.geocodeAddress in Hr.
  rewrite (string_guard s Hs) in Hr. cbn in Hr.
  assert (Hc : forall e, Geocoding.geocode_catch (VStr s) e = Normal r ->
                         prop r "address" = VStr s /\ prop r "coordinates" = VNull
                         /\ exists msg, prop r "error" = VStr msg /\ msg <> "").
  { intros e. unfold Geocoding.geocode_catch.
    destruct (err_status e) as [z|]; [destruct (z =? 401); [|destruct (z =? 429)]|];
      intros [= <-]; cbn; repeat split; eexists; (split; [reflexivity|discriminate]). }
  destruct (net _) as [data|e]; cbn in Hr; [|apply (Hc e Hr)].
  destruct (Geocoding.first_result data) as [item|]; cbn in Hr.
  - unfold Geocoding.geocode_success in Hr.
    destruct (get item "lon") as [lon|e]; cbn in Hr; [|apply (Hc e Hr)].
    injection Hr as <-. discriminate Hfail.
  - injection Hr as <-. cbn. repeat split. eexists; split; [reflexivity|discriminate].
Qed.

Lemma geocodeAddress_failure_echoes_address_witness :
  prop (Geocoding.geocode_failure "No results found for the provided address"
          (VStr "  Nowhere ")) "address" = VStr "  Nowhere ".
Proof.
  apply (geocodeAddress_failure_echoes_address Scenarios.service Scenarios.no_results
           "  Nowhere "
           (Geocoding.geocode_failure "No results found for the provided address"
              (VStr "  Nowhere ")));
    [discriminate|reflexivity|reflexivity].
Defined.

(** X3.  [getAutocompleteSuggestions] keeps the provider's order: for a
    query of at least 3 characters answered with an array of results,
    none of them [null], the call succeeds with one suggestion per
    result, in the same order, each carrying that result's [formatted]
    as [address] and [[lon, lat]] as [coordinates].  A single [null]
    among the results fails the whole call: [success] is false and
    [suggestions] is empty. *)
Theorem autocomplete_keeps_provider_order
    (svc : Geocoding.GeocodingService) (net : Geocoding.Network)
    (q : string) (fields : list (string * JsVal)) (items : list JsVal) :
  (3 <= String.length q)%nat ->
  (forall req, net req = Geocoding.AxResolved (Geocoding.DValue (Geocoding.RArray items))) ->
  let r := Geocoding.result
             (Geocoding.getAutocompleteSuggestions svc (VStr q) (VObj fields) net) in
  (Forall (fun item => item <> VNull /\ item <> VUndefined) items ->
   exists suggestions,
     r = Normal (Geocoding.autocomplete_result true suggestions VNull)
     /\ Forall2 (fun item sg =>
                   prop sg "address" = prop item "formatted"
                   /\ prop sg "coordinates" = VArr [prop item "lon"; prop item "lat"])
          items suggestions)
  /\ (Exists (fun item => item = VNull \/ item = VUndefined) items ->
      exists msg, r = Normal (Geocoding.autocomplete_result false [] (VStr msg))).
Proof.
  intros Hq Hnet r. subst r.
  unfold Geocoding.getAutocompleteSuggestions, falsy.
  assert (Hg : (negb (truthy (VStr q)) || negb (String.eqb (typeof (VStr q)) "string")
                || Geocoding.shorter_than (VStr q) 3) = false).
  { unfold Geocoding.shorter_than.
    destruct (Nat.ltb_spec (String.length q) 3) as [Hlt|_]; [lia|].
    destruct q; [cbn in Hq; lia|reflexivity]. }
  rewrite Hg.
  assert (Hp : exists params,
             Geocoding.autocomplete_params svc (VStr q) (VObj fields) = Normal params).
  { unfold Geocoding.autocomplete_params. cbn.
    destruct (truthy (lookup_field "country" fields)); eauto. }
  destruct Hp as [params ->]. cbn [Geocoding.result]. rewrite Hnet. cbn.
  split.
  - intros Hall.
    assert (Hm : exists suggestions,
               Geocoding.map_completion Geocoding.suggestion_of items = Normal suggestions
               /\ Forall2 (fun item sg =>
                             prop sg "address" = prop item "formatted"
                             /\ prop sg "coordinates" = VArr [prop item "lon"; prop item "lat"])
                    items suggestions).
    { clear - Hall. induction Hall as [|item rest [Hn Hu] _ IH].
      - exists []. split; [reflexivity|constructor].
      - destruct IH as (sgs & Hsgs & Hf). cbn [Geocoding.map_completion].
        destruct item; try congruence; cbn; rewrite Hsgs; cbn;
          eexists; (split; [reflexivity|]); constructor; auto; cbn; split; reflexivity. }
    destruct Hm as (sgs & -> & Hf). cbn. eauto.
  - intros Hex.
    assert (Hm : exists e, Geocoding.map_completion Geocoding.suggestion_of items = Throw e).
    { clear - Hex. induction Hex as [item rest [-> | ->]|item rest _ [e IH]].
      - cbn. eauto.
      - cbn. eauto.
      - cbn. destruct (Geocoding.suggestion_of item); cbn; [rewrite IH; cbn|]; eauto. }
    destruct Hm as (e & ->). cbn. eauto.
Qed.

Lemma autocomplete_keeps_provider_order_witness :
  exists suggestions,
    Geocoding.result
      (Geocoding.getAutocompleteSuggestions Scenarios.service (VStr "Par") (VObj [])
         (fun _ => Geocoding.AxResolved
                     (Geocoding.DValue
                        (Geocoding.RArray [VObj [("formatted", VStr "Paris")];
                                           VObj [("formatted", VStr "Parma")]]))))
    = Normal (Geocoding.autocomplete_result true suggestions VNull)
    /\ Forall2 (fun item sg =>
                  prop sg "address" = prop item "formatted"
                  /\ prop sg "coordinates" = VArr [prop item "lon"; prop item "lat"])
         [VObj [("formatted", VStr "Paris")]; VObj [("formatted", VStr "Parma")]]
         suggestions.
Proof.
  apply (autocomplete_keeps_provider_order Scenarios.service
           (fun _ => Geocoding.AxResolved
                       (Geocoding.DValue
                          (Geocoding.RArray [VObj [("formatted", VStr "Paris")];
                                             VObj [("formatted", VStr "Parma")]])))
           "Par" []
           [VObj [("formatted", VStr "Paris")]; VObj [("formatted", VStr "Parma")]]).
  - cbn. lia.
  - reflexivity.
  - repeat constructor; discriminate.
Defined.

(** X4.  Whenever [reverseGeocode] has sent its request, the result
    carries a non-empty [address], on success (the provider's
    [formatted], or [`${lat}, ${lng}`] when that is missing) as on
    failure. *)
Theorem reverseGeocode_address_never_empty
    (svc : Geocoding.GeocodingService) (net : Geocoding.Network) (lat lng r : JsVal) :
  Geocoding.sent (Geocoding.reverseGeocode svc lat lng net) <> [] ->
  Geocoding.result (Geocoding.reverseGeocode svc lat lng net) = Normal r ->
  truthy (prop r "address") = true.
Proof.
  intros Hsent Hr.
  destruct (reverseGeocode_shapes svc net lat lng)
    as [[Hs _]|(req & _ & [(msg & H)|(item & formatted & _ & H)])].
  - contradiction.
  - rewrite H in Hr. injection Hr as <-. cbn.
    now rewrite coords_label_not_empty.
  - rewrite H in Hr. injection Hr as <-. cbn. unfold or_else.
    destruct (truthy formatted) eqn:E; [assumption|].
    cbn. now rewrite coords_label_not_empty.
Qed.

Lemma reverseGeocode_address_never_empty_witness :
  truthy (prop (Geocoding.reverse_failure "No address found for the provided coordinates"
                  (VStr "12.34, 56.78")) "address") = true.
Proof.
  apply (reverseGeocode_address_never_empty Scenarios.service Scenarios.no_results
           (num 1234 2) (num 5678 2)
           (Geocoding.reverse_failure "No address found for the provided coordinates"
              (VStr "12.34, 56.78")));
    [vm_compute; discriminate|vm_compute; reflexivity].
Defined.

(** ** The address-suggestions endpoint *)

Section EndpointExtras.
Import Geocoding Controllers.

(** The checks of the endpoint on [query]. *)
Lemma valid_query_is_string (query : JsVal) :
  (falsy query || negb (String.eqb (typeof query) "string")) = false ->
  exists q, query = VStr q /\ q <> "".
Proof.
  unfold falsy. intros H. apply orb_false_elim in H as [H1 H2].
  destruct query; try discriminate. exists s. split; [reflexivity|].
  intros ->. discriminate.
Qed.

End EndpointExtras.

(** X5.  The status of the address-suggestions endpoint is decided by
    its own checks alone: 400 exactly when [query] is missing, not a
    string, shorter than 2 or longer than 200 characters; otherwise 500
    exactly when [MAP_TOKEN] is not set; otherwise 200, whatever the
    provider does (an upstream failure is reported inside a 200 body). *)
Theorem address_suggestions_status
    (env : Controllers.Env) (query country : JsVal) :
  Controllers.status (Controllers.getAddressSuggestions env query country)
  = if falsy query || negb (String.eqb (typeof query) "string")
       || Geocoding.shorter_than query 2 || Geocoding.longer_than query 200
    then 400
    else if falsy (Controllers.MAP_TOKEN env) then 500 else 200.
Proof.
  unfold Controllers.getAddressSuggestions.
  destruct (falsy query || negb (String.eqb (typeof query) "string")) eqn:G; [reflexivity|].
  cbn [orb].
  destruct (Geocoding.shorter_than query 2); [reflexivity|]. cbn [orb].
  destruct (Geocoding.longer_than query 200); [reflexivity|].
  destruct (falsy (Controllers.MAP_TOKEN env)); [reflexivity|].
  destruct (valid_query_is_string query G) as (q & -> & _). cbn [Geocoding.call_trim Js.bind].
  destruct (getAutocompleteSuggestions_shapes
              (Geocoding.createGeocodingService (Controllers.MAP_TOKEN env))
              (Controllers.net env) (VStr (trim q)) (Controllers.suggestion_options country))
    as (b & items & error & -> & _ & Herr).
  now rewrite (respond_autocomplete_result b items error Herr).
Qed.

(** X6.  The two minimum lengths: a query that passes the endpoint's
    checks (2 to 200 characters) but has fewer than 3 characters once
    trimmed is answered with status 200, [success: false], no
    suggestions and the service's message, and nothing is sent
    upstream. *)
Theorem short_query_is_answered_without_upstream_call
    (env : Controllers.Env) (q : string) (country : JsVal) :
  (2 <= String.length q <= 200)%nat ->
  truthy (Controllers.MAP_TOKEN env) = true ->
  (String.length (trim q) < 3)%nat ->
  Controllers.getAddressSuggestions env (VStr q) country
  = Controllers.mkResponse 200
      (VObj [ ("success", VBool false); ("suggestions", VArr []);
              ("error", VStr "Query must be at least 3 characters long") ])
  /\ Geocoding.sent
       (Geocoding.getAutocompleteSuggestions
          (Geocoding.createGeocodingService (Controllers.MAP_TOKEN env)) (VStr (trim q))
          (Controllers.suggestion_options country) (Controllers.net env)) = [].
Proof.
  intros [Hmin Hmax] Htoken Hshort.
  assert (Hs : Geocoding.getAutocompleteSuggestions
                 (Geocoding.createGeocodingService (Controllers.MAP_TOKEN env))
                 (VStr (trim q)) (Controllers.suggestion_options country) (Controllers.net env)
               = Geocoding.mkRun []
                   (Normal (Geocoding.autocomplete_result false []
                              (VStr "Query must be at least 3 characters long")))).
  { unfold Geocoding.getAutocompleteSuggestions, Geocoding.shorter_than.
    destruct (Nat.ltb_spec (String.length (trim q)) 3) as [_|Hge]; [|lia].
    now rewrite orb_true_r. }
  split; [|now rewrite Hs].
  unfold Controllers.getAddressSuggestions, falsy, Geocoding.shorter_than,
    Geocoding.longer_than.
  destruct q as [|c q]; [cbn in Hmin; lia|].
  cbn [truthy typeof String.eqb negb orb].
  replace (String.eqb "string" "string") with true by reflexivity. cbn [negb orb].
  destruct (Nat.ltb_spec (String.length (String c q)) 2) as [Hlt|_]; [lia|].
  destruct (Nat.ltb_spec 200 (String.length (String c q))) as [Hgt|_]; [lia|].
  rewrite Htoken. cbn [negb Geocoding.call_trim Js.bind]. rewrite Hs. reflexivity.
Qed.

Lemma short_query_is_answered_without_upstream_call_witness :
  Controllers.getAddressSuggestions Scenarios.env_no_results (VStr " ab ") (VStr "in")
  = Controllers.mkResponse 200
      (VObj [ ("success", VBool false); ("suggestions", VArr []);
              ("error", VStr "Query must be at least 3 characters long") ]).
Proof.
  apply (short_query_is_answered_without_upstream_call Scenarios.env_no_results " ab "
           (VStr "in")); [vm_compute; lia|reflexivity|vm_compute; lia].
Defined.

(** X7.  For a query of at least 3 characters after trimming, the
    endpoint has the service send exactly one request, to
    [/autocomplete], with [limit] 5 and a timeout of 5 s; a non-empty
    [country] is passed on in lower case as [bias:
    countrycode:<country>], and any other [country] value adds no
    bias. *)
Theorem suggestion_request_carries_country_bias
    (env : Controllers.Env) (q : string) (country : JsVal) :
  (3 <= String.length (trim q))%nat ->
  let svc := Geocoding.createGeocodingService (Controllers.MAP_TOKEN env) in
  Geocoding.sent
    (Geocoding.getAutocompleteSuggestions svc (VStr (trim q))
       (Controllers.suggestion_options country) (Controllers.net env))
  = [ Geocoding.mkRequest "https://api.geoapify.com/v1/geocode/autocomplete"
        (List.app
           [ ("text", VStr (trim (trim q))); ("apiKey", Controllers.MAP_TOKEN env);
             ("limit", int 5); ("format", VStr "json") ]
           match country with
           | VStr c =>
               if String.eqb c "" then []
               else [("bias", VStr ("countrycode:" +:+ toLowerCase c))]
           | _ => []
           end)
        5000 ].
Proof.
  intros Hq svc. subst svc.
  unfold Geocoding.getAutocompleteSuggestions, falsy, Geocoding.shorter_than.
  destruct (Nat.ltb_spec (String.length (trim q)) 3) as [Hlt|_]; [lia|].
  destruct (trim q) as [|c t] eqn:Ht; [cbn in Hq; lia|].
  cbn [truthy typeof String.eqb negb orb].
  replace (String.eqb "string" "string") with true by reflexivity. cbn [negb orb].
  assert (Hlow : forall s, String.eqb s "" = false -> String.eqb (toLowerCase s) "" = false).
  { intros [|a s]; [discriminate|reflexivity]. }
  unfold Geocoding.autocomplete_params, Controllers.suggestion_options.
  destruct country as [| | | |co| |]; cbn; try reflexivity.
  destruct (String.eqb co "") eqn:E; cbn.
  - destruct co; [reflexivity|discriminate].
  - destruct co as [|a co]; [discriminate|]. cbn. reflexivity.
Qed.

Lemma suggestion_request_carries_country_bias_witness :
  Geocoding.sent
    (Geocoding.getAutocompleteSuggestions
       (Geocoding.createGeocodingService (VStr "key")) (VStr (trim " Paris "))
       (Controllers.suggestion_options (VStr "FR")) Scenarios.no_results)
  = [ Geocoding.mkRequest "https://api.geoapify.com/v1/geocode/autocomplete"
        [ ("text", VStr "Paris"); ("apiKey", VStr "key");
          ("limit", int 5); ("format", VStr "json");
          ("bias", VStr "countrycode:fr") ]
        5000 ].
Proof.
  apply (suggestion_request_carries_country_bias Scenarios.env_no_results " Paris "
           (VStr "FR")).
  vm_compute. lia.
Defined.

(** ** Creating, updating and deleting a listing *)

Section ControllerExtras.
Import Geocoding Controllers.

Variable env : Env.

(** What [geocodeAddress] hands to the handlers: a failure object, or a
    success object whose coordinates are an array. *)
Lemma geocode_outcome (loc : JsVal) :
  exists g,
    result (geocodeAddress (createGeocodingService (MAP_TOKEN env)) loc (net env)) = Normal g
    /\ ((get g "success" = Normal (VBool false) /\ exists msg, prop g "error" = VStr msg)
        \/ (get g "success" = Normal (VBool true)
            /\ exists lon lat, prop g "coordinates" = VArr [lon; lat])).
Proof.
  destruct (geocodeAddress_shapes (createGeocodingService (MAP_TOKEN env)) (net env) loc)
    as [(msg & a & ->)|(item & lon & ->)]; eexists; (split; [reflexivity|]).
  - left. split; [reflexivity|]. now exists msg.
  - right. split; [reflexivity|]. now eexists _, _.
Qed.

Lemma apply_geocode_geometry (g entered current : JsVal) (l : Listing) :
  geometry (apply_geocode g entered current l) = Some (Point (prop g "coordinates")).
Proof.
  unfold apply_geocode.
  destruct (truthy (prop g "address") && _), (falsy current && _); reflexivity.
Qed.

End ControllerExtras.

(** X8.  [createListing] never lets an exception escape and ends in one
    of two ways: it redirects to [/listings] having stored exactly one
    new document, whose geometry has coordinates (from the provider or
    the default ones); or it flashes the error message, redirects to
    [/listings/new] and leaves the stored documents as they were. *)
Theorem createListing_stores_located_listing_or_nothing
    (env : Controllers.Env) (req : Controllers.CreateReq) (st : Controllers.HState) :
  let out := Controllers.createListing env req st in
  snd out = Normal tt
  /\ ((Controllers.redirected (fst out) = Some "/listings"
       /\ exists l, Controllers.db (fst out)
                    = <[Controllers.new_id env := l]> (Controllers.db st)
                    /\ Controllers.missing_geometry l = false)
      \/ (Controllers.redirected (fst out) = Some "/listings/new"
          /\ Controllers.db (fst out) = Controllers.db st
          /\ exists earlier,
               Controllers.flashes (fst out)
               = List.app earlier [("error", "Failed to create listing. Please try again.")])).
Proof.
  unfold Controllers.createListing, Controllers.htry, Controllers.hbind, Controllers.hlift,
    Controllers.geocode, Controllers.save.
  destruct (get (Controllers.c_file req) "path") as [url|e1]; cbn;
    [|split; [reflexivity|right; repeat split; eauto]].
  destruct (get (Controllers.c_listing req) "location") as [loc|e2]; cbn;
    [|split; [reflexivity|right; repeat split; eauto]].
  destruct (get (Controllers.c_user req) "_id") as [uid|e3]; cbn;
    [|split; [reflexivity|right; repeat split; eauto]].
  destruct (geocode_outcome env loc) as (g & -> & [[-> (msg & Hmsg)]|[-> (lon & lat & Hc)]]);
    cbn; destruct (Controllers.save_fails env); cbn;
    (split; [reflexivity|]); try (right; repeat split; eauto; fail).
  - left. split; [reflexivity|]. eexists. split; [reflexivity|]. reflexivity.
  - left. split; [reflexivity|]. eexists. split; [reflexivity|].
    unfold Controllers.missing_geometry. rewrite apply_geocode_geometry. cbn. now rewrite Hc.
Qed.

(** X9.  A create request without an uploaded file, without a
    [listing] body or without a logged-in user is turned away before the
    geocoding: no request is sent upstream, nothing is stored, and the
    only message is the error flash. *)
Theorem createListing_incomplete_request_sends_nothing
    (env : Controllers.Env) (req : Controllers.CreateReq) (st : Controllers.HState) :
  (exists e, get (Controllers.c_file req) "path" = Throw e)
  \/ (exists e, get (Controllers.c_listing req) "location" = Throw e)
  \/ (exists e, get (Controllers.c_user req) "_id" = Throw e) ->
  Controllers.createListing env req st
  = (Controllers.mkHState
       (List.app (Controllers.flashes st)
          [("error", "Failed to create listing. Please try again.")])
       (Some "/listings/new") (Controllers.db st) (Controllers.upstream st),
     Normal tt).
Proof.
  intros H.
  unfold Controllers.createListing, Controllers.htry, Controllers.hbind, Controllers.hlift.
  destruct (get (Controllers.c_file req) "path") as [url|e1]; cbn; [|reflexivity].
  destruct (get (Controllers.c_listing req) "location") as [loc|e2]; cbn; [|reflexivity].
  destruct (get (Controllers.c_user req) "_id") as [uid|e3]; cbn; [|reflexivity].
  destruct H as [[e H]|[[e H]|[e H]]]; discriminate H.
Qed.

Lemma createListing_incomplete_request_sends_nothing_witness :
  Controllers.upstream
    (fst (Controllers.createListing Scenarios.env_no_results
            (Controllers.mkCreateReq (VObj [("path", VStr "u"); ("filename", VStr "f")])
               (VObj [("location", VStr "Paris")]) VUndefined)
            (Scenarios.state_with ∅))) = [].
Proof.
  rewrite (createListing_incomplete_request_sends_nothing Scenarios.env_no_results
             (Controllers.mkCreateReq (VObj [("path", VStr "u"); ("filename", VStr "f")])
                (VObj [("location", VStr "Paris")]) VUndefined)
             (Scenarios.state_with ∅)).
  - reflexivity.
  - right. right. eexists. reflexivity.
Defined.

(** X10.  End to end, when the provider's first result is [item]:
    the stored geometry is the Point [[item.lon, item.lat]]; the stored
    location is [item.formatted] when that is present and differs from
    what was entered, else the address as entered (untrimmed); the
    entered country is kept unless it is empty, in which case
    [item.country] is stored when present. *)
Theorem createListing_stores_provider_result
    (env : Controllers.Env) (req : Controllers.CreateReq) (st : Controllers.HState)
    (url uid item : JsVal) (s : string) (data : Geocoding.ResponseData) :
  Controllers.save_fails env = false ->
  get (Controllers.c_file req) "path" = Normal url ->
  get (Controllers.c_listing req) "location" = Normal (VStr s) ->
  get (Controllers.c_user req) "_id" = Normal uid ->
  s <> "" ->
  (forall r, Controllers.net env r = Geocoding.AxResolved data) ->
  Geocoding.first_result data = Some item ->
  item <> VNull -> item <> VUndefined ->
  let entered_country := prop (Controllers.c_listing req) "country" in
  exists l,
    Controllers.db (fst (Controllers.createListing env req st))
    = <[Controllers.new_id env := l]> (Controllers.db st)
    /\ Controllers.geometry l
       = Some (Controllers.Point (VArr [prop item "lon"; prop item "lat"]))
    /\ Controllers.location l
       = (if truthy (prop item "formatted")
             && negb (strict_eq (prop item "formatted") (VStr s))
          then prop item "formatted" else VStr s)
    /\ Controllers.country l
       = (if falsy entered_country && truthy (prop item "country")
          then prop item "country" else entered_country)
    /\ Controllers.owner l = uid.
Proof.
  intros Hsave Hfile Hloc Huser Hs Hnet Hfirst Hnull Hundef entered_country.
  assert (Hgeo : Geocoding.result
                   (Geocoding.geocodeAddress
                      (Geocoding.createGeocodingService (Controllers.MAP_TOKEN env))
                      (VStr s) (Controllers.net env))
                 = Geocoding.geocode_success (VStr s) item).
  { unfold Geocoding.geocodeAddress. rewrite (string_guard s Hs).
    cbn [Geocoding.call_trim Geocoding.result]. rewrite Hnet, Hfirst.
    unfold Geocoding.geocode_success.
    destruct item; try congruence; reflexivity. }
  assert (Hget : get item "lon" = Normal (prop item "lon")).
  { destruct item; try congruence; reflexivity. }
  unfold Controllers.createListing, Controllers.htry, Controllers.hbind, Controllers.hlift,
    Controllers.geocode, Controllers.save.
  rewrite Hfile, Hloc, Huser. cbn. rewrite Hgeo. unfold Geocoding.geocode_success.
  rewrite Hget. cbn. rewrite Hsave. cbn.
  eexists. split; [reflexivity|].
  assert (Hstr : truthy (VStr s) = true).
  { cbn. destruct s; [congruence|reflexivity]. }
  fold entered_country.
  unfold Controllers.apply_geocode, or_else. cbn.
  replace (negb (String.eqb s "")) with true by (destruct s; [congruence|reflexivity]).
  destruct (truthy (prop item "formatted")) eqn:Hf; cbn;
    destruct (truthy (prop item "country")) eqn:Hc; cbn;
    rewrite ?Hf, ?Hc, ?String.eqb_refl; cbn;
    rewrite ?andb_false_r; cbn;
    destruct (falsy entered_country); cbn;
    try destruct (strict_eq (prop item "formatted") (VStr s)); cbn; repeat split.
Qed.

Lemma createListing_stores_provider_result_witness :
  exists l,
    Controllers.db (fst (Controllers.createListing Scenarios.env_one_result
                           Scenarios.create_req (Scenarios.state_with ∅)))
    = <["new-id" := l]> ∅
    /\ Controllers.geometry l
       = Some (Controllers.Point (VArr [num 134050 4; num 5252 2]))
    /\ Controllers.location l = VStr "Berlin, Germany"
    /\ Controllers.country l = VStr "Germany"
    /\ Controllers.owner l = VStr "u1".
Proof.
  apply (createListing_stores_provider_result Scenarios.env_one_result Scenarios.create_req
           (Scenarios.state_with ∅) (VStr "/img/1.png") (VStr "u1") Scenarios.berlin
           "Nowhere"
           (Geocoding.DValue (Geocoding.RArray [Scenarios.berlin])));
    try reflexivity; discriminate.
Defined.

(** X11.  When the save of a new listing is rejected, the outcome
    message of the geocoding (success or warning) has already been
    flashed: the user gets that message followed by the error message,
    although nothing was stored. *)
Theorem createListing_save_failure_flashes_twice
    (env : Controllers.Env) (req : Controllers.CreateReq) (st : Controllers.HState)
    (url loc uid : JsVal) :
  Controllers.save_fails env = true ->
  get (Controllers.c_file req) "path" = Normal url ->
  get (Controllers.c_listing req) "location" = Normal loc ->
  get (Controllers.c_user req) "_id" = Normal uid ->
  let out := fst (Controllers.createListing env req st) in
  Controllers.db out = Controllers.db st
  /\ Controllers.redirected out = Some "/listings/new"
  /\ exists kind msg,
       (kind = "success" \/ kind = "warning")
       /\ Controllers.flashes out
          = List.app (Controllers.flashes st)
              [ (kind, msg); ("error", "Failed to create listing. Please try again.") ].
Proof.
  intros Hsave Hfile Hloc Huser.
  unfold Controllers.createListing, Controllers.htry, Controllers.hbind, Controllers.hlift,
    Controllers.geocode, Controllers.save.
  rewrite Hfile, Hloc, Huser. cbn.
  destruct (geocode_outcome env loc) as (g & -> & [[-> _]|[-> _]]);
    cbn; rewrite Hsave; cbn; repeat split; eexists _, _;
    rewrite <- app_assoc; cbn; (split; [|reflexivity]); eauto.
Qed.

Lemma createListing_save_failure_flashes_twice_witness :
  Controllers.db (fst (Controllers.createListing Scenarios.env_save_fails
                         Scenarios.create_req (Scenarios.state_with ∅))) = ∅
  /\ Controllers.redirected
       (fst (Controllers.createListing Scenarios.env_save_fails
               Scenarios.create_req (Scenarios.state_with ∅))) = Some "/listings/new"
  /\ exists kind msg,
       (kind = "success" \/ kind = "warning")
       /\ Controllers.flashes
            (fst (Controllers.createListing Scenarios.env_save_fails
                    Scenarios.create_req (Scenarios.state_with ∅)))
          = [ (kind, msg); ("error", "Failed to create listing. Please try again.") ].
Proof.
  apply (createListing_save_failure_flashes_twice Scenarios.env_save_fails
           Scenarios.create_req (Scenarios.state_with ∅)
           (VStr "/img/1.png") (VStr "Nowhere") (VStr "u1"));
    reflexivity.
Defined.

(** X12.  [updateListing] never lets an exception escape, whatever the
    request, the provider and the storage do; it always redirects, to
    the index, to the listing or back to the edit form; and it leaves
    every document other than the addressed one as it was. *)
Theorem updateListing_always_answers
    (env : Controllers.Env) (req : Controllers.UpdateReq) (st : Controllers.HState) :
  let id := Controllers.u_id req in
  let out := Controllers.updateListing env req st in
  snd out = Normal tt
  /\ (Controllers.redirected (fst out) = Some "/listings"
      \/ Controllers.redirected (fst out) = Some ("/listings/" +:+ id)
      \/ Controllers.redirected (fst out) = Some ("/listings/" +:+ id +:+ "/edit"))
  /\ forall k, k <> id -> Controllers.db (fst out) !! k = Controllers.db st !! k.
Proof.
  intros id out. subst out id.
  unfold Controllers.updateListing, Controllers.htry, Controllers.hbind, Controllers.hlift,
    Controllers.findByIdAndUpdate, Controllers.geocode, Controllers.save.
  destruct (Controllers.find_fails env); cbn; [repeat split; eauto|].
  destruct (Controllers.db st !! Controllers.u_id req) as [stored|] eqn:Hfound; cbn;
    [|repeat split; eauto].
  assert (Hframe : forall l k, k <> Controllers.u_id req ->
            (<[Controllers.u_id req := l]> (Controllers.db st)) !! k = Controllers.db st !! k).
  { intros l k Hk. rewrite lookup_insert_ne; [reflexivity|congruence]. }
  assert (Hframe2 : forall l l' k, k <> Controllers.u_id req ->
            (<[Controllers.u_id req := l']> (<[Controllers.u_id req := l]> (Controllers.db st)))
              !! k = Controllers.db st !! k).
  { intros l l' k Hk. rewrite !lookup_insert_ne; [reflexivity|congruence..]. }
  destruct (get (Controllers.u_listing req) "location") as [loc|e]; cbn;
    [|repeat split; eauto].
  destruct (truthy loc); cbn.
  - destruct (geocode_outcome env loc) as (g & -> & [[-> _]|[-> _]]); cbn;
      destruct (String.eqb (typeof (Controllers.u_file req)) "undefined"); cbn;
      try (destruct (get (Controllers.u_file req) "path"); cbn);
      destruct (Controllers.save_fails env); cbn; repeat split; eauto.
  - destruct (String.eqb (typeof (Controllers.u_file req)) "undefined"); cbn;
      try (destruct (get (Controllers.u_file req) "path"); cbn);
      destruct (Controllers.save_fails env); cbn; repeat split; eauto.
Qed.

(** X13.  An update that carries a location and is saved leaves the
    listing with coordinates: those of the provider, those it already
    had, or the default ones. *)
Theorem updateListing_saved_listing_has_coordinates
    (env : Controllers.Env) (req : Controllers.UpdateReq) (st : Controllers.HState)
    (stored : Controllers.Listing) (loc : JsVal) :
  Controllers.find_fails env = false ->
  Controllers.save_fails env = false ->
  Controllers.db st !! Controllers.u_id req = Some stored ->
  get (Controllers.u_listing req) "location" = Normal loc ->
  truthy loc = true ->
  Controllers.u_file req <> VNull ->
  let out := fst (Controllers.updateListing env req st) in
  Controllers.redirected out = Some ("/listings/" +:+ Controllers.u_id req)
  /\ exists l, Controllers.db out !! Controllers.u_id req = Some l
               /\ Controllers.missing_geometry l = false.
Proof.
  intros Hfind Hsave Hfound Hloc Htruthy Hfile.
  unfold Controllers.updateListing, Controllers.htry, Controllers.hbind, Controllers.hlift,
    Controllers.findByIdAndUpdate, Controllers.geocode, Controllers.save.
  rewrite Hfind, Hfound. cbn. rewrite Hloc, Htruthy. cbn.
  assert (Himg : forall l v, Controllers.missing_geometry (Controllers.set_image v l)
                             = Controllers.missing_geometry l) by reflexivity.
  assert (Hdef : forall l,
            Controllers.missing_geometry
              (if Controllers.missing_geometry l
               then Controllers.set_geometry Controllers.default_point l else l) = false).
  { intros l. destruct (Controllers.missing_geometry l) eqn:E; [reflexivity|exact E]. }
  assert (Happ : forall g e c l lon lat, prop g "coordinates" = VArr [lon; lat] ->
            Controllers.missing_geometry (Controllers.apply_geocode g e c l) = false).
  { intros g e c l lon lat Hc. unfold Controllers.missing_geometry.
    rewrite apply_geocode_geometry. cbn. now rewrite Hc. }
  destruct (geocode_outcome env loc) as (g & -> & [[-> _]|[-> (lon & lat & Hc)]]); cbn;
    (destruct (Controllers.u_file req) eqn:Ef; try congruence; cbn; rewrite Hsave; cbn;
     (split; [reflexivity|]); rewrite lookup_insert_eq; eexists; (split; [reflexivity|]);
     rewrite ?Himg; eauto).
Qed.

Lemma updateListing_saved_listing_has_coordinates_witness :
  exists l,
    Controllers.db
      (fst (Controllers.updateListing Scenarios.env_no_results Scenarios.update_req
              (Scenarios.state_with {[ "id1" := Scenarios.stored_listing ]})))
      !! "id1" = Some l
    /\ Controllers.missing_geometry l = false.
Proof.
  apply (updateListing_saved_listing_has_coordinates Scenarios.env_no_results
           Scenarios.update_req
           (Scenarios.state_with {[ "id1" := Scenarios.stored_listing ]})
           Scenarios.stored_listing (VStr "Nowhere"));
    try reflexivity; try (vm_compute; reflexivity); discriminate.
Defined.

(** X14.  [findByIdAndUpdate] has written the body's fields before the
    geocoding starts: when the later save is rejected, the handler
    reports a failure and sends the user back to the edit form, but the
    stored document already carries the new [location] and [country]
    (with the geometry of the old address). *)
Theorem updateListing_failure_keeps_patched_document
    (env : Controllers.Env) (req : Controllers.UpdateReq) (st : Controllers.HState)
    (stored : Controllers.Listing) :
  Controllers.find_fails env = false ->
  Controllers.save_fails env = true ->
  Controllers.db st !! Controllers.u_id req = Some stored ->
  let out := fst (Controllers.updateListing env req st) in
  Controllers.redirected out = Some ("/listings/" +:+ Controllers.u_id req +:+ "/edit")
  /\ Controllers.db out
     = <[Controllers.u_id req := Controllers.patch (Controllers.u_listing req) stored]>
         (Controllers.db st)
  /\ Controllers.geometry (Controllers.patch (Controllers.u_listing req) stored)
     = Controllers.geometry stored
  /\ exists earlier,
       Controllers.flashes out
       = List.app earlier [("error", "Failed to update listing. Please try again.")].
Proof.
  intros Hfind Hsave Hfound.
  unfold Controllers.updateListing, Controllers.htry, Controllers.hbind, Controllers.hlift,
    Controllers.findByIdAndUpdate, Controllers.geocode, Controllers.save.
  rewrite Hfind, Hfound. cbn.
  split; [|split; [|split; [apply patch_geometry|]]].
  all: destruct (get (Controllers.u_listing req) "location") as [loc|e]; cbn; eauto.
  all: destruct (truthy loc); cbn;
    [destruct (geocode_outcome env loc) as (g & -> & [[-> _]|[-> _]]); cbn|];
    destruct (String.eqb (typeof (Controllers.u_file req)) "undefined"); cbn;
    try (destruct (get (Controllers.u_file req) "path"); cbn);
    rewrite ?Hsave; cbn; eauto.
Qed.

Lemma updateListing_failure_keeps_patched_document_witness :
  Controllers.db
    (fst (Controllers.updateListing Scenarios.env_save_fails Scenarios.update_req
            (Scenarios.state_with {[ "id1" := Scenarios.stored_listing ]})))
  = <["id1" := Controllers.patch (VObj [("location", VStr "Nowhere")])
                 Scenarios.stored_listing]>
      {[ "id1" := Scenarios.stored_listing ]}.
Proof.
  refine (proj1 (proj2
            (updateListing_failure_keeps_patched_document Scenarios.env_save_fails
               Scenarios.update_req
               (Scenarios.state_with {[ "id1" := Scenarios.stored_listing ]})
               Scenarios.stored_listing eq_refl eq_refl _))).
  vm_compute. reflexivity.
Defined.

(** X15.  An update whose body has no (or an empty) location does not
    call the provider and keeps the stored geometry. *)
Theorem updateListing_without_location_keeps_geometry
    (env : Controllers.Env) (req : Controllers.UpdateReq) (st : Controllers.HState)
    (stored : Controllers.Listing) (loc : JsVal) :
  Controllers.find_fails env = false ->
  Controllers.save_fails env = false ->
  Controllers.db st !! Controllers.u_id req = Some stored ->
  get (Controllers.u_listing req) "location" = Normal loc ->
  truthy loc = false ->
  Controllers.u_file req <> VNull ->
  let out := fst (Controllers.updateListing env req st) in
  Controllers.upstream out = Controllers.upstream st
  /\ Controllers.flashes out
     = List.app (Controllers.flashes st) [("success", "Listing Updated Successfully!")]
  /\ exists l, Controllers.db out !! Controllers.u_id req = Some l
               /\ Controllers.geometry l = Controllers.geometry stored.
Proof.
  intros Hfind Hsave Hfound Hloc Hfalsy Hfile.
  unfold Controllers.updateListing, Controllers.htry, Controllers.hbind, Controllers.hlift,
    Controllers.findByIdAndUpdate, Controllers.geocode, Controllers.save.
  rewrite Hfind, Hfound. cbn. rewrite Hloc, Hfalsy. cbn.
  destruct (Controllers.u_file req) eqn:Ef; try congruence; cbn; rewrite Hsave; cbn;
    (split; [reflexivity|split; [reflexivity|]]); rewrite lookup_insert_eq;
    eexists; (split; [reflexivity|]); cbn; apply patch_geometry.
Qed.

Lemma updateListing_without_location_keeps_geometry_witness :
  Controllers.upstream
    (fst (Controllers.updateListing Scenarios.env_no_results Scenarios.country_update
            (Scenarios.state_with {[ "id1" := Scenarios.stored_listing ]}))) = [].
Proof.
  refine (proj1
            (updateListing_without_location_keeps_geometry Scenarios.env_no_results
               Scenarios.country_update
               (Scenarios.state_with {[ "id1" := Scenarios.stored_listing ]})
               Scenarios.stored_listing VUndefined eq_refl eq_refl _ eq_refl eq_refl _));
    [vm_compute; reflexivity|discriminate].
Defined.

(** X16.  Deleting and then updating the same id: the delete flashes
    its success message whether or not the document existed, and the
    update that follows finds nothing, reports "Listing not found",
    redirects to the index, and calls neither the provider nor the
    storage's save. *)
Theorem update_after_delete_finds_nothing
    (env : Controllers.Env) (req : Controllers.UpdateReq) (st : Controllers.HState) :
  Controllers.find_fails env = false ->
  let deleted := fst (Controllers.deleteListing env (Controllers.u_id req) st) in
  Controllers.updateListing env req deleted
  = (Controllers.mkHState
       (List.app (Controllers.flashes st)
          [ ("success", "Listing Deleted Successfully..!"); ("error", "Listing not found") ])
       (Some "/listings")
       (delete (Controllers.u_id req) (Controllers.db st))
       (Controllers.upstream st),
     Normal tt).
Proof.
  intros Hfind.
  unfold Controllers.deleteListing, Controllers.updateListing, Controllers.htry,
    Controllers.hbind, Controllers.hlift, Controllers.findByIdAndUpdate,
    Controllers.findByIdAndDelete.
  rewrite Hfind. cbn. rewrite lookup_delete_eq. cbn.
  now rewrite <- app_assoc.
Qed.

Lemma update_after_delete_finds_nothing_witness :
  Controllers.updateListing Scenarios.env_no_results Scenarios.update_req
    (fst (Controllers.deleteListing Scenarios.env_no_results "id1"
            (Scenarios.state_with {[ "id1" := Scenarios.stored_listing ]})))
  = (Controllers.mkHState
       [ ("success", "Listing Deleted Successfully..!"); ("error", "Listing not found") ]
       (Some "/listings")
       (delete "id1" {[ "id1" := Scenarios.stored_listing ]})
       [],
     Normal tt).
Proof.
  exact (update_after_delete_finds_nothing Scenarios.env_no_results Scenarios.update_req
           (Scenarios.state_with {[ "id1" := Scenarios.stored_listing ]}) eq_refl).
Defined.

(** ** The map: retries of the reverse geocoding *)

Section MapExtras.
Import Geocoding Browser Map.

(** A retry is only asked for while [attempt <= retryAttempts]. *)
Lemma retry_within_budget o lat lng attempt outcome :
  reverse_attempt o lat lng attempt outcome = Retry -> attempt <= retryAttempts o.
Proof.
  intros H. destruct (attempt <=? retryAttempts o) eqn:Hle; [lia|].
  exfalso. revert H.
  unfold reverse_attempt, reverse_try, reverse_catch.
  rewrite Hle, ?andb_false_r. simpl.
  destruct outcome as [status text json|e]; simpl.
  2: { destruct (String.eqb (err_name e) "AbortError"); discriminate. }
  destruct (response_ok status); simpl; rewrite ?andb_false_r; simpl;
    [|discriminate].
  destruct json as [d|e]; simpl.
  2: { destruct (String.eqb (err_name e) "AbortError"); discriminate. }
  destruct d as [| |r]; simpl; try discriminate.
  destruct r as [|[|item items]|[] item]; simpl; try discriminate;
    destruct item; simpl; discriminate.
Qed.

(** One attempt that asks for another. *)
Lemma map_reverseGeocode_retry key o net lat lng attempt :
  key <> "" ->
  reverse_attempt o lat lng attempt (net attempt) = Retry ->
  Map.reverseGeocode key o net lat lng attempt
  = (Fetch (reverse_url key lat lng) :: Sleep (retryDelay o * attempt)
       :: fst (Map.reverseGeocode key o net lat lng (attempt + 1)),
     snd (Map.reverseGeocode key o net lat lng (attempt + 1))).
Proof.
  intros Hkey Hretry. simp reverseGeocode.
  destruct (String.eqb key "") eqn:E; [apply String.eqb_eq in E; contradiction|].
  simp reverseGeocode.
  destruct (inspect (reverse_attempt o lat lng attempt (net attempt))) as [a Ha].
  destruct a as [address'|]; [congruence|].
  simp reverseGeocode. rewrite ?E. simp reverseGeocode.
  destruct (reverseGeocode_unfold_clause_1_clause_2 key o net lat lng (attempt + 1) _);
    reflexivity.
Qed.

Lemma map_reverseGeocode_trace key o net lat lng (n : nat) : forall attempt,
  key <> "" ->
  Z.to_nat (retryAttempts o + 1 - attempt) = n ->
  let trace := fst (Map.reverseGeocode key o net lat lng attempt) in
  (1 <= fetch_count trace <= n + 1)%nat
  /\ sleeps trace = backoff (retryDelay o) attempt (fetch_count trace - 1)
  /\ Forall (fun e => match e with
                      | Fetch url => url = reverse_url key lat lng
                      | Sleep _ => True
                      end) trace.
Proof.
  induction n as [|n IH]; intros attempt Hkey Hn;
    destruct (reverse_attempt o lat lng attempt (net attempt)) as [address|] eqn:Ha.
  - rewrite (map_reverseGeocode_done key o net lat lng attempt address Hkey Ha). cbn.
    repeat split; try lia. repeat constructor.
  - apply retry_within_budget in Ha. lia.
  - rewrite (map_reverseGeocode_done key o net lat lng attempt address Hkey Ha). cbn.
    repeat split; try lia. repeat constructor.
  - rewrite (map_reverseGeocode_retry key o net lat lng attempt Hkey Ha).
    pose proof (retry_within_budget _ _ _ _ _ Ha) as Hle.
    destruct (IH (attempt + 1) Hkey ltac:(lia)) as ((H1 & H2) & Hs & Hf).
    cbn [fst]. unfold fetch_count in *. cbn [List.filter List.length sleeps].
    repeat split; try lia.
    + rewrite Hs.
      set (k := List.length (List.filter _ (fst (Map.reverseGeocode key o net lat lng (attempt + 1))))) in *.
      replace (S k - 1)%nat with (S (k - 1)) by lia. reflexivity.
    + repeat constructor. exact Hf.
Qed.

End MapExtras.

(** X17.  The map's reverse geocoding is bounded, whatever the provider
    does: with a key configured it sends at least one and at most
    [retryAttempts + 1] requests, all to the same URL, and the waits
    between them are the linear back-off [retryDelay * 1],
    [retryDelay * 2], ... *)
Theorem map_reverseGeocode_bounded_backoff
    (key : string) (o : Map.Options) (net : Map.ReverseNetwork) (lat lng : JsNum) :
  key <> "" ->
  0 <= Map.retryAttempts o ->
  let trace := fst (Map.reverseGeocode key o net lat lng 1) in
  (1 <= Map.fetch_count trace <= Z.to_nat (Map.retryAttempts o) + 1)%nat
  /\ Map.sleeps trace = Map.backoff (Map.retryDelay o) 1 (Map.fetch_count trace - 1)
  /\ Forall (fun e => match e with
                      | Map.Fetch url => url = Map.reverse_url key lat lng
                      | Map.Sleep _ => True
                      end) trace.
Proof.
  intros Hkey Hretry.
  apply (map_reverseGeocode_trace key o net lat lng (Z.to_nat (Map.retryAttempts o)) 1 Hkey).
  f_equal. lia.
Qed.

Lemma map_reverseGeocode_bounded_backoff_witness :
  Map.sleeps (fst (Map.reverseGeocode "key" (Map.options Scenarios.edit_map)
                     Scenarios.map_no_results (Dec 12345678 6) (Dec 5678 2) 1))
  = Map.backoff (Map.retryDelay (Map.options Scenarios.edit_map)) 1
      (Map.fetch_count
         (fst (Map.reverseGeocode "key" (Map.options Scenarios.edit_map)
                 Scenarios.map_no_results (Dec 12345678 6) (Dec 5678 2) 1)) - 1).
Proof.
  apply (map_reverseGeocode_bounded_backoff "key" (Map.options Scenarios.edit_map)
           Scenarios.map_no_results (Dec 12345678 6) (Dec 5678 2));
    [discriminate|vm_compute; discriminate].
Defined.

(** X18.  A provider that keeps answering 429, or a network that keeps
    failing (other than by a timeout, and with a message that does not
    mention 429), uses up the whole budget: exactly [retryAttempts + 1]
    requests are sent and the address is [null]. *)
Theorem map_reverseGeocode_persistent_failure
    (key : string) (o : Map.Options) (outcome : Browser.FetchOutcome Geocoding.ResponseData)
    (lat lng : JsNum) :
  key <> "" ->
  0 <= Map.retryAttempts o ->
  (exists statusText json, outcome = Browser.FResponse 429 statusText json)
  \/ (exists e, outcome = Browser.FFail e
                /\ String.eqb (err_name e) "AbortError" = false
                /\ includes (err_message e) "429" = false) ->
  let run := Map.reverseGeocode key o (Map.always outcome) lat lng 1 in
  Map.fetch_count (fst run) = (Z.to_nat (Map.retryAttempts o) + 1)%nat
  /\ snd run = VNull.
Proof.
  intros Hkey Hretry Hout.
  assert (Hstep : forall attempt,
            Map.reverse_attempt o lat lng attempt outcome
            = if attempt <=? Map.retryAttempts o then Map.Retry else Map.Done VNull).
  { intros attempt. unfold Map.reverse_attempt, Map.reverse_try, Map.reverse_catch.
    destruct Hout as [(text & json & ->)|(e & -> & Hname & Hmsg)].
    - cbn. destruct (attempt <=? Map.retryAttempts o); reflexivity.
    - rewrite Hname, Hmsg. cbn. now rewrite andb_true_r. }
  assert (H : forall n attempt, 1 <= attempt ->
            Z.to_nat (Map.retryAttempts o + 1 - attempt) = n ->
            Map.fetch_count (fst (Map.reverseGeocode key o (Map.always outcome) lat lng attempt))
            = (n + 1)%nat
            /\ snd (Map.reverseGeocode key o (Map.always outcome) lat lng attempt) = VNull).
  { induction n as [|n IH]; intros attempt H1 Hn;
      pose proof (Hstep attempt) as Ha;
      destruct (Z.leb_spec attempt (Map.retryAttempts o)) as [Hle|Hgt]; try lia.
    - rewrite (map_reverseGeocode_done key o (Map.always outcome) lat lng attempt VNull Hkey Ha).
      split; reflexivity.
    - rewrite (map_reverseGeocode_retry key o (Map.always outcome) lat lng attempt Hkey Ha).
      destruct (IH (attempt + 1) ltac:(lia) ltac:(lia)) as [Hc Hr].
      cbn [fst snd]. split; [|exact Hr].
      unfold Map.fetch_count in *. cbn [List.filter List.length]. rewrite Hc. lia. }
  apply H; [lia|f_equal; lia].
Qed.

Lemma map_reverseGeocode_persistent_failure_witness :
  Map.fetch_count
    (fst (Map.reverseGeocode "key" (Map.options Scenarios.edit_map)
            (Map.always (Browser.FResponse 429 "Too Many Requests" (Browser.JBody Geocoding.DNull)))
            (Dec 12345678 6) (Dec 5678 2) 1))
  = (Z.to_nat (Map.retryAttempts (Map.options Scenarios.edit_map)) + 1)%nat.
Proof.
  apply (map_reverseGeocode_persistent_failure "key" (Map.options Scenarios.edit_map)
           (Browser.FResponse 429 "Too Many Requests" (Browser.JBody Geocoding.DNull))
           (Dec 12345678 6) (Dec 5678 2));
    [discriminate|vm_compute; discriminate|left; eexists _, _; reflexivity].
Defined.

(** X19.  A request that timed out (aborted), or failed with a message
    that mentions 429, is not retried: one request, no wait, and the
    address is [null]. *)
Theorem map_reverseGeocode_timeout_is_final
    (key : string) (o : Map.Options) (net : Map.ReverseNetwork) (lat lng : JsNum)
    (e : JsError) :
  key <> "" ->
  net 1 = Browser.FFail e ->
  String.eqb (err_name e) "AbortError" = true \/ includes (err_message e) "429" = true ->
  Map.reverseGeocode key o net lat lng 1 = ([Map.Fetch (Map.reverse_url key lat lng)], VNull).
Proof.
  intros Hkey Hnet He.
  apply map_reverseGeocode_done; [exact Hkey|].
  unfold Map.reverse_attempt, Map.reverse_try, Map.reverse_catch. rewrite Hnet.
  destruct (String.eqb (err_name e) "AbortError"); [reflexivity|].
  destruct He as [He|He]; [discriminate|]. rewrite He. cbn. now rewrite andb_false_r.
Qed.

Lemma map_reverseGeocode_timeout_is_final_witness :
  Map.reverseGeocode "key" (Map.options Scenarios.edit_map)
    (Map.always (Browser.FFail Browser.AbortError)) (Dec 12345678 6) (Dec 5678 2) 1
  = ([Map.Fetch (Map.reverse_url "key" (Dec 12345678 6) (Dec 5678 2))], VNull).
Proof.
  apply (map_reverseGeocode_timeout_is_final "key" (Map.options Scenarios.edit_map)
           (Map.always (Browser.FFail Browser.AbortError)) (Dec 12345678 6) (Dec 5678 2)
           Browser.AbortError);
    [discriminate|reflexivity|left; reflexivity].
Defined.

(** ** The map: clicks and start-up *)

Section MapStateExtras.
Import Geocoding Browser Map.



Lemma validateCoordinate_in_range (numValue defaultValue min max : JsNum) :
  isNaN defaultValue = false ->
  num_lt defaultValue min = false ->
  num_lt max defaultValue = false ->
  let v := validateCoordinate numValue defaultValue min max in
  isNaN v = false /\ num_lt v min = false /\ num_lt max v = false.
Proof.
  intros H1 H2 H3. unfold validateCoordinate.
  destruct (isNaN numValue) eqn:E1; cbn; [auto|].
  destruct (num_lt numValue min) eqn:E2; cbn; [auto|].
  destruct (num_lt max numValue) eqn:E3; cbn; auto.
Qed.

End MapStateExtras.



(** X21.  [init] waits for Leaflet at most twice, 500 ms each time, and
    gives up exactly when the library is missing at all three attempts;
    a map that does start is centred on its marker, at a latitude
    within [-90, 90] and a longitude within [-180, 180], whatever the
    container's attributes hold. *)
Theorem init_outcome
    (key : string) (o : Map.Options) (leaflet : nat -> bool)
    (container : option (JsNum * JsNum)) :
  let run := Map.init key o leaflet container 0 in
  (fst run = [] \/ fst run = [500] \/ fst run = [500; 500])
  /\ (snd run = Map.LibraryFailed
      <-> leaflet 1%nat = false /\ leaflet 2%nat = false /\ leaflet 3%nat = false)
  /\ forall m, snd run = Map.Ready m ->
       exists lat lon,
         Map.marker m = Some (lat, lon) /\ Map.center m = Some (lat, lon)
         /\ Map.tempMarkers m = []
         /\ (isNaN lat = false /\ num_lt lat (Dec (-90) 0) = false
             /\ num_lt (Dec 90 0) lat = false)
         /\ (isNaN lon = false /\ num_lt lon (Dec (-180) 0) = false
             /\ num_lt (Dec 180 0) lon = false).
Proof.
  assert (Hready : forall n,
            leaflet (S n) = true ->
            Map.init key o leaflet container n
            = ([], match container with
                   | None => Map.NoContainer
                   | Some (data_lat, data_lon) =>
                       Map.Ready
                         (Map.initial_map key o
                            (Map.validateCoordinate data_lat (Dec 20296 3) (Dec (-90) 0) (Dec 90 0))
                            (Map.validateCoordinate data_lon (Dec 858246 4) (Dec (-180) 0) (Dec 180 0)))
                   end)).
  { intros n Hn. simp init.
    destruct (inspect (leaflet (S n))) as [b Hb]. destruct b; [|congruence].
    simp init. destruct container as [[data_lat data_lon]|]; simp init; reflexivity. }
  assert (Hwait : forall n,
            leaflet (S n) = false -> (S n <? 3)%nat = true ->
            Map.init key o leaflet container n
            = (500 :: fst (Map.init key o leaflet container (S n)),
               snd (Map.init key o leaflet container (S n)))).
  { intros n Hn Hlt.
    simp init.
    destruct (inspect (leaflet (S n))) as [b Hb]. destruct b; [congruence|].
    simp init. destruct (inspect (S n <? 3)%nat) as [c Hc]. destruct c; [|congruence].
    simp init.
    destruct (Map.init_unfold_clause_1 key o leaflet container (S n) _); reflexivity. }
  assert (Hfail : forall n,
            leaflet (S n) = false -> (S n <? 3)%nat = false ->
            Map.init key o leaflet container n = ([], Map.LibraryFailed)).
  { intros n Hn Hlt. simp init.
    destruct (inspect (leaflet (S n))) as [b Hb]. destruct b; [congruence|].
    simp init. destruct (inspect (S n <? 3)%nat) as [c Hc]. destruct c; [congruence|].
    simp init. reflexivity. }
  assert (Hshape : forall m,
            match container with
            | None => Map.NoContainer
            | Some (data_lat, data_lon) =>
                Map.Ready
                  (Map.initial_map key o
                     (Map.validateCoordinate data_lat (Dec 20296 3) (Dec (-90) 0) (Dec 90 0))
                     (Map.validateCoordinate data_lon (Dec 858246 4) (Dec (-180) 0) (Dec 180 0)))
            end = Map.Ready m ->
            exists lat lon,
              Map.marker m = Some (lat, lon) /\ Map.center m = Some (lat, lon)
              /\ Map.tempMarkers m = []
              /\ (isNaN lat = false /\ num_lt lat (Dec (-90) 0) = false
                  /\ num_lt (Dec 90 0) lat = false)
              /\ (isNaN lon = false /\ num_lt lon (Dec (-180) 0) = false
                  /\ num_lt (Dec 180 0) lon = false)).
  { intros m Hm. destruct container as [[data_lat data_lon]|]; [|discriminate].
    injection Hm as <-. eexists _, _. repeat split;
      apply validateCoordinate_in_range; reflexivity. }
  assert (Hfine :
            match container with
            | None => Map.NoContainer
            | Some (data_lat, data_lon) =>
                Map.Ready
                  (Map.initial_map key o
                     (Map.validateCoordinate data_lat (Dec 20296 3) (Dec (-90) 0) (Dec 90 0))
                     (Map.validateCoordinate data_lon (Dec 858246 4) (Dec (-180) 0) (Dec 180 0)))
            end <> Map.LibraryFailed).
  { destruct container as [[? ?]|]; discriminate. }
  cbv zeta.
  destruct (leaflet 1%nat) eqn:L1.
  { rewrite (Hready 0%nat L1). cbn [fst snd]. split; [auto|]. split; [|exact Hshape].
    split; [intros H; destruct (Hfine H)|intros (H & _); discriminate]. }
  rewrite (Hwait 0%nat L1 eq_refl).
  destruct (leaflet 2%nat) eqn:L2.
  { rewrite (Hready 1%nat L2). cbn [fst snd]. split; [auto|]. split; [|exact Hshape].
    split; [intros H; destruct (Hfine H)|intros (_ & H & _); discriminate]. }
  rewrite (Hwait 1%nat L2 eq_refl).
  destruct (leaflet 3%nat) eqn:L3.
  { rewrite (Hready 2%nat L3). cbn [fst snd]. split; [auto|]. split; [|exact Hshape].
    split; [intros H; destruct (Hfine H)|intros (_ & _ & H); discriminate]. }
  rewrite (Hfail 2%nat L3 eq_refl). cbn [fst snd]. split; [auto|].
  split; [split; auto|intros m H; discriminate].
Qed.

(** ** The autocomplete: what holds along every run *)

Section AutocompleteExtras.
Import Browser Map Autocomplete.

(** What one event does to the suspended calls and to [isLoading]. *)
Lemma step_shape (e : Event) (w : World) :
  single_flight w ->
  (tasks (step e w) = tasks w /\ next_task (step e w) = next_task w
   /\ isLoading (session (step e w)) = isLoading (session w))
  \/ (exists q, tasks (step e w) = <[next_task w := AwaitSuggestions q 1]> (tasks w)
                /\ next_task (step e w) = S (next_task w)
                /\ isLoading (session (step e w)) = true
                /\ isLoading (session w) = false)
  \/ (exists a, tasks (step e w) = <[next_task w := AwaitSearch a]> (tasks w)
                /\ next_task (step e w) = S (next_task w)
                /\ isLoading (session (step e w)) = isLoading (session w))
  \/ (exists id t, tasks w !! id = Some t /\ is_fetch t = true
                   /\ tasks (step e w) = delete id (tasks w)
                   /\ next_task (step e w) = next_task w
                   /\ isLoading (session (step e w)) = false)
  \/ (exists id q a, tasks w !! id = Some (AwaitSuggestions q a)
                     /\ tasks (step e w) = <[id := AwaitRetry q a]> (delete id (tasks w))
                     /\ next_task (step e w) = next_task w
                     /\ isLoading (session (step e w)) = isLoading (session w))
  \/ (exists id a, tasks w !! id = Some (AwaitSearch a)
                   /\ tasks (step e w) = delete id (tasks w)
                   /\ next_task (step e w) = next_task w
                   /\ isLoading (session (step e w)) = isLoading (session w)).
Proof.
  intros Inv. destruct e as [value| |id outcome|id|index|id outcome]; cbn [step].
  - left. unfold onInput. destruct (Nat.ltb _ _); repeat split.
  - destruct (debounceTimer (session w)) as [q|]; [|left; repeat split].
    unfold fetchSuggestions. cbn [session on_session set_session isLoading set_debounceTimer].
    destruct (isLoading (session w)) eqn:Hl; [left; repeat split; exact Hl|].
    right. left. exists q. repeat split.
  - destruct (tasks w !! id) as [[query attempt| |]|] eqn:H; try (left; repeat split; fail).
    assert (Hfin : forall f,
              tasks (finish (on_session f (settle id w))) = delete id (tasks w)
              /\ next_task (finish (on_session f (settle id w))) = next_task w
              /\ isLoading (session (finish (on_session f (settle id w)))) = false)
      by (intros f; repeat split).
    assert (Hcatch : forall e,
              (tasks (fetch_catch id query attempt e (settle id w)) = delete id (tasks w)
               /\ next_task (fetch_catch id query attempt e (settle id w)) = next_task w
               /\ isLoading (session (fetch_catch id query attempt e (settle id w))) = false)
              \/ (tasks (fetch_catch id query attempt e (settle id w))
                  = <[id := AwaitRetry query attempt]> (delete id (tasks w))
                  /\ next_task (fetch_catch id query attempt e (settle id w)) = next_task w
                  /\ isLoading (session (fetch_catch id query attempt e (settle id w)))
                     = isLoading (session w))).
    { intros e. unfold fetch_catch.
      destruct (String.eqb (err_name e) "AbortError"); [left; apply Hfin|].
      destruct ((attempt <=? 2) && negb (includes (err_message e) "429"));
        [right; repeat split|left; apply Hfin]. }
    assert (Hc : forall e,
              (exists id0 t, tasks w !! id0 = Some t /\ is_fetch t = true
                 /\ tasks (fetch_catch id query attempt e (settle id w))
                    = delete id0 (tasks w)
                 /\ next_task (fetch_catch id query attempt e (settle id w)) = next_task w
                 /\ isLoading (session (fetch_catch id query attempt e (settle id w)))
                    = false)
              \/ (exists id0 q a, tasks w !! id0 = Some (AwaitSuggestions q a)
                     /\ tasks (fetch_catch id query attempt e (settle id w))
                        = <[id0 := AwaitRetry q a]> (delete id0 (tasks w))
                     /\ next_task (fetch_catch id query attempt e (settle id w))
                        = next_task w
                     /\ isLoading (session (fetch_catch id query attempt e (settle id w)))
                        = isLoading (session w))).
    { intros e. destruct (Hcatch e) as [P|P].
      - left. exists id, (AwaitSuggestions query attempt).
        split; [exact H|split; [reflexivity|exact P]].
      - right. exists id, query, attempt. split; [exact H|exact P]. }
    unfold fetch_settled.
    destruct outcome as [status statusText json|e];
      [|destruct (Hc e) as [P|P]; [do 3 right; left; exact P|do 4 right; left; exact P]].
    destruct (negb (response_ok status)).
    { destruct ((status =? 429) && (attempt <=? 2));
        [|destruct (Hc (http_error status statusText)) as [P|P];
          [do 3 right; left; exact P|do 4 right; left; exact P]].
      do 4 right. left. exists id, query, attempt. repeat split. exact H. }
    destruct json as [[data|]|e];
      [|destruct (Hc (TypeError "Cannot read properties of null (reading 'success')"))
          as [P|P]; [do 3 right; left; exact P|do 4 right; left; exact P]
       |destruct (Hc e) as [P|P]; [do 3 right; left; exact P|do 4 right; left; exact P]].
    do 3 right. left. exists id, (AwaitSuggestions query attempt).
    split; [exact H|]. split; [reflexivity|].
    destruct (d_success data), (d_suggestions data); apply Hfin.
  - destruct (tasks w !! id) as [[| query attempt|]|] eqn:H; try (left; repeat split; fail).
    destruct (Inv id _ H eq_refl) as [Hload _].
    rewrite retry_is_dropped by exact Hload.
    do 3 right. left. exists id, (AwaitRetry query attempt). repeat split. exact H.
  - unfold selectSuggestion.
    destruct (suggestion_at index (session w)) as [sg|]; [|left; repeat split].
    unfold updateMapLocation. cbn [listingMap set_form on_session set_session].
    destruct (listingMap w) as [m|]; [destruct (coordinates sg) as [[lng lat]|]|];
      try (left; repeat split; fail).
    + destruct (valid_coordinates lat lng); left; repeat split.
    + destruct (search_sends m (address sg)); [|left; repeat split].
      do 2 right. left. exists (address sg). repeat split.
  - destruct (tasks w !! id) as [[| |a]|] eqn:H; try (left; repeat split; fail).
    destruct (listingMap w) as [m|]; [|left; repeat split].
    destruct (search_complete m (form w) outcome) as [[ok m'] form'].
    do 5 right. exists id, a. repeat split. exact H.
Qed.

Lemma step_bookkeeping (e : Event) (w : World) :
  single_flight w -> loading_has_call w -> first_attempts w -> fresh_tasks w ->
  loading_has_call (step e w) /\ first_attempts (step e w) /\ fresh_tasks (step e w).
Proof.
  intros Inv Hload Hfirst Hfresh.
  destruct (step_shape e w Inv)
    as [(Ht & Hn & Hl)
       |[(q & Ht & Hn & Hl & Hidle)
        |[(a & Ht & Hn & Hl)
         |[(id & t & Hid & Hf & Ht & Hn & Hl)
          |[(id & q & a & Hid & Ht & Hn & Hl)
           |(id & a & Hid & Ht & Hn & Hl)]]]]];
    unfold loading_has_call, first_attempts, fresh_tasks; rewrite Ht, Hn, Hl.
  - auto.
  - split; [|split].
    + intros _. exists (next_task w), (AwaitSuggestions q 1).
      now rewrite lookup_insert_eq.
    + intros i t. rewrite lookup_insert. case_decide; [intros [= <-]; reflexivity|].
      apply Hfirst.
    + intros i t. rewrite lookup_insert. case_decide; [intros _; lia|].
      intros Hi. apply Hfresh in Hi. lia.
  - split; [|split].
    + intros L. destruct (Hload L) as (i & t & Hi & Fi). exists i, t.
      split; [|exact Fi]. rewrite lookup_insert_ne; [exact Hi|].
      apply Hfresh in Hi. lia.
    + intros i t. rewrite lookup_insert. case_decide; [intros [= <-]; exact I|].
      apply Hfirst.
    + intros i t. rewrite lookup_insert. case_decide; [intros _; lia|].
      intros Hi. apply Hfresh in Hi. lia.
  - split; [|split].
    + discriminate.
    + intros i t'. rewrite lookup_delete. case_decide; [discriminate|]. apply Hfirst.
    + intros i t'. rewrite lookup_delete. case_decide; [discriminate|]. apply Hfresh.
  - split; [|split].
    + intros _. exists id, (AwaitRetry q a). now rewrite lookup_insert_eq.
    + intros i t. rewrite lookup_insert. case_decide.
      * intros [= <-]. exact (Hfirst id _ Hid).
      * rewrite lookup_delete. case_decide; [discriminate|]. apply Hfirst.
    + intros i t. rewrite lookup_insert. case_decide.
      * intros _. subst i. exact (Hfresh id _ Hid).
      * rewrite lookup_delete. case_decide; [discriminate|]. apply Hfresh.
  - split; [|split].
    + intros L. destruct (Hload L) as (i & t & Hi & Fi). exists i, t.
      split; [|exact Fi]. rewrite lookup_delete_ne; [exact Hi|].
      intros ->. rewrite Hid in Hi. injection Hi as <-. discriminate.
    + intros i t'. rewrite lookup_delete. case_decide; [discriminate|]. apply Hfirst.
    + intros i t'. rewrite lookup_delete. case_decide; [discriminate|]. apply Hfresh.
Qed.

Lemma run_snoc (events : list Event) (e : Event) (w : World) :
  run (List.app events [e]) w = step e (run events w).
Proof. unfold run. now rewrite fold_left_app. Qed.

End AutocompleteExtras.

(** X24.  Along every run of a page that starts with a fresh
    autocomplete: [isLoading] is set exactly while a call of
    [fetchSuggestions] is suspended, there is never more than one such
    call, and every one of them is a first attempt: no call with
    [attempt] 2 or 3 ever gets past the [isLoading] guard. *)
Theorem suspended_calls_are_first_attempts
    (name : string) (f : gmap string string) (m : option Map.ListingMap)
    (events : list Autocomplete.Event) :
  let w := Autocomplete.run events (Autocomplete.new_world name f m) in
  Autocomplete.single_flight w
  /\ (Autocomplete.isLoading (Autocomplete.session w) = true
      <-> exists id t, Autocomplete.tasks w !! id = Some t
                       /\ Autocomplete.is_fetch t = true)
  /\ forall id t, Autocomplete.tasks w !! id = Some t ->
       match t with
       | Autocomplete.AwaitSuggestions _ attempt
       | Autocomplete.AwaitRetry _ attempt => attempt = 1
       | Autocomplete.AwaitSearch _ => True
       end.
Proof.
  cbv zeta.
  assert (H : Autocomplete.single_flight
                (Autocomplete.run events (Autocomplete.new_world name f m))
              /\ Autocomplete.loading_has_call
                   (Autocomplete.run events (Autocomplete.new_world name f m))
              /\ Autocomplete.first_attempts
                   (Autocomplete.run events (Autocomplete.new_world name f m))
              /\ Autocomplete.fresh_tasks
                   (Autocomplete.run events (Autocomplete.new_world name f m))).
  { induction events as [|e events IH] using rev_ind.
    - split; [apply single_flight_new|]. split; [discriminate|].
      split; intros id t Hid; cbn in Hid; rewrite lookup_empty in Hid; discriminate.
    - rewrite run_snoc. destruct IH as (I1 & I2 & I3 & I4).
      split; [apply step_single_flight; exact I1|].
      apply step_bookkeeping; assumption. }
  destruct H as (I1 & I2 & I3 & _).
  split; [exact I1|]. split; [|exact I3].
  split; [exact I2|]. intros (id & t & Hid & Hf). exact (proj1 (I1 id t Hid Hf)).
Qed.

(** X25.  Only the debounce timer sends suggestion requests: in any
    run of a fresh page the number of requests sent is at most the
    number of timers that fired, so no retry and no other event ever
    adds one. *)
Theorem requests_bounded_by_timers
    (name : string) (f : gmap string string) (m : option Map.ListingMap)
    (events : list Autocomplete.Event) :
  (List.length (Autocomplete.requests
                  (Autocomplete.run events (Autocomplete.new_world name f m)))
   <= Autocomplete.timer_count events)%nat.
Proof.
  induction events as [|e events IH] using rev_ind; [cbn; lia|].
  rewrite run_snoc. unfold Autocomplete.timer_count in *.
  rewrite List.filter_app, List.length_app.
  pose proof (run_single_flight events _ (single_flight_new name f m)) as Inv.
  set (w := Autocomplete.run events (Autocomplete.new_world name f m)) in *.
  destruct e as [value| |id outcome|id|index|id outcome];
    try (rewrite (requests_only_on_timer _ w Inv) by discriminate; cbn; lia).
  cbn [Autocomplete.step List.filter List.length].
  destruct (Autocomplete.debounceTimer (Autocomplete.session w)) as [q|]; [|lia].
  unfold Autocomplete.fetchSuggestions.
  cbn [Autocomplete.session Autocomplete.on_session Autocomplete.set_session
       Autocomplete.isLoading Autocomplete.set_debounceTimer].
  destruct (Autocomplete.isLoading (Autocomplete.session w)); cbn; [lia|].
  rewrite List.length_app. cbn. lia.
Qed.

(** ** The autocomplete: debounce and failures *)

Section DebounceExtras.
Import Browser Map Autocomplete.

Lemma typed_long (value : string) (w : World) :
  (minLength (session w) <= String.length (trim value))%nat ->
  step (Typed value) w
  = on_session (set_debounceTimer (Some (trim value)))
      (set_form (<[input_name (session w) := value]> (form w)) w).
Proof.
  intros H. cbn [step]. unfold onInput. cbn [session set_form].
  destruct (Nat.ltb_spec (String.length (trim value)) (minLength (session w))); [lia|].
  reflexivity.
Qed.

Lemma typed_short (value : string) (w : World) :
  (String.length (trim value) < minLength (session w))%nat ->
  step (Typed value) w
  = on_session hideSuggestions
      (set_form (<[input_name (session w) := value]> (form w)) w).
Proof.
  intros H. cbn [step]. unfold onInput. cbn [session set_form].
  destruct (Nat.ltb_spec (String.length (trim value)) (minLength (session w))); [|lia].
  reflexivity.
Qed.

End DebounceExtras.

(** X22.  The debounce coalesces: of two edits made before the timer
    fires only the later one is fetched, with one request, and a
    second firing finds nothing left to send. *)
Theorem debounce_sends_last_value (a b : string) (w : Autocomplete.World) :
  Autocomplete.isLoading (Autocomplete.session w) = false ->
  (Autocomplete.minLength (Autocomplete.session w) <= String.length (trim b))%nat ->
  let w' := Autocomplete.run
              [ Autocomplete.Typed a; Autocomplete.Typed b;
                Autocomplete.TimerFired; Autocomplete.TimerFired ] w in
  (exists req,
      Autocomplete.requests w' = List.app (Autocomplete.requests w) [req]
      /\ Autocomplete.r_query req = trim b)
  /\ Autocomplete.debounceTimer (Autocomplete.session w') = None.
Proof.
  intros Hidle Hb w'. subst w'.
  change (Autocomplete.run
            [Autocomplete.Typed a; Autocomplete.Typed b; Autocomplete.TimerFired;
             Autocomplete.TimerFired] w)
    with (Autocomplete.step Autocomplete.TimerFired
            (Autocomplete.run [Autocomplete.Typed b; Autocomplete.TimerFired]
               (Autocomplete.step (Autocomplete.Typed a) w))).
  set (w1 := Autocomplete.step (Autocomplete.Typed a) w).
  assert (H1 : Autocomplete.isLoading (Autocomplete.session w1) = false
               /\ Autocomplete.minLength (Autocomplete.session w1)
                  = Autocomplete.minLength (Autocomplete.session w)
               /\ Autocomplete.requests w1 = Autocomplete.requests w).
  { subst w1. cbn [Autocomplete.step]. unfold Autocomplete.onInput.
    destruct (Nat.ltb _ _); cbn; auto. }
  destruct H1 as (Hl & Hm & Hr). clearbody w1.
  rewrite (typed_then_fired b w1 Hl) by (rewrite Hm; exact Hb).
  cbn. rewrite Hr. split; [eexists; split; reflexivity|reflexivity].
Qed.

Lemma debounce_sends_last_value_witness :
  exists req,
    Autocomplete.requests
      (Autocomplete.run
         [ Autocomplete.Typed "Par"; Autocomplete.Typed "Paris";
           Autocomplete.TimerFired; Autocomplete.TimerFired ] Scenarios.page)
    = [req]
    /\ Autocomplete.r_query req = "Paris".
Proof.
  apply (debounce_sends_last_value "Par" "Paris" Scenarios.page);
    [reflexivity|vm_compute; lia].
Defined.

(** X23.  Shortening the input below [minLength] hides the list but
    does not cancel the pending timer: when it fires, the earlier,
    longer value is fetched although the input no longer holds it, and
    the list is shown again with the loading item. *)
Theorem shortened_input_still_fetches (a b : string) (w : Autocomplete.World) :
  Autocomplete.isLoading (Autocomplete.session w) = false ->
  (Autocomplete.minLength (Autocomplete.session w) <= String.length (trim a))%nat ->
  (String.length (trim b) < Autocomplete.minLength (Autocomplete.session w))%nat ->
  let typed := Autocomplete.run [Autocomplete.Typed a; Autocomplete.Typed b] w in
  let w' := Autocomplete.step Autocomplete.TimerFired typed in
  Autocomplete.listVisible (Autocomplete.session typed) = false
  /\ Autocomplete.form typed !! Autocomplete.input_name (Autocomplete.session w) = Some b
  /\ (exists req,
        Autocomplete.requests w' = List.app (Autocomplete.requests w) [req]
        /\ Autocomplete.r_query req = trim a)
  /\ Autocomplete.listVisible (Autocomplete.session w') = true
  /\ Autocomplete.listContent (Autocomplete.session w') = Autocomplete.Loading.
Proof.
  intros Hidle Ha Hb typed w'. subst w' typed.
  unfold Autocomplete.run. cbn [List.fold_left].
  rewrite (typed_long a w Ha).
  rewrite typed_short by exact Hb.
  cbn. unfold Autocomplete.fetchSuggestions. cbn. rewrite Hidle. cbn.
  split; [reflexivity|]. split; [apply lookup_insert_eq|].
  split; [eexists; split; reflexivity|]. split; reflexivity.
Qed.

Lemma shortened_input_still_fetches_witness :
  exists req,
    Autocomplete.requests
      (Autocomplete.step Autocomplete.TimerFired
         (Autocomplete.run [Autocomplete.Typed "Paris"; Autocomplete.Typed "P"]
            Scenarios.page))
    = [req]
    /\ Autocomplete.r_query req = "Paris".
Proof.
  refine (proj1 (proj2 (proj2
            (shortened_input_still_fetches "Paris" "P" Scenarios.page eq_refl _ _))));
    vm_compute; lia.
Defined.

(** X26.  A request that fails otherwise than by the timeout (a network
    error, an HTTP error status, an unreadable body) shows no error:
    the call waits 1 s for a retry that the [isLoading] guard then
    drops, and the list is left on "Loading suggestions..." with
    nothing in flight. *)
Theorem failed_request_shows_no_error
    (w : Autocomplete.World) (q : string)
    (outcome : Browser.FetchOutcome (option Autocomplete.SuggestData)) (e : JsError) :
  Autocomplete.isLoading (Autocomplete.session w) = false ->
  (Autocomplete.minLength (Autocomplete.session w) <= String.length (trim q))%nat ->
  outcome = Browser.FFail e
  \/ (exists status statusText json,
        outcome = Browser.FResponse status statusText json
        /\ Browser.response_ok status = false
        /\ e = Browser.http_error status statusText)
  \/ (exists status statusText,
        outcome = Browser.FResponse status statusText (Browser.JFail e)
        /\ Browser.response_ok status = true) ->
  String.eqb (err_name e) "AbortError" = false ->
  includes (err_message e) "429" = false ->
  let id := Autocomplete.next_task w in
  let w' := Autocomplete.run
              [ Autocomplete.Typed q; Autocomplete.TimerFired;
                Autocomplete.FetchSettled id outcome; Autocomplete.DelayElapsed id ] w in
  List.length (Autocomplete.requests w') = S (List.length (Autocomplete.requests w))
  /\ Autocomplete.waits w' = List.app (Autocomplete.waits w) [1000]
  /\ Autocomplete.tasks w' = delete id (Autocomplete.tasks w)
  /\ Autocomplete.isLoading (Autocomplete.session w') = false
  /\ Autocomplete.listContent (Autocomplete.session w') = Autocomplete.Loading.
Proof.
  intros Hidle Hq Hout Hname Hmsg id w'. subst id w'.
  rewrite run_cons2, (typed_then_fired q w Hidle Hq).
  match goal with |- context [Autocomplete.run _ ?x] => set (w1 := x) end.
  assert (H1 : Autocomplete.tasks w1 !! Autocomplete.next_task w
               = Some (Autocomplete.AwaitSuggestions (trim q) 1))
    by (subst w1; cbn; apply lookup_insert_eq).
  assert (Hc : Autocomplete.fetch_catch (Autocomplete.next_task w) (trim q) 1 e
                 (Autocomplete.settle (Autocomplete.next_task w) w1)
               = Autocomplete.schedule_retry (Autocomplete.next_task w) (trim q) 1
                   (Autocomplete.settle (Autocomplete.next_task w) w1)).
  { unfold Autocomplete.fetch_catch. rewrite Hname, Hmsg. reflexivity. }
  assert (Hs : Autocomplete.step
                 (Autocomplete.FetchSettled (Autocomplete.next_task w) outcome) w1
               = Autocomplete.schedule_retry (Autocomplete.next_task w) (trim q) 1
                   (Autocomplete.settle (Autocomplete.next_task w) w1)).
  { unfold Autocomplete.step. rewrite H1. unfold Autocomplete.fetch_settled.
    destruct Hout as [->|[(status & text & json & -> & Hok & ->)|(status & text & -> & Hok)]].
    - exact Hc.
    - rewrite Hok. cbn [negb]. destruct ((status =? 429) && (1 <=? 2)); [reflexivity|exact Hc].
    - rewrite Hok. cbn [negb]. exact Hc. }
  assert (Hd : Autocomplete.step (Autocomplete.DelayElapsed (Autocomplete.next_task w))
                 (Autocomplete.schedule_retry (Autocomplete.next_task w) (trim q) 1
                    (Autocomplete.settle (Autocomplete.next_task w) w1))
               = Autocomplete.finish
                   (Autocomplete.settle (Autocomplete.next_task w)
                      (Autocomplete.schedule_retry (Autocomplete.next_task w) (trim q) 1
                         (Autocomplete.settle (Autocomplete.next_task w) w1)))).
  { unfold Autocomplete.step.
    cbn [Autocomplete.tasks Autocomplete.schedule_retry Autocomplete.resuspend].
    rewrite lookup_insert_eq. apply retry_is_dropped. reflexivity. }
  unfold Autocomplete.run. cbn [List.fold_left]. rewrite Hs, Hd.
  subst w1. cbn.
  split; [rewrite List.length_app; cbn; lia|].
  repeat split.
  now rewrite !delete_insert_eq, delete_delete_eq.
Qed.

Lemma failed_request_shows_no_error_witness :
  let w' := Autocomplete.run
              [ Autocomplete.Typed "Paris"; Autocomplete.TimerFired;
                Autocomplete.FetchSettled 0
                  (Browser.FResponse 500 "Internal Server Error"
                     (Browser.JFail (TypeError "Unexpected token")));
                Autocomplete.DelayElapsed 0 ]
              Scenarios.page in
  Autocomplete.isLoading (Autocomplete.session w') = false
  /\ Autocomplete.listContent (Autocomplete.session w') = Autocomplete.Loading.
Proof.
  pose proof (failed_request_shows_no_error Scenarios.page "Paris"
                (Browser.FResponse 500 "Internal Server Error"
                   (Browser.JFail (TypeError "Unexpected token")))
                (Browser.http_error 500 "Internal Server Error")
                eq_refl) as H.
  cbv zeta in H.
  destruct H as (_ & _ & _ & Hl & Hc);
    [vm_compute; lia
    |right; left; eexists _, _, _; repeat split
    |reflexivity|vm_compute; reflexivity|].
  split; [exact Hl|exact Hc].
Defined.

(** ** The autocomplete: keyboard *)

Section KeyboardExtras.
Import Browser Map Autocomplete.

Lemma set_currentIndex_same (s : Session) : set_currentIndex (currentIndex s) s = s.
Proof. now destruct s. Qed.

Lemma moveSelection_index (direction : Z) (s : Session) :
  (0 < item_count s)%nat ->
  moveSelection direction s
  = set_currentIndex
      (let i := currentIndex s + direction in
       if i <? 0 then Z.of_nat (item_count s) - 1
       else if Z.of_nat (item_count s) <=? i then 0 else i) s.
Proof.
  intros Hn. unfold moveSelection.
  destruct (Z.eqb_spec (Z.of_nat (item_count s)) 0) as [E|_]; [lia|reflexivity].
Qed.

(** [k] presses of ArrowDown from the index [i]. *)
Lemma moveSelection_iter (s : Session) (k : nat) :
  (0 < item_count s)%nat ->
  0 <= currentIndex s < Z.of_nat (item_count s) ->
  Nat.iter k (moveSelection 1) s
  = set_currentIndex ((currentIndex s + Z.of_nat k) mod Z.of_nat (item_count s)) s.
Proof.
  intros Hn Hi. induction k as [|k IH].
  - change (Nat.iter 0 (moveSelection 1) s) with s.
    change (Z.of_nat 0) with 0. rewrite Z.add_0_r, Z.mod_small by lia.
    now rewrite set_currentIndex_same.
  - rewrite Nat.iter_succ, IH.
    set (n := Z.of_nat (item_count s)) in *.
    set (r := (currentIndex s + Z.of_nat k) mod n).
    assert (Hr : 0 <= r < n) by (apply Z.mod_pos_bound; lia).
    rewrite moveSelection_index by exact Hn.
    change (item_count (set_currentIndex r s)) with (item_count s).
    change (currentIndex (set_currentIndex r s)) with r. fold n. cbv zeta.
    replace (currentIndex s + Z.of_nat (S k)) with ((currentIndex s + Z.of_nat k) + 1) by lia.
    rewrite <- Zplus_mod_idemp_l. fold r.
    destruct (Z.ltb_spec (r + 1) 0) as [|_]; [lia|].
    destruct (Z.leb_spec n (r + 1)) as [Hw|Hw].
    + replace (r + 1) with n by lia. rewrite Z_mod_same_full. reflexivity.
    + rewrite Z.mod_small by lia. reflexivity.
Qed.

Lemma enter_is_click (v : World) :
  listVisible (session v) = true ->
  0 <= currentIndex (session v) < Z.of_nat (List.length (suggestions (session v))) ->
  onKeyDown Enter v = step (Clicked (currentIndex (session v))) v.
Proof.
  intros Hv Hi. unfold onKeyDown, selectCurrent. rewrite Hv. cbn [negb step].
  destruct (Z.leb_spec 0 (currentIndex (session v))); [|lia].
  destruct (Z.ltb_spec (currentIndex (session v))
              (Z.of_nat (List.length (suggestions (session v))))); [|lia].
  reflexivity.
Qed.

Lemma arrow_index (key : Key) (d : Z) (v : World) :
  key = ArrowDown /\ d = 1 \/ key = ArrowUp /\ d = -1 ->
  listVisible (session v) = true ->
  onKeyDown key v = on_session (moveSelection d) v.
Proof.
  intros [[-> ->]|[-> ->]] Hv; unfold onKeyDown; rewrite Hv; reflexivity.
Qed.

Lemma selectSuggestion_hides (i : Z) (v : World) (sg : Suggestion) :
  suggestion_at i (session v) = Some sg ->
  listVisible (session (selectSuggestion i v)) = false.
Proof.
  intros Hsg. unfold selectSuggestion. rewrite Hsg.
  unfold updateMapLocation. cbn [listingMap set_form on_session set_session].
  destruct (listingMap v) as [m|]; [|reflexivity].
  destruct (coordinates sg) as [[lng lat]|].
  - destruct (valid_coordinates lat lng); reflexivity.
  - destruct (search_sends m (address sg)); reflexivity.
Qed.

End KeyboardExtras.

(** X27.  Whatever the direction and whatever the index was (the mouse
    may have set any), after [moveSelection] on a list with items the
    index points at one of them, so [items[this.currentIndex]] exists;
    on a list without items nothing changes. *)
Theorem moveSelection_stays_in_list (direction : Z) (s : Autocomplete.Session) :
  let s' := Autocomplete.moveSelection direction s in
  Autocomplete.item_count s' = Autocomplete.item_count s
  /\ (Autocomplete.item_count s = 0%nat -> s' = s)
  /\ ((0 < Autocomplete.item_count s)%nat ->
      0 <= Autocomplete.currentIndex s' < Z.of_nat (Autocomplete.item_count s)).
Proof.
  cbv zeta. unfold Autocomplete.moveSelection.
  destruct (Z.eqb_spec (Z.of_nat (Autocomplete.item_count s)) 0) as [E|E].
  - split; [reflexivity|]. split; [reflexivity|lia].
  - split; [reflexivity|]. split; [lia|]. intros _.
    cbn [Autocomplete.currentIndex Autocomplete.set_currentIndex].
    destruct (Z.ltb_spec (Autocomplete.currentIndex s + direction) 0); [lia|].
    destruct (Z.leb_spec (Z.of_nat (Autocomplete.item_count s))
                (Autocomplete.currentIndex s + direction)); lia.
Qed.

(** X28.  The selection wraps around: from a highlighted item,
    ArrowUp undoes ArrowDown and ArrowDown undoes ArrowUp, and as many
    ArrowDown presses as there are items come back to the same item. *)
Theorem moveSelection_wraps_around (s : Autocomplete.Session) :
  0 <= Autocomplete.currentIndex s < Z.of_nat (Autocomplete.item_count s) ->
  Autocomplete.moveSelection (-1) (Autocomplete.moveSelection 1 s) = s
  /\ Autocomplete.moveSelection 1 (Autocomplete.moveSelection (-1) s) = s
  /\ Nat.iter (Autocomplete.item_count s) (Autocomplete.moveSelection 1) s = s.
Proof.
  intros Hi.
  assert (Hn : (0 < Autocomplete.item_count s)%nat) by lia.
  assert (Hstep : forall d d',
            d = 1 /\ d' = -1 \/ d = -1 /\ d' = 1 ->
            Autocomplete.moveSelection d' (Autocomplete.moveSelection d s) = s).
  { intros d d' Hd.
    rewrite (moveSelection_index d s Hn). cbv zeta.
    set (n := Z.of_nat (Autocomplete.item_count s)) in *.
    set (j := if Autocomplete.currentIndex s + d <? 0 then n - 1
              else if n <=? Autocomplete.currentIndex s + d then 0
                   else Autocomplete.currentIndex s + d).
    assert (Hj : (if j + d' <? 0 then n - 1 else if n <=? j + d' then 0 else j + d')
                 = Autocomplete.currentIndex s).
    { subst j.
      destruct (Z.ltb_spec (Autocomplete.currentIndex s + d) 0);
        [|destruct (Z.leb_spec n (Autocomplete.currentIndex s + d))];
        match goal with
        | |- (if ?x + d' <? 0 then _ else _) = _ =>
            destruct (Z.ltb_spec (x + d') 0); [|destruct (Z.leb_spec n (x + d'))]
        end; lia. }
    clearbody j.
    rewrite moveSelection_index by exact Hn.
    change (Autocomplete.item_count (Autocomplete.set_currentIndex j s))
      with (Autocomplete.item_count s).
    change (Autocomplete.currentIndex (Autocomplete.set_currentIndex j s)) with j.
    fold n. cbv zeta. rewrite Hj.
    change (Autocomplete.set_currentIndex (Autocomplete.currentIndex s)
              (Autocomplete.set_currentIndex j s))
      with (Autocomplete.set_currentIndex (Autocomplete.currentIndex s) s).
    apply set_currentIndex_same. }
  split; [apply Hstep; auto|]. split; [apply Hstep; auto|].
  rewrite (moveSelection_iter s (Autocomplete.item_count s) Hn Hi).
  rewrite <- Zplus_mod_idemp_r, Z_mod_same_full, Z.add_0_r, Z.mod_small by lia.
  apply set_currentIndex_same.
Qed.

Lemma moveSelection_wraps_around_witness :
  Nat.iter 3 (Autocomplete.moveSelection 1)
    (Autocomplete.set_currentIndex 1
       (Autocomplete.set_listContent
          (Autocomplete.Items [Scenarios.paris; Scenarios.paris; Scenarios.paris])
          (Autocomplete.new_session "listing[location]")))
  = Autocomplete.set_currentIndex 1
      (Autocomplete.set_listContent
         (Autocomplete.Items [Scenarios.paris; Scenarios.paris; Scenarios.paris])
         (Autocomplete.new_session "listing[location]")).
Proof.
  apply (moveSelection_wraps_around
           (Autocomplete.set_currentIndex 1
              (Autocomplete.set_listContent
                 (Autocomplete.Items [Scenarios.paris; Scenarios.paris; Scenarios.paris])
                 (Autocomplete.new_session "listing[location]")))).
  vm_compute. split; [discriminate|reflexivity].
Defined.

(** X29.  Once suggestions are displayed nothing is highlighted, and
    Enter selects nothing; ArrowDown highlights the first item and
    ArrowUp the last, and Enter then does what a click on that item
    does. *)
Theorem keyboard_selects_like_a_click
    (w : Autocomplete.World) (sg : Autocomplete.Suggestion)
    (rest : list Autocomplete.Suggestion) :
  let shown := Autocomplete.on_session
                 (fun s => Autocomplete.displaySuggestions
                             (Autocomplete.set_suggestions (sg :: rest) s)) w in
  let down := Autocomplete.onKeyDown Autocomplete.ArrowDown shown in
  let up := Autocomplete.onKeyDown Autocomplete.ArrowUp shown in
  Autocomplete.onKeyDown Autocomplete.Enter shown = shown
  /\ Autocomplete.currentIndex (Autocomplete.session down) = 0
  /\ Autocomplete.currentIndex (Autocomplete.session up) = Z.of_nat (List.length rest)
  /\ Autocomplete.onKeyDown Autocomplete.Enter down
     = Autocomplete.step (Autocomplete.Clicked 0) down
  /\ Autocomplete.onKeyDown Autocomplete.Enter up
     = Autocomplete.step (Autocomplete.Clicked (Z.of_nat (List.length rest))) up
  /\ Autocomplete.suggestion_at 0 (Autocomplete.session down) = Some sg
  /\ Autocomplete.listVisible
       (Autocomplete.session (Autocomplete.onKeyDown Autocomplete.Enter down)) = false.
Proof.
  intros shown down up.
  assert (Hv : Autocomplete.listVisible (Autocomplete.session shown) = true) by reflexivity.
  assert (Hdown : down = Autocomplete.on_session (Autocomplete.set_currentIndex 0) shown).
  { subst down. rewrite (arrow_index Autocomplete.ArrowDown 1 shown) by auto.
    reflexivity. }
  assert (Hup : up = Autocomplete.on_session
                       (Autocomplete.set_currentIndex (Z.of_nat (List.length rest))) shown).
  { subst up. rewrite (arrow_index Autocomplete.ArrowUp (-1) shown) by auto.
    unfold Autocomplete.on_session.
    rewrite moveSelection_index by (cbn; lia).
    replace (Z.of_nat (List.length rest))
      with (Z.of_nat (Autocomplete.item_count (Autocomplete.session shown)) - 1)
      by (cbn [Autocomplete.item_count]; cbn; lia).
    reflexivity. }
  split.
  { unfold Autocomplete.onKeyDown, Autocomplete.selectCurrent. rewrite Hv. reflexivity. }
  split; [rewrite Hdown; reflexivity|].
  split; [rewrite Hup; reflexivity|].
  split.
  { rewrite (enter_is_click down); rewrite Hdown; [reflexivity|reflexivity|].
    cbn. lia. }
  split.
  { rewrite (enter_is_click up); rewrite Hup; [reflexivity|reflexivity|].
    cbn. lia. }
  split; [rewrite Hdown; reflexivity|].
  rewrite (enter_is_click down); rewrite Hdown; [|reflexivity|cbn; lia].
  apply (selectSuggestion_hides 0 _ sg). reflexivity.
Qed.

(** ** Confirming a pin *)

(** X30.  Confirming a pin on a page whose location input carries the
    autocomplete: the marker and the centre move to the pin, the
    address and the coordinates are written into the form, and the
    [input] event dispatched for validation re-arms the autocomplete's
    debounce, so that suggestions for the confirmed address are
    requested when the timer fires. *)
Theorem confirmLocation_restarts_autocomplete
    (lat lng : JsNum) (address old : string) (w : Autocomplete.World) (m : Map.ListingMap) :
  Autocomplete.listingMap w = Some m ->
  Autocomplete.input_name (Autocomplete.session w) = "listing[location]" ->
  Autocomplete.form w !! "listing[location]" = Some old ->
  Autocomplete.isLoading (Autocomplete.session w) = false ->
  (Autocomplete.minLength (Autocomplete.session w) <= String.length (trim address))%nat ->
  address <> "" ->
  let w' := Autocomplete.confirmLocation lat lng address w in
  (exists m', Autocomplete.listingMap w' = Some m'
              /\ Map.marker m' = Some (lat, lng) /\ Map.center m' = Some (lat, lng)
              /\ Map.popup m' = Some (Map.MarkerPopup lat lng))
  /\ Autocomplete.form w' !! "listing[location]" = Some address
  /\ Autocomplete.form w' !! "listing[latitude]"
     = (fun _ => num_to_string lat) <$> (Autocomplete.form w !! "listing[latitude]")
  /\ Autocomplete.debounceTimer (Autocomplete.session w') = Some (trim address)
  /\ exists req,
       Autocomplete.requests (Autocomplete.step Autocomplete.TimerFired w')
       = List.app (Autocomplete.requests w) [req]
       /\ Autocomplete.r_query req = trim address.
Proof.
  intros Hmap Hname Hold Hidle Hlen Haddr w'. subst w'.
  unfold Autocomplete.confirmLocation. rewrite Hmap.
  unfold Map.setLocation, Map.updateLocationFields, Browser.set_field.
  assert (Ht : truthy (VStr address) = true).
  { cbn. destruct address; [congruence|reflexivity]. }
  rewrite Ht. cbn [to_string].
  set (form' := alter (fun _ => num_to_string lng) "listing[longitude]"
                  (alter (fun _ => num_to_string lat) "listing[latitude]"
                     (alter (fun _ => address) "listing[location]" (Autocomplete.form w)))).
  assert (Hloc : form' !! "listing[location]" = Some address).
  { subst form'. rewrite !lookup_alter_pointwise.
    repeat (case_decide; try discriminate; try congruence). now rewrite Hold. }
  assert (Hlat : form' !! "listing[latitude]"
                 = (fun _ => num_to_string lat) <$> (Autocomplete.form w !! "listing[latitude]")).
  { subst form'. rewrite !lookup_alter_pointwise.
    repeat (case_decide; try discriminate; try congruence).
    destruct (Autocomplete.form w !! "listing[latitude]"); reflexivity. }
  clearbody form'. rewrite Hloc.
  cbn [Autocomplete.session Autocomplete.set_form Autocomplete.set_listingMap].
  rewrite Hname. cbn [String.eqb Ascii.eqb Bool.eqb].
  replace (String.eqb "listing[location]" "listing[location]") with true by reflexivity.
  unfold Autocomplete.onInput.
  cbn [Autocomplete.session Autocomplete.set_form Autocomplete.set_listingMap].
  destruct (Nat.ltb_spec (String.length (trim address))
              (Autocomplete.minLength (Autocomplete.session w))) as [Hlt|_]; [lia|].
  split; [eexists; split; [reflexivity|repeat split]|].
  split; [exact Hloc|]. split; [exact Hlat|]. split; [reflexivity|].
  cbn. unfold Autocomplete.fetchSuggestions. cbn. rewrite Hidle. cbn.
  eexists. split; reflexivity.
Qed.

Lemma confirmLocation_restarts_autocomplete_witness :
  Autocomplete.debounceTimer
    (Autocomplete.session
       (Autocomplete.confirmLocation (Dec 488566 4) (Dec 23522 4) "Paris, France"
          (Autocomplete.set_listingMap (Some Scenarios.edit_map) Scenarios.page)))
  = Some "Paris, France".
Proof.
  refine (proj1 (proj2 (proj2 (proj2
            (confirmLocation_restarts_autocomplete (Dec 488566 4) (Dec 23522 4)
               "Paris, France" ""
               (Autocomplete.set_listingMap (Some Scenarios.edit_map) Scenarios.page)
               Scenarios.edit_map eq_refl eq_refl _ eq_refl _ _)))));
    [vm_compute; reflexivity|vm_compute; lia|discriminate].
Defined.

